(** * AI Weather Predictor (apps/ai-predictor/app.py)

    A shallow embedding of the prediction service: the [AIWeatherPredictor]
    object, its start-up ([__init__], [_initialize_model],
    [_train_dummy_model]) and its request path ([predict_weather]).

    Numbers are the program's own: a Python [float] (and a NumPy [float64])
    is an IEEE-754 binary64 value, here Rocq's primitive [float]; a Python
    [int] is a [Z].  The object's attributes and the process environment
    (files of the working directory, NumPy's global generator, the wall
    clock, the log, the latency histogram) are threaded explicitly; an
    exception leaves every mutation made before it in place, as in Python.

    scikit-learn, NumPy's generator and joblib are not code of this
    repository: they are taken through the interface [Library], and a small
    executable instance ([Demo]) is given to run the service on concrete
    inputs.  [round] is the one library function whose result a statement of
    the specification depends on (the range of the returned confidence); it
    is modelled in full. *)

From Stdlib Require Import ZArith List String Floats Bool Lia.
From stdpp Require Import gmap strings.
Import ListNotations.

(* Decimal literals such as 0.6 denote the nearest binary64 value, exactly
   as the same literal does in Python. *)
Set Warnings "-inexact-float".

Open Scope string_scope.

(** ** Exceptions and results *)

(** Exceptions that cross a [try]: [Exception cls msg] is any exception
    derived from Python's [Exception] raised by library code ([cls] its class
    name, [msg] its [str]); [HTTPException] is FastAPI's, itself derived from
    [Exception]. *)
Inductive exn : Type :=
| Exception (cls : string) (msg : string)
| HTTPException (status_code : Z) (detail : string).

(** [str(e)], as an f-string formats it. *)
Definition exn_str (e : exn) : string :=
  match e with
  | Exception _ msg => msg
  | HTTPException _ detail => detail
  end.

Inductive result (A : Type) : Type :=
| Ok (a : A)
| Raise (e : exn).
Arguments Ok {A} a.
Arguments Raise {A} e.

Definition result_bind {A B : Type} (r : result A) (k : A -> result B) : result B :=
  match r with
  | Ok a => k a
  | Raise e => Raise e
  end.

(** ** Data model *)

(** An element of a Python list literal handed to [np.array]: the request's
    [float] fields and its [int] fields are kept apart. *)
Inductive pynum : Type :=
| PyFloat (x : float)
| PyInt (n : Z).

(** A two-dimensional float64 array, row by row. *)
Definition matrix : Type := list (list float).

(** [datetime.datetime]: only its fields are needed. *)
Record datetime : Type := mk_datetime {
  year : Z; month : Z; day : Z;
  hour : Z; minute : Z; second : Z; microsecond : Z
}.

(** An arbitrary JSON value, for the entries of [historical_data]. *)
#[local] Unset Elimination Schemes.
Inductive pyvalue : Type :=
| VNone
| VBool (b : bool)
| VInt (n : Z)
| VFloat (x : float)
| VStr (s : string)
| VList (l : list pyvalue)
| VDict (d : list (string * pyvalue)).
#[local] Set Elimination Schemes.

Definition Dict : Type := list (string * pyvalue).

Module WeatherInput.
Record t : Type := mk {
  location : string;
  current_temp : float;
  humidity : Z;
  pressure : float;
  wind_speed : float;
  historical_data : option (list Dict)
}.
End WeatherInput.

Module WeatherPrediction.
Record t : Type := mk {
  location : string;
  predicted_temp : float;
  confidence : float;
  forecast_hours : Z;
  timestamp : datetime;
  model_version : string
}.
End WeatherPrediction.

(** ** Python's [min], [max] and [abs] on floats

    [max(a, b)] starts from [a] and takes [b] only when [b > a];
    [min(a, b)] takes [b] only when [b < a].  A comparison with NaN is
    false, so the first argument wins. *)
Definition py_max (a b : float) : float := if PrimFloat.ltb a b then b else a.
Definition py_min (a b : float) : float := if PrimFloat.ltb b a then b else a.

(** ** Python's [round]

    [round(x, ndigits)] calls [x.__round__(ndigits)].  The service rounds
    [predicted_temp], an entry of the array [predict] returns, and
    [confidence], computed from it: both are [numpy.float64], whose
    [__round__] is NumPy's [round]: multiply by [10^ndigits], round to the
    nearest integer with C's [rint], divide by [10^ndigits].  When the clamp
    returns one of its bounds, the [float] literals 0.6 and 0.95, it is the
    builtin [float.__round__] that is called; it gives the same answers on
    these two values (lemma [round_at_the_bounds]). *)

(** The integer nearest to [a / d], ties to even. *)
Definition div_half_even (a d : Z) : Z :=
  let q := (a / d)%Z in
  let r := (a mod d)%Z in
  if (2 * r <? d)%Z then q
  else if (d <? 2 * r)%Z then (q + 1)%Z
  else if Z.even q then q else (q + 1)%Z.

(** The float nearest to an integer. *)
Definition float_of_Z (z : Z) : float :=
  SF2Prim (binary_normalize prec emax z 0 false).

(** C's [rint] in the default rounding mode: the integer nearest to [x],
    ties to even, with the sign of [x]; a float of exponent 0 or more is an
    integer already. *)
Definition rint (x : float) : float :=
  match Prim2SF x with
  | S754_finite s m e =>
      if (0 <=? e)%Z then x
      else SF2Prim (binary_normalize prec emax
                      (cond_Zopp s (div_half_even (Z.pos m) (2 ^ (- e)))) 0 s)
  | _ => x
  end.

(** NumPy's [power_of_ten]: a table of exact powers, continued by
    multiplications by 10; up to [10^22] the products are exact as well. *)
Fixpoint power_of_ten (n : nat) : float :=
  match n with
  | O => 1%float
  | S n' => (power_of_ten n' * 10)%float
  end.

(** [numpy.float64.__round__(decimals)], that is [np.round(x, decimals)] *)
Definition np_round (x : float) (decimals : Z) : float :=
  match decimals with
  | Z0 => rint x
  | Zpos p => (rint (x * power_of_ten (Pos.to_nat p)) / power_of_ten (Pos.to_nat p))%float
  | Zneg p => (rint (x / power_of_ten (Pos.to_nat p)) * power_of_ten (Pos.to_nat p))%float
  end.

(** [float.__round__(ndigits)] for [ndigits >= 0]: the decimal with
    [ndigits] places nearest to the exact value of [x] (ties to even), then
    the float nearest to that decimal. *)
Definition float_round (x : float) (ndigits : Z) : float :=
  match Prim2SF x with
  | S754_finite s m e =>
      let num := (Z.pos m * 10 ^ ndigits)%Z in
      let z := if (0 <=? e)%Z then (num * 2 ^ e)%Z else div_half_even num (2 ^ (- e)) in
      let q := (float_of_Z z / float_of_Z (10 ^ ndigits))%float in
      if s then (- q)%float else q
  | _ => x
  end.

(** [round(x, ndigits)] as the service calls it. *)
Definition py_round (x : float) (ndigits : Z) : float := np_round x ndigits.

(** ** The libraries, through their interface *)

Class Library : Type := {
  (** fitted state of a [StandardScaler] (mean_, scale_, ...) *)
  scaler_params : Type;
  (** fitted state of a [RandomForestRegressor] (estimators_) *)
  forest : Type;
  (** state of NumPy's global generator *)
  rng_state : Type;
  (** [np.random.seed(n)] *)
  np_random_seed : Z -> rng_state;
  (** one uniform draw of [np.random.rand] *)
  random_sample : rng_state -> float * rng_state;
  (** one draw of [np.random.normal(loc, scale)] *)
  normal_sample : float -> float -> rng_state -> float * rng_state;
  (** [StandardScaler.fit(X)] *)
  scaler_fit : matrix -> result scaler_params;
  (** [StandardScaler.transform(X)] on a fitted scaler; the argument is the
      array as the caller built it, input validation included *)
  scaler_transform : scaler_params -> list (list pynum) -> result matrix;
  (** [RandomForestRegressor(n_estimators, max_depth, random_state).fit(X, y)];
      with an integer [random_state] the fit draws from a generator of its
      own, seeded with it *)
  forest_fit : Z -> option Z -> Z -> matrix -> list float -> result forest;
  (** [RandomForestRegressor.predict(X)] on a fitted forest *)
  forest_predict : forest -> matrix -> result (list float);
  (** any other object a file may pickle, with the four methods the service
      calls on the objects it holds; a method the object does not have
      raises [AttributeError], and a method that changes the object returns
      its new state *)
  foreign : Type;
  foreign_transform : foreign -> list (list pynum) -> result matrix;
  foreign_predict : foreign -> matrix -> result (list float);
  foreign_fit_transform : foreign -> matrix -> result (foreign * matrix);
  foreign_fit : foreign -> matrix -> list float -> result foreign
}.

Section Service.
Context {L : Library}.

(** ** Objects *)

(** [StandardScaler()]: unfit until [fit] stores its parameters. *)
Record StandardScaler : Type := mk_StandardScaler {
  fitted : option scaler_params
}.

(** [RandomForestRegressor(n_estimators, random_state, max_depth)]: the
    service always passes an integer seed; [max_depth] defaults to [None]. *)
Record RandomForestRegressor : Type := mk_RandomForestRegressor {
  n_estimators : Z;
  random_state : Z;
  max_depth : option Z;
  estimators_ : option forest
}.

(** What an attribute of the predictor may hold: attributes are untyped, and
    [joblib.load] returns whatever object the file pickles, the two classes
    the service creates or any other. *)
Inductive pyobj : Type :=
| PyNone
| PyStandardScaler (s : StandardScaler)
| PyRandomForestRegressor (m : RandomForestRegressor)
| PyObject (o : foreign).

Record AIWeatherPredictor : Type := mk_AIWeatherPredictor {
  model : pyobj;
  scaler : pyobj;
  model_version : string;
  is_trained : bool
}.

(** The content of a file: a pickled object, or bytes that do not unpickle. *)
Inductive blob : Type :=
| Pickle (o : pyobj)
| Corrupt.

(** The process environment. *)
Record World : Type := mk_World {
  (** files of the working directory, by name *)
  files : gmap string blob;
  (** whether the operating system lets the process write a file *)
  writable : string -> bool;
  (** NumPy's global generator *)
  rng : rng_state;
  (** what the k-th call of [datetime.now()] returns, and calls made so far *)
  clock : nat -> datetime;
  ticks : nat;
  (** records of [logger], oldest first: level and message *)
  log : list (string * string);
  (** observations recorded by the [PREDICTION_TIME] histogram *)
  prediction_time_count : nat
}.

Definition State : Type := AIWeatherPredictor * World.

(** ** The monad of methods: state and exceptions *)

Definition M (A : Type) : Type := State -> result A * State.

Definition ret {A : Type} (a : A) : M A := fun st => (Ok a, st).

Definition bind {A B : Type} (c : M A) (k : A -> M B) : M B :=
  fun st =>
    match c st with
    | (Ok a, st') => k a st'
    | (Raise e, st') => (Raise e, st')
    end.

Definition raise {A : Type} (e : exn) : M A := fun st => (Raise e, st).

(** [try: body  except Exception as e: handler e] *)
Definition try_except {A : Type} (body : M A) (handler : exn -> M A) : M A :=
  fun st =>
    match body st with
    | (Ok a, st') => (Ok a, st')
    | (Raise e, st') => handler e st'
    end.

(** A library call that touches no state. *)
Definition lift {A : Type} (r : result A) : M A := fun st => (r, st).

End Service.

Declare Scope py_scope.
Delimit Scope py_scope with py.
Notation "x <- c ;; k" := (bind c (fun x => k))
  (at level 100, c at next level, right associativity) : py_scope.
Notation "c ;; k" := (bind c (fun _ => k))
  (at level 100, right associativity) : py_scope.

Section Methods.
Context {L : Library}.
Local Open Scope py_scope.

(** ** Attribute access and assignment on [self] *)

Definition get_model : M pyobj := fun st => (Ok (model (fst st)), st).
Definition get_scaler : M pyobj := fun st => (Ok (scaler (fst st)), st).
Definition get_model_version : M string := fun st => (Ok (model_version (fst st)), st).
Definition get_is_trained : M bool := fun st => (Ok (is_trained (fst st)), st).

Definition set_model (o : pyobj) : M unit :=
  fun st => let self := fst st in
    (Ok tt, (mk_AIWeatherPredictor o (scaler self) (model_version self) (is_trained self), snd st)).
Definition set_scaler (o : pyobj) : M unit :=
  fun st => let self := fst st in
    (Ok tt, (mk_AIWeatherPredictor (model self) o (model_version self) (is_trained self), snd st)).
Definition set_model_version (v : string) : M unit :=
  fun st => let self := fst st in
    (Ok tt, (mk_AIWeatherPredictor (model self) (scaler self) v (is_trained self), snd st)).
Definition set_is_trained (b : bool) : M unit :=
  fun st => let self := fst st in
    (Ok tt, (mk_AIWeatherPredictor (model self) (scaler self) (model_version self) b, snd st)).

(** ** The environment *)

Definition with_files (f : gmap string blob) (w : World) : World :=
  mk_World f (writable w) (rng w) (clock w) (ticks w) (log w) (prediction_time_count w).
Definition with_rng (g : rng_state) (w : World) : World :=
  mk_World (files w) (writable w) g (clock w) (ticks w) (log w) (prediction_time_count w).
Definition with_ticks (n : nat) (w : World) : World :=
  mk_World (files w) (writable w) (rng w) (clock w) n (log w) (prediction_time_count w).
Definition with_log (l : list (string * string)) (w : World) : World :=
  mk_World (files w) (writable w) (rng w) (clock w) (ticks w) l (prediction_time_count w).
Definition with_prediction_time_count (n : nat) (w : World) : World :=
  mk_World (files w) (writable w) (rng w) (clock w) (ticks w) (log w) n.

(** [logger.info(msg)] and [logger.error(msg)] *)
Definition logger_info (msg : string) : M unit :=
  fun st => (Ok tt, (fst st, with_log (log (snd st) ++ [("INFO", msg)]) (snd st))).
Definition logger_error (msg : string) : M unit :=
  fun st => (Ok tt, (fst st, with_log (log (snd st) ++ [("ERROR", msg)]) (snd st))).

(** [datetime.now()]: the next reading of the wall clock. *)
Definition datetime_now : M datetime :=
  fun st => let w := snd st in
    (Ok (clock w (ticks w)), (fst st, with_ticks (S (ticks w)) w)).

(** [with PREDICTION_TIME.time(): body]: the histogram records one
    observation when the block is left, by return or by exception. *)
Definition with_PREDICTION_TIME {A : Type} (body : M A) : M A :=
  fun st =>
    match body st with
    | (r, (self, w)) => (r, (self, with_prediction_time_count (S (prediction_time_count w)) w))
    end.

(** [os.path.exists(path)] *)
Definition os_path_exists (path : string) : M bool :=
  fun st =>
    (Ok match files (snd st) !! path with Some _ => true | None => false end, st).

(** [joblib.load(path)] *)
Definition joblib_load (path : string) : M pyobj :=
  fun st =>
    match files (snd st) !! path with
    | Some (Pickle o) => (Ok o, st)
    | Some Corrupt => (Raise (Exception "UnpicklingError" "invalid load key"), st)
    | None => (Raise (Exception "FileNotFoundError" ("No such file or directory: " +:+ path)), st)
    end.

(** [joblib.dump(obj, path)] *)
Definition joblib_dump (o : pyobj) (path : string) : M unit :=
  fun st => let w := snd st in
    if writable w path
    then (Ok tt, (fst st, with_files (<[path := Pickle o]> (files w)) w))
    else (Raise (Exception "PermissionError" ("Permission denied: " +:+ path)), st).

(** ** NumPy *)

(** [np.random.seed(n)] *)
Definition np_random_seed_global (n : Z) : M unit :=
  fun st => (Ok tt, (fst st, with_rng (np_random_seed n) (snd st))).

Fixpoint draw_row (m : nat) (g : rng_state) : list float * rng_state :=
  match m with
  | O => ([], g)
  | S m' =>
      let (x, g1) := random_sample g in
      let (xs, g2) := draw_row m' g1 in
      (x :: xs, g2)
  end.

Fixpoint draw_rows (n m : nat) (g : rng_state) : matrix * rng_state :=
  match n with
  | O => ([], g)
  | S n' =>
      let (r, g1) := draw_row m g in
      let (rs, g2) := draw_rows n' m g1 in
      (r :: rs, g2)
  end.

(** [np.random.rand(n, m)]: an n-by-m array filled, row by row, with
    successive uniform draws of the global generator. *)
Definition np_random_rand (n m : nat) : M matrix :=
  fun st =>
    let (X, g) := draw_rows n m (rng (snd st)) in
    (Ok X, (fst st, with_rng g (snd st))).

Fixpoint draw_normal (loc scale : float) (n : nat) (g : rng_state) : list float * rng_state :=
  match n with
  | O => ([], g)
  | S n' =>
      let (x, g1) := normal_sample loc scale g in
      let (xs, g2) := draw_normal loc scale n' g1 in
      (x :: xs, g2)
  end.

(** [np.random.normal(loc, scale, n)] *)
Definition np_random_normal (loc scale : float) (n : nat) : M (list float) :=
  fun st =>
    let (v, g) := draw_normal loc scale n (rng (snd st)) in
    (Ok v, (fst st, with_rng g (snd st))).

Definition index_error {A : Type} : result A :=
  Raise (Exception "IndexError" "index is out of bounds").

(** [X[:, j]] *)
Definition get_col (j : nat) (X : matrix) : result (list float) :=
  if forallb (fun row => Nat.ltb j (length row)) X
  then Ok (map (fun row => nth j row 0%float) X)
  else index_error.

(** [X[:, j] = f(X[:, j])] for an elementwise [f] *)
Definition update_col (j : nat) (f : float -> float) (X : matrix) : result matrix :=
  if forallb (fun row => Nat.ltb j (length row)) X
  then Ok (map (fun row => alter f j row) X)
  else index_error.

(** Elementwise [a op b] on one-dimensional arrays of one length (the only
    shapes the service combines); other shapes do not broadcast. *)
Definition vec_op (op : float -> float -> float) (a b : list float) : result (list float) :=
  if Nat.eqb (length a) (length b)
  then Ok (zip_with op a b)
  else Raise (Exception "ValueError" "operands could not be broadcast together").

(** [np.array(rows)]: the array of the literal's elements. *)
Definition np_array (rows : list (list pynum)) : list (list pynum) := rows.

(** [a[0]] on a one-dimensional array *)
Definition index0 (a : list float) : result float :=
  match a with
  | x :: _ => Ok x
  | [] => index_error
  end.

(** ** Method calls on the objects held by [self] *)

Definition attribute_error {A : Type} (attr : string) : result A :=
  Raise (Exception "AttributeError" ("object has no attribute " +:+ attr)).

Definition not_fitted {A : Type} : result A :=
  Raise (Exception "NotFittedError" "This instance is not fitted yet.").

(** [o.transform(x)] *)
Definition call_transform (o : pyobj) (x : list (list pynum)) : result matrix :=
  match o with
  | PyStandardScaler s =>
      match fitted s with
      | Some p => scaler_transform p x
      | None => not_fitted
      end
  | PyObject o => foreign_transform o x
  | PyNone | PyRandomForestRegressor _ => attribute_error "transform"
  end.

(** [o.predict(x)] *)
Definition call_predict (o : pyobj) (x : matrix) : result (list float) :=
  match o with
  | PyRandomForestRegressor m =>
      match estimators_ m with
      | Some f => forest_predict f x
      | None => not_fitted
      end
  | PyObject o => foreign_predict o x
  | PyNone | PyStandardScaler _ => attribute_error "predict"
  end.

(** [self.scaler.fit_transform(X)]: [fit] stores the parameters in the
    object, then [transform] is applied to the same array. *)
Definition scaler_fit_transform (X : matrix) : M matrix :=
  sc <- get_scaler ;;
  match sc with
  | PyStandardScaler _ =>
      p <- lift (scaler_fit X) ;;
      set_scaler (PyStandardScaler (mk_StandardScaler (Some p))) ;;
      lift (scaler_transform p (map (map PyFloat) X))
  | PyObject o =>
      r <- lift (foreign_fit_transform o X) ;;
      set_scaler (PyObject (fst r)) ;;
      ret (snd r)
  | PyNone | PyRandomForestRegressor _ => lift (attribute_error "fit_transform")
  end.

(** [self.model.fit(X, y)]: the fitted state is stored in the object. *)
Definition model_fit (X : matrix) (y : list float) : M unit :=
  m <- get_model ;;
  match m with
  | PyRandomForestRegressor r =>
      f <- lift (forest_fit (n_estimators r) (max_depth r) (random_state r) X y) ;;
      set_model (PyRandomForestRegressor
                   (mk_RandomForestRegressor (n_estimators r) (random_state r) (max_depth r) (Some f)))
  | PyStandardScaler _ =>
      p <- lift (scaler_fit X) ;;
      set_model (PyStandardScaler (mk_StandardScaler (Some p)))
  | PyObject o =>
      o' <- lift (foreign_fit o X y) ;;
      set_model (PyObject o')
  | PyNone => lift (attribute_error "fit")
  end.

End Methods.

Section Predictor.
Context {L : Library}.
Local Open Scope py_scope.

(** ** [AIWeatherPredictor._train_dummy_model] (lines 81-109) *)

Definition _train_dummy_model : M unit :=
  np_random_seed_global 42 ;;
  let n_samples := 1000%nat in
  X <- np_random_rand n_samples 5 ;;
  X <- lift (update_col 0 (fun x => x * 40 - 10)%float X) ;;
  X <- lift (update_col 1 (fun x => x * 100)%float X) ;;
  X <- lift (update_col 2 (fun x => x * 100 + 950)%float X) ;;
  X <- lift (update_col 3 (fun x => x * 20)%float X) ;;
  X <- lift (update_col 4 (fun x => x * 24)%float X) ;;
  x0 <- lift (get_col 0 X) ;;
  x1 <- lift (get_col 1 X) ;;
  t1 <- lift (vec_op PrimFloat.add x0 (map (PrimFloat.mul 0.1) x1)) ;;
  x2 <- lift (get_col 2 X) ;;
  t2 <- lift (vec_op PrimFloat.sub t1 (map (PrimFloat.mul 0.05) x2)) ;;
  noise <- np_random_normal 0 2 n_samples ;;
  y <- lift (vec_op PrimFloat.add t2 noise) ;;
  X_scaled <- scaler_fit_transform X ;;
  model_fit X_scaled y ;;
  set_is_trained true ;;
  m <- get_model ;;
  joblib_dump m "model.joblib" ;;
  s <- get_scaler ;;
  joblib_dump s "scaler.joblib" ;;
  logger_info "Model trained with synthetic data".

(** ** [AIWeatherPredictor._initialize_model] (lines 59-79) *)

Definition _initialize_model : M unit :=
  try_except
    (found <- os_path_exists "model.joblib" ;;
     if found
     then
       m <- joblib_load "model.joblib" ;;
       set_model m ;;
       s <- joblib_load "scaler.joblib" ;;
       set_scaler s ;;
       set_is_trained true ;;
       logger_info "Loaded pre-trained model"
     else
       set_model (PyRandomForestRegressor (mk_RandomForestRegressor 100 42 (Some 10%Z) None)) ;;
       _train_dummy_model ;;
       logger_info "Created new model with dummy data")
    (fun e =>
       logger_error ("Error initializing model: " +:+ exn_str e) ;;
       set_model (PyRandomForestRegressor (mk_RandomForestRegressor 50 42 None None))).

(** ** [AIWeatherPredictor.__init__] (lines 52-57) *)

Definition __init__ : M unit :=
  set_model PyNone ;;
  set_scaler (PyStandardScaler (mk_StandardScaler None)) ;;
  set_model_version "1.0.0" ;;
  set_is_trained false ;;
  _initialize_model.

(** [AIWeatherPredictor()] in the environment [w]: the new object and the
    environment it leaves.  The attributes an object has before [__init__]
    assigns them are immaterial. *)
Definition new_AIWeatherPredictor (w : World) : State :=
  snd (__init__ (mk_AIWeatherPredictor PyNone PyNone "" false, w)).

(** ** [AIWeatherPredictor.predict_weather] (lines 111-148) *)

Definition predict_weather (weather_input : WeatherInput.t) : M WeatherPrediction.t :=
  with_PREDICTION_TIME
    (trained <- get_is_trained ;;
     if negb trained
     then raise (HTTPException 503 "Model not trained")
     else
       try_except
         (now <- datetime_now ;;
          let current_hour := hour now in
          let features := np_array [[
            PyFloat (WeatherInput.current_temp weather_input);
            PyInt (WeatherInput.humidity weather_input);
            PyFloat (WeatherInput.pressure weather_input);
            PyFloat (WeatherInput.wind_speed weather_input);
            PyInt current_hour ]] in
          sc <- get_scaler ;;
          features_scaled <- lift (call_transform sc features) ;;
          m <- get_model ;;
          predictions <- lift (call_predict m features_scaled) ;;
          predicted_temp <- lift (index0 predictions) ;;
          let confidence :=
            py_min 0.95 (py_max 0.6
              (1.0 - PrimFloat.abs (predicted_temp - WeatherInput.current_temp weather_input) / 10)%float) in
          stamp <- datetime_now ;;
          version <- get_model_version ;;
          ret (WeatherPrediction.mk
                 (WeatherInput.location weather_input)
                 (py_round predicted_temp 2)
                 (py_round confidence 3)
                 1
                 stamp
                 version))
         (fun e =>
            logger_error ("Prediction error: " +:+ exn_str e) ;;
            raise (HTTPException 500 "Prediction failed"))).

End Predictor.


(** * Descriptions used in the statements *)

Section Descriptions.
Context {L : Library}.
Local Open Scope py_scope.

(** Every row of [X] has [m] entries. *)
Definition width (m : nat) (X : matrix) : Prop :=
  Forall (fun row => length row = m) X.

(** The uniform draws of the bootstrap: 1000 rows of 5, from seed 42. *)
Definition bootstrap_uniforms : matrix :=
  fst (draw_rows 1000 5 (np_random_seed 42)).

(** The feature matrix: each column remapped into its physical range. *)
Definition bootstrap_features : matrix :=
  map (alter (fun x => x * 24)%float 4)
    (map (alter (fun x => x * 20)%float 3)
      (map (alter (fun x => x * 100 + 950)%float 2)
        (map (alter (fun x => x * 100)%float 1)
          (map (alter (fun x => x * 40 - 10)%float 0) bootstrap_uniforms)))).

(** The noise: 1000 draws of [normal(0, 2)], made after the uniform ones. *)
Definition bootstrap_noise : list float :=
  fst (draw_normal 0 2 1000 (snd (draw_rows 1000 5 (np_random_seed 42)))).

(** The labels: temperature + 0.1 * humidity - 0.05 * pressure + noise. *)
Definition bootstrap_labels : list float :=
  zip_with PrimFloat.add
    (zip_with PrimFloat.sub
       (zip_with PrimFloat.add
          (map (fun row => nth 0 row 0%float) bootstrap_features)
          (map (PrimFloat.mul 0.1) (map (fun row => nth 1 row 0%float) bootstrap_features)))
       (map (PrimFloat.mul 0.05) (map (fun row => nth 2 row 0%float) bootstrap_features)))
    bootstrap_noise.

(** The global generator once the training set is drawn. *)
Definition bootstrap_rng : rng_state :=
  snd (draw_normal 0 2 1000 (snd (draw_rows 1000 5 (np_random_seed 42)))).

(** What is left of [_train_dummy_model] once the flag is set
    (lines 105-109). *)
Definition persist : M unit :=
  m <- get_model ;;
  joblib_dump m "model.joblib" ;;
  s <- get_scaler ;;
  joblib_dump s "scaler.joblib" ;;
  logger_info "Model trained with synthetic data".

(** What is left of it once the training set is drawn (lines 98-109). *)
Definition fit_and_persist : M unit :=
  X_scaled <- scaler_fit_transform bootstrap_features ;;
  model_fit X_scaled bootstrap_labels ;;
  set_is_trained true ;;
  persist.

(** The attributes [__init__] assigns before it calls [_initialize_model]. *)
Definition blank_predictor : AIWeatherPredictor :=
  mk_AIWeatherPredictor PyNone (PyStandardScaler (mk_StandardScaler None)) "1.0.0" false.

(** The regressor [_initialize_model] builds before training ... *)
Definition new_regressor : RandomForestRegressor :=
  mk_RandomForestRegressor 100 42 (Some 10%Z) None.

(** ... and the one its exception handler installs. *)
Definition fallback_regressor : RandomForestRegressor :=
  mk_RandomForestRegressor 50 42 None None.

(** The predictor once both objects are fitted. *)
Definition fitted_predictor (r : RandomForestRegressor) (p : scaler_params) (f : forest)
    (version : string) : AIWeatherPredictor :=
  mk_AIWeatherPredictor
    (PyRandomForestRegressor
       (mk_RandomForestRegressor (n_estimators r) (random_state r) (max_depth r) (Some f)))
    (PyStandardScaler (mk_StandardScaler (Some p)))
    version true.

(** The predictor a start without a regressor artifact ends with, by what
    the libraries answer on the training set and by whether the two files
    can be written. *)
Definition bootstrap_outcome (can_write_model can_write_scaler : bool) : AIWeatherPredictor :=
  match scaler_fit bootstrap_features with
  | Raise _ =>
      mk_AIWeatherPredictor (PyRandomForestRegressor fallback_regressor)
        (PyStandardScaler (mk_StandardScaler None)) "1.0.0" false
  | Ok p =>
      match result_bind (scaler_transform p (map (map PyFloat) bootstrap_features))
              (fun Xs => forest_fit 100 (Some 10%Z) 42 Xs bootstrap_labels) with
      | Raise _ =>
          mk_AIWeatherPredictor (PyRandomForestRegressor fallback_regressor)
            (PyStandardScaler (mk_StandardScaler (Some p))) "1.0.0" false
      | Ok f =>
          if can_write_model && can_write_scaler
          then fitted_predictor new_regressor p f "1.0.0"
          else mk_AIWeatherPredictor (PyRandomForestRegressor fallback_regressor)
                 (PyStandardScaler (mk_StandardScaler (Some p))) "1.0.0" true
      end
  end.

(** A method that never assigns [self.model_version]. *)
Definition keeps_version {A : Type} (c : M A) : Prop :=
  forall st, model_version (fst (snd (c st))) = model_version (fst st).

(** Both artifacts exist and unpickle. *)
Definition both_artifacts_load (w : World) : Prop :=
  exists m s : pyobj,
    files w !! "model.joblib" = Some (Pickle m) /\
    files w !! "scaler.joblib" = Some (Pickle s).

(** The reading under which start-up has two outcomes only: restored when
    both artifacts load, and in every other case a freshly trained and
    persisted 100-tree regressor (depth 10, seed 42). *)
Definition initialize_as_stated (w : World) : Prop :=
  (both_artifacts_load w ->
   exists m s : pyobj,
     files w !! "model.joblib" = Some (Pickle m) /\
     files w !! "scaler.joblib" = Some (Pickle s) /\
     fst (new_AIWeatherPredictor w) = mk_AIWeatherPredictor m s "1.0.0" true) /\
  (~ both_artifacts_load w ->
   (exists f : forest,
      model (fst (new_AIWeatherPredictor w)) =
        PyRandomForestRegressor (mk_RandomForestRegressor 100 42 (Some 10%Z) (Some f))) /\
   files (snd (new_AIWeatherPredictor w)) !! "model.joblib" =
     Some (Pickle (model (fst (new_AIWeatherPredictor w)))) /\
   files (snd (new_AIWeatherPredictor w)) !! "scaler.joblib" =
     Some (Pickle (scaler (fst (new_AIWeatherPredictor w))))).

(** A draw of [np.random.rand] lies in [0, 1). *)
Definition in_unit_interval (u : float) : bool :=
  PrimFloat.leb 0 u && PrimFloat.ltb u 1.

(** Every draw the bootstrap makes lies in [0, 1). *)
Definition bootstrap_draws_in_unit_interval : Prop :=
  forallb (forallb in_unit_interval) bootstrap_uniforms = true.

(** The ranges of a row of features as the specification states them, each
    closed below and open above ... *)
Definition row_as_stated (row : list float) : Prop :=
  match row with
  | [temperature; humidity; pressure; wind_speed; hour_of_day] =>
      (PrimFloat.leb (-10) temperature = true /\ PrimFloat.ltb temperature 30 = true) /\
      (PrimFloat.leb 0 humidity = true /\ PrimFloat.ltb humidity 100 = true) /\
      (PrimFloat.leb 950 pressure = true /\ PrimFloat.ltb pressure 1050 = true) /\
      (PrimFloat.leb 0 wind_speed = true /\ PrimFloat.ltb wind_speed 20 = true) /\
      (PrimFloat.leb 0 hour_of_day = true /\ PrimFloat.ltb hour_of_day 24 = true)
  | _ => False
  end.

(** ... and as the source's binary64 expressions give them: the pressure,
    [u * 100 + 950], can round up to 1050. *)
Definition row_in_range (row : list float) : Prop :=
  match row with
  | [temperature; humidity; pressure; wind_speed; hour_of_day] =>
      (PrimFloat.leb (-10) temperature = true /\ PrimFloat.ltb temperature 30 = true) /\
      (PrimFloat.leb 0 humidity = true /\ PrimFloat.ltb humidity 100 = true) /\
      (PrimFloat.leb 950 pressure = true /\ PrimFloat.leb pressure 1050 = true) /\
      (PrimFloat.leb 0 wind_speed = true /\ PrimFloat.ltb wind_speed 20 = true) /\
      (PrimFloat.leb 0 hour_of_day = true /\ PrimFloat.ltb hour_of_day 24 = true)
  | _ => False
  end.

(** The reading under which uniform draws of [0, 1) always give features
    within the half-open ranges. *)
Definition bootstrap_ranges_as_stated : Prop :=
  bootstrap_draws_in_unit_interval -> Forall row_as_stated bootstrap_features.

End Descriptions.

(** * The exact value of a float

    The vocabulary of the order lemmas on binary64 arithmetic. *)

Section FloatValues.
Local Open Scope Z_scope.

(** Where the bits shifted out of [M] stand with respect to one half. *)
Definition location_of (M : Z) (n : Z) : location :=
  if M mod 2 ^ n =? 0 then loc_Exact
  else loc_Inexact (2 * (M mod 2 ^ n) ?= 2 ^ n).

(** [mrs] is [M] shifted right by [n] bits. *)
Definition shifted (M : Z) (n : Z) (mrs : shr_record) : Prop :=
  shr_m mrs = M / 2 ^ n /\ loc_of_shr_record mrs = location_of M n.

(** Values are counted in units of [2^-scale]: every exponent met (down to
    that of the product of two subnormal numbers) is above [-scale], so that
    the value of a float, and the exact result of an operation on two
    floats, is an integer.  An infinity counts as [top], the first power of
    two above every float. *)
Definition scale : Z := 2200.
Definition top : Z := 2 ^ (1024 + scale).

Definition sval (x : spec_float) : Z :=
  match x with
  | S754_zero _ => 0
  | S754_infinity s => cond_Zopp s top
  | S754_nan => 0
  | S754_finite s m e => cond_Zopp s (Z.pos m * 2 ^ (e + scale))
  end.

(** Rounding an exact value to binary64, to nearest even: the last place
    kept is that of the 53rd bit, or that of the subnormal numbers. *)
Definition round_scaled (V : Z) : Z :=
  let E := Z.max (Z.log2 V + 1 - 53) (scale - 1074) in
  div_half_even V (2 ^ E) * 2 ^ E.

(** The same for any sign, with overflow. *)
Definition signed_round (V : Z) : Z :=
  if V <? 0 then - Z.min (round_scaled (- V)) top else Z.min (round_scaled V) top.

Definition is_finite_SF (x : spec_float) : bool :=
  match x with
  | S754_zero _ | S754_finite _ _ _ => true
  | _ => false
  end.

Definition is_nan_SF (x : spec_float) : bool :=
  match x with
  | S754_nan => true
  | _ => false
  end.

Definition fval (x : float) : Z := sval (Prim2SF x).

Definition float_finite (x : float) : bool := is_finite_SF (Prim2SF x).

Definition float_is_nan (x : float) : bool := is_nan_SF (Prim2SF x).

(** [z / 1000] as a float, and the test that a float compares within
    [0.6, 0.95]. *)
Definition thousandth (z : Z) : float := (float_of_Z z / float_of_Z 1000)%float.

Definition in_range (x : float) : bool := PrimFloat.leb 0.6 x && PrimFloat.leb x 0.95.

End FloatValues.

(** * The HTTP routes (lines 166-199)

    The module-level state of the service: the global [predictor], the
    environment, and the [REQUEST_COUNT] counter.  A handler has no point of
    suspension before it returns, so requests are handled one after the
    other.  [GET /metrics] renders the metrics registry with
    [generate_latest()], which is library code, and is left out;
    [datetime.isoformat] is taken as a parameter. *)
Module app.
Section Routes.
Context {L : Library}.
Variable isoformat : datetime -> string.

Record Process : Type := mk_Process {
  predictor : AIWeatherPredictor;
  world : World;
  REQUEST_COUNT : nat
}.

(** [predictor = AIWeatherPredictor()] at import, counters at zero. *)
Definition start (w : World) : Process :=
  mk_Process (fst (new_AIWeatherPredictor w)) (snd (new_AIWeatherPredictor w)) 0.

(** The dictionary [GET /health] returns. *)
Record Health : Type := mk_Health {
  status : string;
  service : string;
  model_trained : bool;
  health_model_version : string;
  timestamp : string
}.

(** The dictionary [GET /model/info] returns. *)
Record ModelInfo : Type := mk_ModelInfo {
  model_type : string;
  version : string;
  trained : bool;
  features : list string
}.

Local Abbreviation method_predict_weather := (predict_weather).

(** [POST /predict] (lines 169-173) *)
Definition predict_weather (weather_input : WeatherInput.t) (p : Process)
    : result WeatherPrediction.t * Process :=
  let count := S (REQUEST_COUNT p) in
  match method_predict_weather weather_input (predictor p, world p) with
  | (r, (self, w)) => (r, mk_Process self w count)
  end.

(** [GET /health] (lines 175-184) *)
Definition health_check (p : Process) : Health * Process :=
  let w := world p in
  (mk_Health "healthy" "ai-predictor"
     (is_trained (predictor p)) (model_version (predictor p))
     (isoformat (clock w (ticks w))),
   mk_Process (predictor p) (with_ticks (S (ticks w)) w) (REQUEST_COUNT p)).

(** [GET /model/info] (lines 191-199) *)
Definition model_info (p : Process) : ModelInfo :=
  mk_ModelInfo "RandomForestRegressor"
    (model_version (predictor p)) (is_trained (predictor p))
    ["temperature"; "humidity"; "pressure"; "wind_speed"; "hour_of_day"].

(** The routes, as requests and responses. *)
Inductive Request : Type :=
| POST_predict (weather_input : WeatherInput.t)
| GET_health
| GET_model_info.

Inductive Response : Type :=
| Predicted (r : WeatherPrediction.t)
| Failed (e : exn)
| Healthy (h : Health)
| Info (i : ModelInfo).

Definition handle (req : Request) (p : Process) : Response * Process :=
  match req with
  | POST_predict weather_input =>
      match predict_weather weather_input p with
      | (Ok r, p') => (Predicted r, p')
      | (Raise e, p') => (Failed e, p')
      end
  | GET_health =>
      match health_check p with
      | (h, p') => (Healthy h, p')
      end
  | GET_model_info => (Info (model_info p), p)
  end.

(** Requests handled one after the other. *)
Fixpoint serve (reqs : list Request) (p : Process) : list Response * Process :=
  match reqs with
  | [] => ([], p)
  | req :: rest =>
      match handle req p with
      | (resp, p1) =>
          match serve rest p1 with
          | (resps, p2) => (resp :: resps, p2)
          end
      end
  end.

(** How many of the requests are predictions. *)
Definition predictions_asked (reqs : list Request) : nat :=
  length (List.filter (fun req => match req with POST_predict _ => true | _ => false end) reqs).

(** What an untrained service answers to a request. *)
Definition answered_untrained (req : Request) (resp : Response) : Prop :=
  match req, resp with
  | POST_predict _, Failed e => e = HTTPException 503 "Model not trained"
  | GET_health, Healthy h => model_trained h = false
  | GET_model_info, Info i => trained i = false
  | _, _ => False
  end.

(** How often a handler read the clock, and how many lines it logged, by
    the response it gave. *)
Definition is_prediction_failure (e : exn) : bool :=
  match e with
  | HTTPException status_code _ => Z.eqb status_code 500
  | Exception _ _ => false
  end.

Definition clock_reads (resp : Response) : nat :=
  match resp with
  | Predicted _ => 2
  | Failed e => if is_prediction_failure e then 1 else 0
  | Healthy _ => 1
  | Info _ => 0
  end.

Definition lines_logged (resp : Response) : nat :=
  match resp with
  | Failed e => if is_prediction_failure e then 1 else 0
  | _ => 0
  end.

(** What a service whose predictor is [self] answers to a request. *)
Definition answered_by (self : AIWeatherPredictor) (req : Request) (resp : Response) : Prop :=
  match req, resp with
  | POST_predict weather_input, Predicted r =>
      is_trained self = true /\
      WeatherPrediction.location r = WeatherInput.location weather_input /\
      WeatherPrediction.forecast_hours r = 1%Z /\
      WeatherPrediction.model_version r = model_version self
  | POST_predict _, Failed e =>
      (is_trained self = false /\ e = HTTPException 503 "Model not trained") \/
      (is_trained self = true /\ e = HTTPException 500 "Prediction failed")
  | GET_health, Healthy h =>
      status h = "healthy" /\ service h = "ai-predictor" /\
      model_trained h = is_trained self /\
      health_model_version h = model_version self
  | GET_model_info, Info i =>
      model_type i = "RandomForestRegressor" /\
      trained i = is_trained self /\ version i = model_version self
  | _, _ => False
  end.

End Routes.
End app.

Section Frames.
Context {L : Library}.

(** What start-up may change in the environment: it may write the two
    artifacts and append to the log, and nothing else; no file disappears. *)
Definition start_up_frame (w w' : World) : Prop :=
  writable w' = writable w /\
  clock w' = clock w /\
  ticks w' = ticks w /\
  prediction_time_count w' = prediction_time_count w /\
  (forall path : string,
      path <> "model.joblib" -> path <> "scaler.joblib" ->
      files w' !! path = files w !! path) /\
  (forall path : string, is_Some (files w !! path) -> is_Some (files w' !! path)) /\
  (exists added : list (string * string), log w' = (log w ++ added)%list).

(** A method that changes the environment within [start_up_frame]. *)
Definition within_frame {A : Type} (c : M A) : Prop :=
  forall st, start_up_frame (snd st) (snd (snd (c st))).

(** An object that cannot scale: [None], a regressor (it has no
    [transform]), a scaler that was never fitted. *)
Definition cannot_transform (o : pyobj) : Prop :=
  o = PyNone \/ (exists r : RandomForestRegressor, o = PyRandomForestRegressor r) \/
  o = PyStandardScaler (mk_StandardScaler None).

(** An object that cannot predict: [None], a scaler (it has no [predict]),
    a regressor that was never fitted. *)
Definition cannot_predict (o : pyobj) : Prop :=
  o = PyNone \/ (exists s : StandardScaler, o = PyStandardScaler s) \/
  (exists r : RandomForestRegressor, o = PyRandomForestRegressor r /\ estimators_ r = None).

End Frames.

(** * An executable instance of the libraries

    Small stand-ins with the interface's shape, used to run the service on
    concrete inputs: a linear congruential generator, a scaler that
    standardises each column, a one-split regression tree, and two objects
    of other classes, a transformer that passes its input through and a
    regressor that answers a constant. *)
Module Demo.

Definition lcg_next (g : Z) : Z :=
  ((g * 6364136223846793005 + 1442695040888963407) mod 2 ^ 64)%Z.

Definition uniform (g : Z) : float * Z :=
  let g' := lcg_next g in
  ((float_of_Z (g' / 2 ^ 11) / float_of_Z (2 ^ 53))%float, g').

Fixpoint sum_uniform (k : nat) (g : Z) : float * Z :=
  match k with
  | O => (0%float, g)
  | S k' =>
      let (u, g1) := uniform g in
      let (s, g2) := sum_uniform k' g1 in
      ((u + s)%float, g2)
  end.

Definition normal (loc scale : float) (g : Z) : float * Z :=
  let (s, g') := sum_uniform 12 g in
  ((loc + scale * (s - 6))%float, g').

Definition fsum (l : list float) : float := fold_right PrimFloat.add 0%float l.

Definition fmean (l : list float) : float :=
  (fsum l / float_of_Z (Z.of_nat (length l)))%float.

Definition column (j : nat) (X : matrix) : list float :=
  map (fun row => nth j row 0%float) X.

Definition column_stats (X : matrix) (j : nat) : float * float :=
  let c := column j X in
  let mu := fmean c in
  let var := fmean (map (fun x => (x - mu) * (x - mu))%float c) in
  let sd := PrimFloat.sqrt var in
  (mu, if PrimFloat.ltb 0 sd then sd else 1%float).

Definition fit_scaler (X : matrix) : result (list (float * float)) :=
  match X with
  | [] => Raise (Exception "ValueError" "Found array with 0 sample(s)")
  | row :: _ => Ok (map (column_stats X) (seq 0 (length row)))
  end.

Definition to_float (v : pynum) : float :=
  match v with
  | PyFloat x => x
  | PyInt n => float_of_Z n
  end.

Definition transform_row (p : list (float * float)) (row : list pynum) : result (list float) :=
  if Nat.eqb (length row) (length p)
  then Ok (zip_with (fun v ms => (to_float v - fst ms) / snd ms)%float row p)
  else Raise (Exception "ValueError" "X has a different number of features than the scaler").

Fixpoint transform (p : list (float * float)) (x : list (list pynum)) : result matrix :=
  match x with
  | [] => Ok []
  | row :: rest =>
      result_bind (transform_row p row) (fun r =>
      result_bind (transform p rest) (fun rs => Ok (r :: rs)))
  end.

(** A tree with one split on the first feature: the mean label on each side. *)
Record stump : Type := mk_stump { below : float; above : float }.

Definition goes_below (row : list float) : bool :=
  PrimFloat.leb (nth 0 row 0%float) 0.

Definition fit_stump (n_estimators : Z) (max_depth : option Z) (random_state : Z)
    (X : matrix) (y : list float) : result stump :=
  if negb (Nat.eqb (length X) (length y)) || Nat.eqb (length X) 0
  then Raise (Exception "ValueError" "inconsistent numbers of samples")
  else
    let rows := combine X y in
    let lo := map snd (List.filter (fun r => goes_below (fst r)) rows) in
    let hi := map snd (List.filter (fun r => negb (goes_below (fst r))) rows) in
    Ok (mk_stump (if Nat.eqb (length lo) 0 then fmean y else fmean lo)
                 (if Nat.eqb (length hi) 0 then fmean y else fmean hi)).

Definition predict_stump (f : stump) (X : matrix) : result (list float) :=
  Ok (map (fun row => if goes_below row then below f else above f) X).

(** Objects of two other classes: [FunctionTransformer()], whose
    [transform] returns its argument, and a fitted
    [DummyRegressor(strategy="constant", constant=c)], whose [predict]
    returns [c] for every row. *)
Inductive other_object : Type :=
| FunctionTransformer
| DummyRegressor (constant : float).

Definition other_transform (o : other_object) (x : list (list pynum)) : result matrix :=
  match o with
  | FunctionTransformer => Ok (map (map to_float) x)
  | DummyRegressor _ => attribute_error "transform"
  end.

Definition other_predict (o : other_object) (X : matrix) : result (list float) :=
  match o with
  | FunctionTransformer => attribute_error "predict"
  | DummyRegressor c => Ok (map (fun _ => c) X)
  end.

Definition other_fit_transform (o : other_object) (X : matrix)
    : result (other_object * matrix) :=
  match o with
  | FunctionTransformer => Ok (FunctionTransformer, X)
  | DummyRegressor _ => attribute_error "fit_transform"
  end.

Definition other_fit (o : other_object) (X : matrix) (y : list float) : result other_object :=
  Ok o.

#[export] Instance lib : Library := {
  scaler_params := list (float * float);
  forest := stump;
  rng_state := Z;
  np_random_seed := fun n => n;
  random_sample := uniform;
  normal_sample := normal;
  scaler_fit := fit_scaler;
  scaler_transform := transform;
  forest_fit := fit_stump;
  forest_predict := predict_stump;
  foreign := other_object;
  foreign_transform := other_transform;
  foreign_predict := other_predict;
  foreign_fit_transform := other_fit_transform;
  foreign_fit := other_fit
}.

(** The same libraries with a generator that returns the largest float
    below 1 at every draw. *)
Definition largest_draw_lib : Library := {|
  scaler_params := list (float * float);
  forest := stump;
  rng_state := Z;
  np_random_seed := fun n => n;
  random_sample := fun g => (next_down 1, g);
  normal_sample := normal;
  scaler_fit := fit_scaler;
  scaler_transform := transform;
  forest_fit := fit_stump;
  forest_predict := predict_stump;
  foreign := other_object;
  foreign_transform := other_transform;
  foreign_predict := other_predict;
  foreign_fit_transform := other_fit_transform;
  foreign_fit := other_fit
|}.

(** A working directory with no artifact, writable or not; the clock reads
    12:00:00, 12:00:01, ... on 1 June 2024. *)
Definition at_noon (k : nat) : datetime :=
  mk_datetime 2024 6 1 12 0 (Z.of_nat k) 0.

Definition fresh_world (can_write : bool) : World :=
  mk_World ∅ (fun _ => can_write) 7%Z at_noon 0 [] 0.

(** The observation of the specification's scenario. *)
Definition observation : WeatherInput.t :=
  WeatherInput.mk "Oslo" 20.0 50 1013 5.0 None.

(** What the stand-in libraries make of the bootstrap training set. *)
Definition demo_params : list (float * float) :=
  Eval vm_compute in
    match scaler_fit bootstrap_features with Ok p => p | Raise _ => [] end.

Definition demo_scaled : matrix :=
  Eval vm_compute in
    match scaler_transform demo_params (map (map PyFloat) bootstrap_features) with
    | Ok Xs => Xs
    | Raise _ => []
    end.

Definition demo_forest : stump :=
  Eval vm_compute in
    match forest_fit 100 (Some 10%Z) 42 demo_scaled bootstrap_labels with
    | Ok f => f
    | Raise _ => mk_stump 0 0
    end.

(** The predictor a first start leaves in a writable directory. *)
Definition trained_predictor : AIWeatherPredictor :=
  mk_AIWeatherPredictor
    (PyRandomForestRegressor (mk_RandomForestRegressor 100 42 (Some 10%Z) (Some demo_forest)))
    (PyStandardScaler (mk_StandardScaler (Some demo_params)))
    "1.0.0" true.

(** The one it leaves when the directory is read-only. *)
Definition flagged_predictor : AIWeatherPredictor :=
  mk_AIWeatherPredictor
    (PyRandomForestRegressor (mk_RandomForestRegressor 50 42 None None))
    (PyStandardScaler (mk_StandardScaler (Some demo_params)))
    "1.0.0" true.

(** A directory that holds a regressor artifact and no scaler artifact. *)
Definition stale_world : World :=
  mk_World
    {[ "model.joblib" :=
         Pickle (PyRandomForestRegressor
                   (mk_RandomForestRegressor 100 42 (Some 10%Z) (Some demo_forest))) ]}
    (fun _ => true) 7%Z at_noon 0 [] 0.

(** Another environment at the same hour: half past twelve, a different
    generator state, a log that is not empty, no right to write. *)
Definition half_past_noon (k : nat) : datetime :=
  mk_datetime 2024 6 2 12 30 (Z.of_nat k) 0.

Definition later_world : World :=
  mk_World ∅ (fun _ => false) 99%Z half_past_noon 4 [("INFO", "started")] 10.

(** A second empty writable directory, on another day. *)
Definition other_world : World :=
  mk_World ∅ (fun _ => true) 12345%Z half_past_noon 2 [("INFO", "started")] 3.

(** The directory as a first start leaves it, seen by a later process. *)
Definition restart_world : World :=
  mk_World
    (<["scaler.joblib" := Pickle (scaler trained_predictor)]>
       (<["model.joblib" := Pickle (model trained_predictor)]> ∅))
    (fun _ => true) 2024%Z half_past_noon 0 [] 0.

(** The scenario's observation with a history attached. *)
Definition observation_with_history : WeatherInput.t :=
  WeatherInput.mk "Oslo" 20.0 50 1013 5.0
    (Some [[("temp", VFloat 19.5); ("source", VStr "station-7")]]).

(** An observation close to what the bootstrap model predicts for it, so
    that the confidence is neither at its floor nor at its cap. *)
Definition cold_observation : WeatherInput.t :=
  WeatherInput.mk "Vostok" (-43.0) 80 990 3.0 None.

(** The scenario's prediction at noon. *)
Definition noon_prediction : WeatherPrediction.t :=
  Eval vm_compute in
    match fst (predict_weather observation (trained_predictor, fresh_world true)) with
    | Ok r => r
    | Raise _ => WeatherPrediction.mk "" 0 0 0 (at_noon 0) ""
    end.

(** The same observation half an hour later, in [later_world]. *)
Definition later_prediction : WeatherPrediction.t :=
  Eval vm_compute in
    match fst (predict_weather observation (trained_predictor, later_world)) with
    | Ok r => r
    | Raise _ => WeatherPrediction.mk "" 0 0 0 (at_noon 0) ""
    end.

(** The prediction for the cold observation at noon. *)
Definition cold_prediction : WeatherPrediction.t :=
  Eval vm_compute in
    match fst (predict_weather cold_observation (trained_predictor, fresh_world true)) with
    | Ok r => r
    | Raise _ => WeatherPrediction.mk "" 0 0 0 (at_noon 0) ""
    end.

(** A stand-in for [datetime.isoformat]: date, "T", time, and the
    microseconds when they are not zero. *)
Definition digit (n : Z) : string :=
  String (Ascii.ascii_of_nat (48 + Z.to_nat (n mod 10))) EmptyString.

Definition digits2 (n : Z) : string := digit (n / 10) +:+ digit n.

Definition isoformat (d : datetime) : string :=
  digits2 (year d / 100) +:+ digits2 (year d) +:+ "-" +:+ digits2 (month d) +:+ "-"
  +:+ digits2 (day d) +:+ "T" +:+ digits2 (hour d) +:+ ":" +:+ digits2 (minute d) +:+ ":"
  +:+ digits2 (second d)
  +:+ (if (microsecond d =? 0)%Z then ""
       else "." +:+ digits2 (microsecond d / 10000) +:+ digits2 (microsecond d / 100)
            +:+ digits2 (microsecond d)).

(** An empty directory where the regressor file can be written and the
    scaler file cannot. *)
Definition half_writable_world : World :=
  mk_World ∅ (fun path => String.eqb path "model.joblib") 7%Z at_noon 0 [] 0.

(** The directory such a start leaves, writable again, seen by a later
    process. *)
Definition half_persisted_world : World :=
  mk_World {[ "model.joblib" := Pickle (model trained_predictor) ]}
    (fun _ => true) 2024%Z half_past_noon 0 [] 0.

(** A directory whose two artifacts were swapped. *)
Definition swapped_world : World :=
  mk_World
    (<["scaler.joblib" := Pickle (model trained_predictor)]>
       (<["model.joblib" := Pickle (scaler trained_predictor)]> ∅))
    (fun _ => true) 7%Z at_noon 0 [] 0.

(** A directory whose two artifacts were written by another program: a
    pass-through transformer and a regressor that always answers 21.5. *)
Definition foreign_world : World :=
  mk_World
    (<["scaler.joblib" := Pickle (PyObject FunctionTransformer)]>
       (<["model.joblib" := Pickle (PyObject (DummyRegressor 21.5))]> ∅))
    (fun _ => true) 7%Z at_noon 0 [] 0.

(** What the service then answers for the scenario's observation. *)
Definition foreign_prediction : WeatherPrediction.t :=
  WeatherPrediction.mk "Oslo" 21.5 0.85 1 (at_noon 1) "1.0.0".

(** A morning of requests. *)
Definition morning : list app.Request :=
  [ app.GET_health; app.POST_predict observation; app.GET_model_info;
    app.POST_predict cold_observation; app.GET_health ].

End Demo.
(** * Properties *)

(** ** Binary64 arithmetic is monotone

    What the specification says of ranges (of the features the bootstrap
    draws, of the confidence a prediction returns) rests on the order of
    floats being kept by the operations of the source: a product by a
    positive constant, a sum, a difference, each rounded to nearest even.
    The operations are those of the primitive floats, specified by
    [SpecFloat]; their results are compared through their exact values. *)

Section Rounding.
Local Open Scope Z_scope.

Lemma digits2_pos_bounds (p : positive) :
  2 ^ (Z.pos (digits2_pos p) - 1) <= Z.pos p < 2 ^ Z.pos (digits2_pos p).
Proof.
  induction p as [p IH | p IH | ]; cbn [digits2_pos].
  - rewrite Pos2Z.inj_succ.
    replace (Z.succ (Z.pos (digits2_pos p)) - 1) with (Z.succ (Z.pos (digits2_pos p) - 1)) by lia.
    rewrite !Z.pow_succ_r by lia. lia.
  - rewrite Pos2Z.inj_succ.
    replace (Z.succ (Z.pos (digits2_pos p)) - 1) with (Z.succ (Z.pos (digits2_pos p) - 1)) by lia.
    rewrite !Z.pow_succ_r by lia. lia.
  - cbn. lia.
Qed.

Lemma digits2_pos_log2 (p : positive) :
  Z.pos (digits2_pos p) = Z.log2 (Z.pos p) + 1.
Proof.
  pose proof (digits2_pos_bounds p) as H.
  rewrite (Z.log2_unique (Z.pos p) (Z.pos (digits2_pos p) - 1)); [ lia | lia | ].
  replace (Z.succ (Z.pos (digits2_pos p) - 1)) with (Z.pos (digits2_pos p)) by lia. exact H.
Qed.

Lemma iter_pos_nat {A : Type} (f : A -> A) (p : positive) (x : A) :
  SpecFloat.iter_pos f p x = Nat.iter (Pos.to_nat p) f x.
Proof.
  revert x. induction p as [p IH | p IH | ]; intros x; cbn [SpecFloat.iter_pos].
  - rewrite !IH, Pos2Nat.inj_xI.
    replace (S (2 * Pos.to_nat p))%nat with (Pos.to_nat p + (Pos.to_nat p + 1))%nat by lia.
    rewrite !Nat.iter_add. reflexivity.
  - rewrite !IH, Pos2Nat.inj_xO.
    replace (2 * Pos.to_nat p)%nat with (Pos.to_nat p + Pos.to_nat p)%nat by lia.
    rewrite Nat.iter_add. reflexivity.
  - reflexivity.
Qed.

Lemma shifted_0 (M : Z) : shifted M 0 (Build_shr_record M false false).
Proof.
  unfold shifted, location_of. cbn [shr_m loc_of_shr_record].
  change (2 ^ 0) with 1. rewrite Z.div_1_r, Z.mod_1_r. split; reflexivity.
Qed.

Lemma shifted_step (M n : Z) (mrs : shr_record) :
  0 <= M -> 0 <= n -> shifted M n mrs -> shifted M (n + 1) (shr_1 mrs).
Proof.
  intros HM Hn [Hm Hloc].
  assert (Hpow : 2 ^ (n + 1) = 2 * 2 ^ n) by (rewrite Z.pow_add_r by lia; lia).
  assert (Hpos : 0 < 2 ^ n) by (apply Z.pow_pos_nonneg; lia).
  pose proof (Z.div_mod M (2 ^ n) ltac:(lia)) as Hdm.
  pose proof (Z.mod_pos_bound M (2 ^ n) ltac:(lia)) as Hr.
  pose proof (Z.div_mod M (2 ^ (n + 1)) ltac:(lia)) as Hdm'.
  pose proof (Z.mod_pos_bound M (2 ^ (n + 1)) ltac:(lia)) as Hr'.
  assert (Hq0 : 0 <= M / 2 ^ n) by (apply Z.div_pos; lia).
  assert (Hdd : M / 2 ^ (n + 1) = (M / 2 ^ n) / 2).
  { rewrite Hpow, Z.mul_comm, Z.div_div by lia. reflexivity. }
  pose proof (Z.div_mod (M / 2 ^ n) 2 ltac:(lia)) as Hq2.
  pose proof (Z.mod_pos_bound (M / 2 ^ n) 2 ltac:(lia)) as Hb.
  assert (Hrem : M mod 2 ^ (n + 1) = M mod 2 ^ n + 2 ^ n * ((M / 2 ^ n) mod 2)).
  { rewrite Hdd in Hdm'. nia. }
  unfold shifted, location_of in *.
  rewrite Hdd, Hrem, Hpow.
  destruct mrs as [m r s]. cbn [shr_m] in Hm. subst m.
  set (q := M / 2 ^ n) in *. set (rem := M mod 2 ^ n) in *.
  assert (Hloc' : (r || s = false /\ rem = 0) \/ (r || s = true /\ 0 < rem)).
  { destruct r, s; cbn in Hloc |- *; destruct (Z.eqb_spec rem 0); try discriminate; lia. }
  unfold shr_1.
  destruct q as [ | [q' | q' | ] | q']; try lia.
  - (* q = 0 *)
    change (0 mod 2) with 0. change (0 / 2) with 0. cbn [shr_m]. split; [ reflexivity | ].
    rewrite Z.mul_0_r, Z.add_0_r.
    destruct Hloc' as [[-> ->] | [-> Hgt]]; cbn [loc_of_shr_record].
    + reflexivity.
    + destruct (Z.eqb_spec rem 0); [ lia | ].
      replace (2 * rem ?= 2 * 2 ^ n) with Lt; [ reflexivity | ].
      symmetry. apply Z.compare_lt_iff. lia.
  - (* q = 2 q' + 1 *)
    assert (Hbit : Z.pos q'~1 mod 2 = 1) by (rewrite Pos2Z.inj_xI in *; lia).
    assert (Hhalf : Z.pos q'~1 / 2 = Z.pos q') by (rewrite Pos2Z.inj_xI in *; lia).
    rewrite Hbit, Hhalf. cbn [shr_m]. split; [ reflexivity | ].
    destruct (Z.eqb_spec (rem + 2 ^ n * 1) 0); [ lia | ].
    destruct Hloc' as [[-> ->] | [-> Hgt]]; cbn [loc_of_shr_record].
    + replace (2 * (0 + 2 ^ n * 1) ?= 2 * 2 ^ n) with Eq; [ reflexivity | ].
      symmetry. apply Z.compare_eq_iff. lia.
    + replace (2 * (rem + 2 ^ n * 1) ?= 2 * 2 ^ n) with Gt; [ reflexivity | ].
      symmetry. apply Z.compare_gt_iff. lia.
  - (* q = 2 q' *)
    assert (Hbit : Z.pos q'~0 mod 2 = 0) by (rewrite Pos2Z.inj_xO in *; lia).
    assert (Hhalf : Z.pos q'~0 / 2 = Z.pos q') by (rewrite Pos2Z.inj_xO in *; lia).
    rewrite Hbit, Hhalf. cbn [shr_m]. split; [ reflexivity | ].
    rewrite Z.mul_0_r, Z.add_0_r.
    destruct Hloc' as [[-> ->] | [-> Hgt]]; cbn [loc_of_shr_record].
    + reflexivity.
    + destruct (Z.eqb_spec rem 0); [ lia | ].
      replace (2 * rem ?= 2 * 2 ^ n) with Lt; [ reflexivity | ].
      symmetry. apply Z.compare_lt_iff. lia.
  - (* q = 1 *)
    change (1 mod 2) with 1. change (1 / 2) with 0. cbn [shr_m]. split; [ reflexivity | ].
    destruct (Z.eqb_spec (rem + 2 ^ n * 1) 0); [ lia | ].
    destruct Hloc' as [[-> ->] | [-> Hgt]]; cbn [loc_of_shr_record].
    + replace (2 * (0 + 2 ^ n * 1) ?= 2 * 2 ^ n) with Eq; [ reflexivity | ].
      symmetry. apply Z.compare_eq_iff. lia.
    + replace (2 * (rem + 2 ^ n * 1) ?= 2 * 2 ^ n) with Gt; [ reflexivity | ].
      symmetry. apply Z.compare_gt_iff. lia.
Qed.

Lemma shifted_iter (M : Z) (k : nat) :
  0 <= M -> shifted M (Z.of_nat k) (Nat.iter k shr_1 (Build_shr_record M false false)).
Proof.
  intros HM. induction k as [ | k IH].
  - apply shifted_0.
  - rewrite Nat2Z.inj_succ. cbn [Nat.iter]. unfold Z.succ.
    apply shifted_step; [ exact HM | lia | exact IH ].
Qed.


(** ** Rounding a quotient half to even *)

Lemma div_half_even_bounds (a d : Z) :
  0 < d -> a / d <= div_half_even a d <= a / d + 1.
Proof.
  intros Hd. unfold div_half_even.
  destruct (2 * (a mod d) <? d); [ lia | ].
  destruct (d <? 2 * (a mod d)); [ lia | ].
  destruct (Z.even (a / d)); lia.
Qed.

Lemma div_half_even_exact (q d : Z) : 0 < d -> div_half_even (q * d) d = q.
Proof.
  intros Hd. unfold div_half_even.
  rewrite Z.mod_mul, Z.div_mul by lia.
  destruct (Z.ltb_spec (2 * 0) d); [ reflexivity | lia ].
Qed.

Lemma div_half_even_mono (a b d : Z) :
  0 < d -> a <= b -> div_half_even a d <= div_half_even b d.
Proof.
  intros Hd Hab.
  pose proof (Z.div_le_mono a b d Hd Hab) as Hq.
  destruct (Z.eq_dec (a / d) (b / d)) as [Heq | Hne].
  - pose proof (Z.div_mod a d ltac:(lia)) as Ha.
    pose proof (Z.div_mod b d ltac:(lia)) as Hb.
    unfold div_half_even. rewrite <- Heq.
    destruct (Z.ltb_spec (2 * (a mod d)) d); destruct (Z.ltb_spec (2 * (b mod d)) d);
      destruct (Z.ltb_spec d (2 * (a mod d))); destruct (Z.ltb_spec d (2 * (b mod d)));
      destruct (Z.even (a / d)); nia.
  - pose proof (div_half_even_bounds a d Hd). pose proof (div_half_even_bounds b d Hd). lia.
Qed.

Lemma div_half_even_scale (a d c : Z) :
  0 < d -> 0 < c -> div_half_even (a * c) (d * c) = div_half_even a d.
Proof.
  intros Hd Hc. unfold div_half_even.
  rewrite Z.div_mul_cancel_r, Z.mul_mod_distr_r by lia.
  replace (2 * (a mod d * c) <? d * c) with (2 * (a mod d) <? d).
  2: { destruct (Z.ltb_spec (2 * (a mod d)) d); destruct (Z.ltb_spec (2 * (a mod d * c)) (d * c));
       try reflexivity; nia. }
  replace (d * c <? 2 * (a mod d * c)) with (d <? 2 * (a mod d)).
  2: { destruct (Z.ltb_spec d (2 * (a mod d))); destruct (Z.ltb_spec (d * c) (2 * (a mod d * c)));
       try reflexivity; nia. }
  reflexivity.
Qed.

Lemma div_half_even_nonneg (a d : Z) : 0 < d -> 0 <= a -> 0 <= div_half_even a d.
Proof.
  intros Hd Ha. pose proof (div_half_even_bounds a d Hd).
  pose proof (Z.div_pos a d Ha Hd). lia.
Qed.

Lemma round_nearest_even_shifted (M n : Z) (mrs : shr_record) :
  0 <= n -> shifted M n mrs ->
  round_nearest_even (shr_m mrs) (loc_of_shr_record mrs) = div_half_even M (2 ^ n).
Proof.
  intros Hn [Hm Hloc]. rewrite Hm, Hloc.
  assert (Hpos : 0 < 2 ^ n) by (apply Z.pow_pos_nonneg; lia).
  pose proof (Z.mod_pos_bound M (2 ^ n) Hpos) as Hr.
  unfold location_of, div_half_even, round_nearest_even.
  destruct (Z.eqb_spec (M mod 2 ^ n) 0) as [H0 | H0].
  - rewrite H0. destruct (Z.ltb_spec (2 * 0) (2 ^ n)); [ reflexivity | lia ].
  - destruct (Z.compare_spec (2 * (M mod 2 ^ n)) (2 ^ n)) as [He | Hl | Hg].
    + destruct (Z.ltb_spec (2 * (M mod 2 ^ n)) (2 ^ n)); [ lia | ].
      destruct (Z.ltb_spec (2 ^ n) (2 * (M mod 2 ^ n))); [ lia | ]. reflexivity.
    + destruct (Z.ltb_spec (2 * (M mod 2 ^ n)) (2 ^ n)); [ reflexivity | lia ].
    + destruct (Z.ltb_spec (2 * (M mod 2 ^ n)) (2 ^ n)); [ lia | ].
      destruct (Z.ltb_spec (2 ^ n) (2 * (M mod 2 ^ n))); [ reflexivity | lia ].
Qed.

Lemma shr_fexp_shifted (M e : Z) :
  0 <= M ->
  0 <= fexp prec emax (Zdigits2 M + e) - e ->
  exists mrs,
    shr_fexp prec emax M e loc_Exact = (mrs, fexp prec emax (Zdigits2 M + e)) /\
    shifted M (fexp prec emax (Zdigits2 M + e) - e) mrs.
Proof.
  intros HM Hn. unfold shr_fexp, shr. cbn [shr_record_of_loc].
  set (E := fexp prec emax (Zdigits2 M + e)) in *.
  destruct (E - e) as [ | k | k] eqn:Hk; try lia.
  - exists (Build_shr_record M false false). split.
    + f_equal. lia.
    + apply shifted_0.
  - exists (SpecFloat.iter_pos shr_1 k (Build_shr_record M false false)). split.
    + f_equal. lia.
    + rewrite iter_pos_nat, <- (positive_nat_Z k). apply shifted_iter. exact HM.
Qed.


(** ** The value of a rounded result *)

Lemma fexp_eq (z : Z) : fexp prec emax z = Z.max (z - 53) (-1074).
Proof. reflexivity. Qed.

Lemma pow2_pos (a : Z) : 0 <= a -> 0 < 2 ^ a.
Proof. intros. apply Z.pow_pos_nonneg; lia. Qed.

Lemma pow2_add (a b : Z) : 0 <= a -> 0 <= b -> 2 ^ (a + b) = 2 ^ a * 2 ^ b.
Proof. intros. apply Z.pow_add_r; assumption. Qed.

Lemma pow2_le (a b : Z) : 0 <= a <= b -> 2 ^ a <= 2 ^ b.
Proof. intros. apply Z.pow_le_mono_r; lia. Qed.

Lemma Zdigits2_log2 (q : Z) : 0 < q -> Zdigits2 q = Z.log2 q + 1.
Proof.
  intros Hq. destruct q as [ | p | p]; try lia. cbn [Zdigits2]. apply digits2_pos_log2.
Qed.

Lemma top_split : top = 2 ^ 53 * 2 ^ (971 + scale).
Proof. unfold top. rewrite <- pow2_add by (unfold scale; lia). f_equal. Qed.

Lemma top_split' : top = 2 ^ 52 * 2 ^ (972 + scale).
Proof. unfold top. rewrite <- pow2_add by (unfold scale; lia). f_equal. Qed.

Lemma binary_round_aux_value (s : bool) (p : positive) (e : Z) :
  0 <= e + scale ->
  0 <= fexp prec emax (Z.pos (digits2_pos p) + e) - e ->
  binary_round_aux prec emax s (Z.pos p) e loc_Exact <> S754_nan /\
  sval (binary_round_aux prec emax s (Z.pos p) e loc_Exact) =
    cond_Zopp s
      (Z.min
         (div_half_even (Z.pos p) (2 ^ (fexp prec emax (Z.pos (digits2_pos p) + e) - e))
          * 2 ^ (fexp prec emax (Z.pos (digits2_pos p) + e) + scale))
         top).
Proof.
  intros Hscale Hn.
  pose proof (digits2_pos_bounds p) as Hd.
  unfold binary_round_aux.
  destruct (shr_fexp_shifted (Z.pos p) e ltac:(lia) Hn) as (mrs & -> & Hsh).
  rewrite (round_nearest_even_shifted _ _ _ Hn Hsh).
  cbn [Zdigits2] in *.
  set (d := Z.pos (digits2_pos p)) in *.
  set (E := fexp prec emax (d + e)) in *.
  set (n := E - e) in *.
  set (q' := div_half_even (Z.pos p) (2 ^ n)).
  pose proof (pow2_pos n Hn) as Hpn.
  pose proof (div_half_even_bounds (Z.pos p) (2 ^ n) Hpn) as Hq'. fold q' in Hq'.
  assert (HE : E = Z.max (d + e - 53) (-1074)) by apply fexp_eq.
  assert (Hd1 : 1 <= d) by (unfold d; lia).
  (* the rounded mantissa has at most 53 bits, or is 2^53 *)
  assert (Hrange : (- 1074 <= d + e - 53 /\ 2 ^ 52 <= q' <= 2 ^ 53) \/
                   (d + e - 53 < - 1074 /\ 0 <= q' <= 2 ^ 52)).
  { destruct (Z_le_gt_dec (-1074) (d + e - 53)) as [Hnorm | Hsub].
    - left. split; [ exact Hnorm | ].
      assert (Hn' : n = d - 53) by lia.
      assert (H1 : 2 ^ (d - 1) = 2 ^ 52 * 2 ^ n).
      { rewrite <- pow2_add by lia. f_equal. lia. }
      assert (H2 : 2 ^ d = 2 ^ 53 * 2 ^ n).
      { rewrite <- pow2_add by lia. f_equal. lia. }
      assert (2 ^ 52 <= Z.pos p / 2 ^ n).
      { apply Z.div_le_lower_bound; [ exact Hpn | ]. lia. }
      assert (Z.pos p / 2 ^ n < 2 ^ 53).
      { apply Z.div_lt_upper_bound; [ exact Hpn | ]. lia. }
      lia.
    - right. split; [ lia | ].
      assert (Hn' : n = - 1074 - e) by lia.
      assert (H2 : 2 ^ d <= 2 ^ 52 * 2 ^ n).
      { rewrite <- pow2_add by lia. apply pow2_le. lia. }
      assert (Z.pos p / 2 ^ n < 2 ^ 52).
      { apply Z.div_lt_upper_bound; [ exact Hpn | ]. lia. }
      assert (0 <= Z.pos p / 2 ^ n) by (apply Z.div_pos; lia).
      lia. }
  (* the second normalisation *)
  assert (Hsecond : exists (m'' e'' : Z) mrs'',
             shr_fexp prec emax q' E loc_Exact = (mrs'', e'') /\ shr_m mrs'' = m'' /\
             m'' * 2 ^ (e'' + scale) = q' * 2 ^ (E + scale) /\
             0 <= m'' < 2 ^ 53 /\ - 1074 <= e'' /\
             (971 < e'' -> 2 ^ 52 <= m'')).
  { destruct (Z.eq_dec q' 0) as [Hz | Hnz].
    - rewrite Hz.
      destruct (shr_fexp_shifted 0 E ltac:(lia)) as (mrs'' & Heq & [Hm'' _]).
      { cbn [Zdigits2]. rewrite fexp_eq. lia. }
      exists 0, (fexp prec emax (Zdigits2 0 + E)), mrs''.
      split; [ exact Heq | ].
      split; [ rewrite Hm''; apply Z.div_0_l; apply Z.pow_nonzero;
               [ lia | cbn [Zdigits2]; rewrite fexp_eq; lia ] | ].
      cbn [Zdigits2]. rewrite fexp_eq. split; [ lia | ]. split; [ lia | ]. split; lia.
    - assert (Hq0 : 0 < q') by (destruct Hrange; lia).
      destruct (Z.eq_dec q' (2 ^ 53)) as [Hcarry | Hnocarry].
      + destruct Hrange as [[Hnorm _] | [_ Hsub]]; [ | lia ].
        assert (Hdig : Zdigits2 q' = 54).
        { rewrite Hcarry. reflexivity. }
        destruct (shr_fexp_shifted q' E ltac:(lia)) as (mrs'' & Heq & [Hm'' _]).
        { rewrite Hdig, fexp_eq. lia. }
        rewrite Hdig in *.
        assert (Hn2 : fexp prec emax (54 + E) - E = 1) by (rewrite fexp_eq; lia).
        rewrite Hn2 in Hm''.
        exists (2 ^ 52), (fexp prec emax (54 + E)), mrs''.
        split; [ exact Heq | ]. split; [ rewrite Hm'', Hcarry; reflexivity | ].
        assert (HE1 : fexp prec emax (54 + E) = E + 1) by lia.
        rewrite HE1, Hcarry.
        replace (E + 1 + scale) with (1 + (E + scale)) by lia.
        rewrite (pow2_add 1 (E + scale)) by lia.
        split; [ change (2 ^ 53) with (2 ^ 52 * 2 ^ 1); lia | ].
        split; [ lia | ]. split; [ lia | ]. lia.
      + assert (Hlog : Z.log2 q' <= 52).
        { assert (q' < 2 ^ 53) by (destruct Hrange; lia).
          assert (Z.log2 q' < 53) by (apply Z.log2_lt_pow2; lia). lia. }
        assert (Hlog' : - 1074 <= d + e - 53 -> Z.log2 q' = 52).
        { intros Hnorm. destruct Hrange as [[_ Hr] | [Hsub _]]; [ | lia ].
          apply Z.log2_unique; [ lia | ]. change (Z.succ 52) with 53. lia. }
        assert (Hdig : Zdigits2 q' = Z.log2 q' + 1) by (apply Zdigits2_log2; exact Hq0).
        assert (Hn2 : fexp prec emax (Zdigits2 q' + E) = E).
        { rewrite Hdig, fexp_eq.
          destruct (Z_le_gt_dec (-1074) (d + e - 53)) as [Hnorm | Hsub].
          - rewrite (Hlog' Hnorm). lia.
          - pose proof (Z.log2_nonneg q'). lia. }
        destruct (shr_fexp_shifted q' E ltac:(lia)) as (mrs'' & Heq & [Hm'' _]).
        { lia. }
        rewrite Hn2 in *. replace (E - E) with 0 in Hm'' by lia.
        change (2 ^ 0) with 1 in Hm''. rewrite Z.div_1_r in Hm''.
        exists q', E, mrs''.
        split; [ exact Heq | ]. split; [ exact Hm'' | ]. split; [ reflexivity | ].
        split; [ destruct Hrange; lia | ]. split; [ lia | ].
        intros Hbig. destruct Hrange as [[_ Hr] | [Hsub _]]; lia. }
  destruct Hsecond as (m'' & e'' & mrs'' & -> & Hm & Hval & Hbound & Hemin & Hbig).
  rewrite Hm. rewrite <- Hval.
  assert (Hpe : 0 < 2 ^ (e'' + scale)) by (apply pow2_pos; unfold scale; lia).
  destruct m'' as [ | m'' | m'']; try lia.
  - split; [ discriminate | ]. cbn [sval]. rewrite Z.mul_0_l.
    rewrite Z.min_l by (unfold top; pose proof (pow2_pos (1024 + scale) ltac:(unfold scale; lia)); lia).
    destruct s; reflexivity.
  - destruct (Z.leb_spec e'' (emax - prec)) as [Hfin | Hinf].
    + split; [ discriminate | ]. cbn [sval]. f_equal.
      change (emax - prec) with 971 in Hfin.
      rewrite Z.min_l; [ reflexivity | ].
      rewrite top_split.
      pose proof (pow2_le (e'' + scale) (971 + scale) ltac:(unfold scale; lia)).
      nia.
    + split; [ discriminate | ]. cbn [sval]. f_equal.
      change (emax - prec) with 971 in Hinf.
      rewrite Z.min_r; [ reflexivity | ].
      rewrite top_split'.
      pose proof (pow2_le (972 + scale) (e'' + scale) ltac:(unfold scale; lia)).
      pose proof (pow2_pos (972 + scale) ltac:(unfold scale; lia)).
      specialize (Hbig ltac:(lia)). nia.
Qed.


Lemma round_scaled_eq (p : positive) (e : Z) :
  0 <= e + scale ->
  0 <= fexp prec emax (Z.pos (digits2_pos p) + e) - e ->
  div_half_even (Z.pos p) (2 ^ (fexp prec emax (Z.pos (digits2_pos p) + e) - e))
    * 2 ^ (fexp prec emax (Z.pos (digits2_pos p) + e) + scale) =
  round_scaled (Z.pos p * 2 ^ (e + scale)).
Proof.
  intros Ha Hn. unfold round_scaled.
  rewrite Z.log2_mul_pow2 by lia.
  rewrite digits2_pos_log2 in *. rewrite fexp_eq in *.
  set (l := Z.log2 (Z.pos p)) in *.
  replace (Z.max (e + scale + l + 1 - 53) (scale - 1074))
    with (Z.max (l + 1 + e - 53) (-1074) - e + (e + scale)) by lia.
  replace (Z.max (l + 1 + e - 53) (-1074) + scale)
    with (Z.max (l + 1 + e - 53) (-1074) - e + (e + scale)) by lia.
  set (n := Z.max (l + 1 + e - 53) (-1074) - e) in *.
  rewrite (pow2_add n (e + scale)) by lia.
  rewrite div_half_even_scale by (apply pow2_pos; lia).
  reflexivity.
Qed.

Lemma pos_iter_xO (m k : positive) : Z.pos (Pos.iter xO m k) = Z.pos m * 2 ^ Z.pos k.
Proof.
  rewrite <- Z.shiftl_mul_pow2 by lia. cbn [Z.shiftl].
  apply (Pos.iter_swap_gen _ _ Z.pos xO (Z.mul 2)). intros a. reflexivity.
Qed.

Lemma binary_round_value (s : bool) (m : positive) (e : Z) :
  0 <= e + scale ->
  binary_round prec emax s m e <> S754_nan /\
  sval (binary_round prec emax s m e) =
    cond_Zopp s (Z.min (round_scaled (Z.pos m * 2 ^ (e + scale))) top).
Proof.
  intros Ha. unfold binary_round, shl_align.
  pose proof (fexp_eq (Z.pos (digits2_pos m) + e)) as HE.
  destruct (fexp prec emax (Z.pos (digits2_pos m) + e) - e) as [ | k | k] eqn:Hk.
  - pose proof (binary_round_aux_value s m e Ha ltac:(lia)) as [Hnan Hval].
    split; [ exact Hnan | ]. rewrite Hval, round_scaled_eq by lia. reflexivity.
  - pose proof (binary_round_aux_value s m e Ha ltac:(lia)) as [Hnan Hval].
    split; [ exact Hnan | ]. rewrite Hval, round_scaled_eq by lia. reflexivity.
  - set (E := fexp prec emax (Z.pos (digits2_pos m) + e)) in *.
    assert (Hdig : Z.pos (digits2_pos (Pos.iter xO m k)) = Z.pos (digits2_pos m) + Z.pos k).
    { rewrite !digits2_pos_log2, pos_iter_xO, Z.log2_mul_pow2 by lia. lia. }
    assert (HE' : fexp prec emax (Z.pos (digits2_pos (Pos.iter xO m k)) + E) = E).
    { rewrite Hdig. replace (Z.pos (digits2_pos m) + Z.pos k + E)
        with (Z.pos (digits2_pos m) + e) by lia. reflexivity. }
    assert (HaE : 0 <= E + scale) by (unfold scale; lia).
    pose proof (binary_round_aux_value s (Pos.iter xO m k) E HaE ltac:(lia)) as [Hnan Hval].
    split; [ exact Hnan | ]. rewrite Hval, round_scaled_eq by lia.
    rewrite pos_iter_xO. do 3 f_equal.
    rewrite <- Z.mul_assoc, <- pow2_add by lia. do 2 f_equal. lia.
Qed.

Lemma round_scaled_0 : round_scaled 0 = 0.
Proof. reflexivity. Qed.

Lemma top_pos : 0 < top.
Proof. apply pow2_pos. unfold scale. lia. Qed.

Lemma binary_normalize_value (m e : Z) (szero : bool) :
  0 <= e + scale ->
  binary_normalize prec emax m e szero <> S754_nan /\
  sval (binary_normalize prec emax m e szero) = signed_round (m * 2 ^ (e + scale)).
Proof.
  intros Ha. pose proof (pow2_pos (e + scale) Ha) as Hp. pose proof top_pos.
  unfold binary_normalize, signed_round.
  destruct m as [ | p | p].
  - split; [ discriminate | ]. cbn [sval]. rewrite Z.mul_0_l.
    change (0 <? 0) with false. cbv iota. rewrite round_scaled_0. lia.
  - pose proof (binary_round_value false p e Ha) as [Hnan Hval].
    split; [ exact Hnan | ]. rewrite Hval.
    destruct (Z.ltb_spec (Z.pos p * 2 ^ (e + scale)) 0); [ lia | reflexivity ].
  - pose proof (binary_round_value true p e Ha) as [Hnan Hval].
    split; [ exact Hnan | ]. rewrite Hval.
    destruct (Z.ltb_spec (Z.neg p * 2 ^ (e + scale)) 0); [ | lia ].
    cbn [cond_Zopp]. do 3 f_equal. lia.
Qed.

(** ** Rounding is monotone *)

Lemma round_scaled_nonneg (V : Z) : 0 <= V -> 0 <= round_scaled V.
Proof.
  intros HV. unfold round_scaled.
  set (E := Z.max _ _). assert (0 <= E) by (unfold E, scale; lia).
  pose proof (pow2_pos E ltac:(lia)).
  pose proof (div_half_even_nonneg V (2 ^ E) ltac:(lia) HV). nia.
Qed.

Lemma round_scaled_mono (V1 V2 : Z) :
  0 <= V1 <= V2 -> round_scaled V1 <= round_scaled V2.
Proof.
  intros [H1 H12]. unfold round_scaled.
  pose proof (Z.log2_le_mono V1 V2 H12) as Hlog.
  pose proof (Z.log2_nonneg V1) as Hl1.
  set (E1 := Z.max (Z.log2 V1 + 1 - 53) (scale - 1074)).
  set (E2 := Z.max (Z.log2 V2 + 1 - 53) (scale - 1074)).
  assert (HE1 : 0 <= E1) by (unfold E1, scale; lia).
  assert (HE12 : E1 <= E2) by (unfold E1, E2; lia).
  pose proof (pow2_pos E1 HE1) as Hp1.
  pose proof (pow2_pos E2 ltac:(lia)) as Hp2.
  destruct (Z.eq_dec E1 E2) as [Heq | Hne].
  - rewrite <- Heq.
    pose proof (div_half_even_mono V1 V2 (2 ^ E1) Hp1 H12). nia.
  - assert (HE2 : E2 = Z.log2 V2 - 52) by (unfold E1, E2 in *; lia).
    assert (Hlt : Z.log2 V1 < Z.log2 V2) by (unfold E1, E2 in *; lia).
    assert (HV2 : 0 < V2).
    { destruct (Z.eq_dec V2 0) as [-> | ]; [ cbn in Hlt; lia | lia ]. }
    pose proof (Z.log2_spec V2 HV2) as [HB _].
    assert (HV1 : V1 < 2 ^ Z.log2 V2).
    { destruct (Z.eq_dec V1 0) as [-> | Hnz]; [ apply pow2_pos; lia | ].
      pose proof (Z.log2_spec V1 ltac:(lia)) as [_ Hup].
      pose proof (pow2_le (Z.succ (Z.log2 V1)) (Z.log2 V2) ltac:(lia)). lia. }
    set (B := 2 ^ Z.log2 V2) in *.
    assert (HB1 : B = 2 ^ (Z.log2 V2 - E1) * 2 ^ E1).
    { unfold B. rewrite <- pow2_add by lia. f_equal. lia. }
    assert (HB2 : B = 2 ^ (Z.log2 V2 - E2) * 2 ^ E2).
    { unfold B. rewrite <- pow2_add by lia. f_equal. lia. }
    pose proof (div_half_even_mono V1 B (2 ^ E1) Hp1 ltac:(lia)) as Hlow.
    rewrite HB1, div_half_even_exact in Hlow by lia.
    pose proof (div_half_even_mono B V2 (2 ^ E2) Hp2 ltac:(lia)) as Hhigh.
    rewrite HB2, div_half_even_exact in Hhigh by lia.
    nia.
Qed.

Lemma signed_round_mono (V1 V2 : Z) : V1 <= V2 -> signed_round V1 <= signed_round V2.
Proof.
  intros H12. unfold signed_round. pose proof top_pos.
  destruct (Z.ltb_spec V1 0); destruct (Z.ltb_spec V2 0); try lia.
  - pose proof (round_scaled_mono (- V2) (- V1) ltac:(lia)). lia.
  - pose proof (round_scaled_nonneg (- V1) ltac:(lia)).
    pose proof (round_scaled_nonneg V2 ltac:(lia)). lia.
  - pose proof (round_scaled_mono V1 V2 ltac:(lia)). lia.
Qed.

Lemma signed_round_opp (V : Z) : signed_round (- V) = - signed_round V.
Proof.
  unfold signed_round.
  destruct (Z.ltb_spec (- V) 0); destruct (Z.ltb_spec V 0); try lia.
  - rewrite Z.opp_involutive. lia.
  - replace V with 0 by lia. change (- 0) with 0. rewrite round_scaled_0.
    pose proof top_pos. lia.
Qed.


(** ** Valid floats: their values and their order *)

Lemma valid_finite (s : bool) (m : positive) (e : Z) :
  valid_binary (S754_finite s m e) = true ->
  e = Z.max (Z.pos (digits2_pos m) + e - 53) (-1074) /\ e <= 971.
Proof.
  unfold SpecFloat.valid_binary, bounded, canonical_mantissa.
  intros H. apply andb_true_iff in H as [Hc Hb].
  apply Z.eqb_eq in Hc. apply Z.leb_le in Hb. rewrite fexp_eq in Hc.
  change (emax - prec) with 971 in Hb. lia.
Qed.

Lemma valid_finite_value (s : bool) (m : positive) (e : Z) :
  valid_binary (S754_finite s m e) = true ->
  0 < Z.pos m * 2 ^ (e + scale) < top /\
  round_scaled (Z.pos m * 2 ^ (e + scale)) = Z.pos m * 2 ^ (e + scale).
Proof.
  intros Hv. destruct (valid_finite s m e Hv) as [Hc Hb].
  pose proof (digits2_pos_bounds m) as Hd.
  assert (Ha : 0 <= e + scale) by (unfold scale; lia).
  pose proof (pow2_pos (e + scale) Ha) as Hp.
  split; [ split; [ lia | ] | ].
  - rewrite top_split.
    pose proof (pow2_le (e + scale) (971 + scale) ltac:(lia)).
    pose proof (pow2_le (Z.pos (digits2_pos m)) 53 ltac:(lia)). nia.
  - rewrite <- round_scaled_eq by (rewrite ?fexp_eq; lia).
    rewrite fexp_eq. rewrite <- Hc. replace (e - e) with 0 by lia.
    change (2 ^ 0) with 1.
    rewrite <- (Z.mul_1_r (Z.pos m)) at 1. rewrite div_half_even_exact by lia. reflexivity.
Qed.

Lemma sval_bounds (x : spec_float) :
  valid_binary x = true -> - top <= sval x <= top.
Proof.
  intros Hv. pose proof top_pos. destruct x as [s | s | | s m e]; cbn [sval]; try lia.
  - destruct s; cbn; lia.
  - destruct (valid_finite_value s m e Hv) as [Hr _]. destruct s; cbn [cond_Zopp]; lia.
Qed.

Lemma sval_finite (x : spec_float) :
  valid_binary x = true -> is_finite_SF x = true ->
  - top < sval x < top /\ signed_round (sval x) = sval x.
Proof.
  intros Hv Hf. pose proof top_pos. destruct x as [s | s | | s m e]; try discriminate.
  - cbn [sval]. split; [ lia | ]. unfold signed_round. change (0 <? 0) with false.
    cbv iota. rewrite round_scaled_0. lia.
  - destruct (valid_finite_value s m e Hv) as [Hr Hex]. cbn [sval].
    destruct s; cbn [cond_Zopp].
    + split; [ lia | ]. rewrite signed_round_opp. unfold signed_round.
      destruct (Z.ltb_spec (Z.pos m * 2 ^ (e + scale)) 0); [ lia | ]. rewrite Hex. lia.
    + split; [ lia | ]. unfold signed_round.
      destruct (Z.ltb_spec (Z.pos m * 2 ^ (e + scale)) 0); [ lia | ]. rewrite Hex. lia.
Qed.

(** Between valid floats of one sign, the larger exponent is the larger
    number. *)
Lemma valid_exponent_lt (s1 s2 : bool) (m1 m2 : positive) (e1 e2 : Z) :
  valid_binary (S754_finite s1 m1 e1) = true ->
  valid_binary (S754_finite s2 m2 e2) = true ->
  e1 < e2 ->
  Z.pos m1 * 2 ^ (e1 + scale) < Z.pos m2 * 2 ^ (e2 + scale).
Proof.
  intros H1 H2 Hlt.
  destruct (valid_finite _ _ _ H1) as [Hc1 _]. destruct (valid_finite _ _ _ H2) as [Hc2 _].
  pose proof (digits2_pos_bounds m1) as Hd1. pose proof (digits2_pos_bounds m2) as Hd2.
  assert (Hdig2 : Z.pos (digits2_pos m2) = 53) by lia.
  rewrite Hdig2 in Hd2. change (53 - 1) with 52 in Hd2.
  pose proof (pow2_le (Z.pos (digits2_pos m1)) 53 ltac:(lia)).
  replace (e2 + scale) with ((e2 - e1) + (e1 + scale)) by lia.
  rewrite (pow2_add (e2 - e1) (e1 + scale)) by (unfold scale; lia).
  pose proof (pow2_pos (e1 + scale) ltac:(unfold scale; lia)).
  pose proof (pow2_le 1 (e2 - e1) ltac:(lia)). change (2 ^ 1) with 2 in *.
  change (2 ^ 53) with (2 * 2 ^ 52) in *.
  assert (Z.pos m1 * 2 ^ (e1 + scale) < 2 * 2 ^ 52 * 2 ^ (e1 + scale)) by nia.
  assert (2 * 2 ^ 52 * 2 ^ (e1 + scale) <= Z.pos m2 * (2 ^ (e2 - e1) * 2 ^ (e1 + scale))).
  { assert (2 * 2 ^ 52 <= Z.pos m2 * 2 ^ (e2 - e1)) by nia. nia. }
  lia.
Qed.

Lemma valid_compare (s1 s2 : bool) (m1 m2 : positive) (e1 e2 : Z) :
  valid_binary (S754_finite s1 m1 e1) = true ->
  valid_binary (S754_finite s2 m2 e2) = true ->
  match e1 ?= e2 with
  | Lt => Lt
  | Gt => Gt
  | Eq => Pos.compare_cont Eq m1 m2
  end = (Z.pos m1 * 2 ^ (e1 + scale) ?= Z.pos m2 * 2 ^ (e2 + scale)).
Proof.
  intros H1 H2. symmetry.
  destruct (Z.compare_spec e1 e2) as [Heq | Hlt | Hgt].
  - subst e2. change (Pos.compare_cont Eq m1 m2) with (Z.pos m1 ?= Z.pos m2).
    destruct (valid_finite _ _ _ H1) as [Hc1 _].
    pose proof (pow2_pos (e1 + scale) ltac:(unfold scale; lia)).
    destruct (Z.compare_spec (Z.pos m1) (Z.pos m2)) as [H' | H' | H'];
      [ apply Z.compare_eq_iff; rewrite H'; reflexivity
      | apply Z.compare_lt_iff; nia | apply Z.compare_gt_iff; nia ].
  - apply Z.compare_lt_iff. apply (valid_exponent_lt s1 s2); assumption.
  - apply Z.compare_gt_iff. apply (valid_exponent_lt s2 s1); assumption.
Qed.

Ltac compare_values :=
  cbn [cond_Zopp]; cbv iota; f_equal; symmetry;
  first [ apply Z.compare_eq_iff; lia | apply Z.compare_lt_iff; lia
        | apply Z.compare_gt_iff; lia ].

Lemma SFcompare_sval (x y : spec_float) :
  valid_binary x = true -> valid_binary y = true ->
  is_nan_SF x = false -> is_nan_SF y = false ->
  SFcompare x y = Some (sval x ?= sval y).
Proof.
  intros Hx Hy Hnx Hny. pose proof top_pos as Ht.
  destruct x as [sx | sx | | sx mx ex]; try discriminate;
    destruct y as [sy | sy | | sy my ey]; try discriminate; cbn [SFcompare sval].
  - reflexivity.
  - destruct sy; compare_values.
  - destruct (valid_finite_value sy my ey Hy) as [Hr _].
    destruct sy; compare_values.
  - destruct sx; compare_values.
  - destruct sx, sy; compare_values.
  - destruct (valid_finite_value sy my ey Hy) as [Hr _].
    destruct sx, sy; compare_values.
  - destruct (valid_finite_value sx mx ex Hx) as [Hr _].
    destruct sx; compare_values.
  - destruct (valid_finite_value sx mx ex Hx) as [Hr _].
    destruct sx, sy; compare_values.
  - destruct (valid_finite_value sx mx ex Hx) as [Hrx _].
    destruct (valid_finite_value sy my ey Hy) as [Hry _].
    destruct sx, sy; cbn [cond_Zopp]; f_equal.
    + rewrite Z.compare_opp. rewrite <- (valid_compare true true my mx ey ex Hy Hx).
      rewrite (Z.compare_antisym ey ex). change (Pos.compare_cont Eq mx my) with (Pos.compare mx my).
      change (Pos.compare_cont Eq my mx) with (Pos.compare my mx).
      rewrite (Pos.compare_antisym my mx).
      destruct (ey ?= ex); cbn; try reflexivity. apply CompOpp_involutive.
    + symmetry. apply Z.compare_lt_iff. lia.
    + symmetry. apply Z.compare_gt_iff. lia.
    + apply (valid_compare false false); assumption.
Qed.


(** ** The value of a sum, a difference, a product *)

Lemma cond_Zopp_mul (s : bool) (a b : Z) : cond_Zopp s a * b = cond_Zopp s (a * b).
Proof. destruct s; cbn [cond_Zopp]; lia. Qed.

Lemma signed_round_cond (s : bool) (V : Z) :
  0 <= V -> signed_round (cond_Zopp s V) = cond_Zopp s (Z.min (round_scaled V) top).
Proof.
  intros HV. destruct s; cbn [cond_Zopp].
  - rewrite signed_round_opp. unfold signed_round.
    destruct (Z.ltb_spec V 0); [ lia | reflexivity ].
  - unfold signed_round. destruct (Z.ltb_spec V 0); [ lia | reflexivity ].
Qed.

Lemma shl_align_value (mx : positive) (ex ez : Z) :
  ez <= ex -> 0 <= ez + scale ->
  Z.pos (fst (shl_align mx ex ez)) * 2 ^ (ez + scale) = Z.pos mx * 2 ^ (ex + scale).
Proof.
  intros Hle Ha. unfold shl_align.
  destruct (ez - ex) as [ | k | k] eqn:Hk; try lia; cbn [fst].
  - replace ez with ex by lia. reflexivity.
  - rewrite pos_iter_xO, <- Z.mul_assoc, <- pow2_add by lia. do 2 f_equal. lia.
Qed.

Lemma SFadd_value (x y : spec_float) :
  valid_binary x = true -> valid_binary y = true ->
  is_finite_SF x = true -> is_finite_SF y = true ->
  is_nan_SF (SFadd prec emax x y) = false /\
  sval (SFadd prec emax x y) = signed_round (sval x + sval y).
Proof.
  intros Hx Hy Hfx Hfy.
  destruct x as [sx | sx | | sx mx ex]; try discriminate;
    destruct y as [sy | sy | | sy my ey]; try discriminate; cbn [SFadd].
  - split; [ destruct sx, sy; reflexivity | ].
    cbn [sval]. change (signed_round (0 + 0)) with 0. destruct sx, sy; reflexivity.
  - split; [ reflexivity | ]. change (sval (S754_zero sx)) with 0. rewrite Z.add_0_l.
    symmetry. apply sval_finite; [ exact Hy | reflexivity ].
  - split; [ reflexivity | ]. change (sval (S754_zero sy)) with 0. rewrite Z.add_0_r.
    symmetry. apply sval_finite; [ exact Hx | reflexivity ].
  - destruct (valid_finite _ _ _ Hx) as [Hcx _]. destruct (valid_finite _ _ _ Hy) as [Hcy _].
    assert (Ha : 0 <= Z.min ex ey + scale) by (unfold scale; lia).
    pose proof (binary_normalize_value
                  (cond_Zopp sx (Z.pos (fst (shl_align mx ex (Z.min ex ey))))
                   + cond_Zopp sy (Z.pos (fst (shl_align my ey (Z.min ex ey)))))
                  (Z.min ex ey) false Ha) as [Hnan Hval].
    split; [ destruct (binary_normalize _ _ _ _ _); try reflexivity; contradiction | ].
    rewrite Hval. f_equal. cbn [sval].
    rewrite Z.mul_add_distr_r, !cond_Zopp_mul, !shl_align_value by lia. reflexivity.
Qed.

Lemma SFsub_value (x y : spec_float) :
  valid_binary x = true -> valid_binary y = true ->
  is_finite_SF x = true -> is_finite_SF y = true ->
  is_nan_SF (SFsub prec emax x y) = false /\
  sval (SFsub prec emax x y) = signed_round (sval x - sval y).
Proof.
  intros Hx Hy Hfx Hfy.
  destruct x as [sx | sx | | sx mx ex]; try discriminate;
    destruct y as [sy | sy | | sy my ey]; try discriminate; cbn [SFsub].
  - split; [ destruct sx, sy; reflexivity | ].
    cbn [sval]. change (signed_round (0 - 0)) with 0. destruct sx, sy; reflexivity.
  - split; [ reflexivity | ]. change (sval (S754_zero sx)) with 0.
    replace (0 - sval (S754_finite sy my ey)) with (- sval (S754_finite sy my ey)) by lia.
    rewrite signed_round_opp.
    destruct (sval_finite _ Hy eq_refl) as [_ ->].
    cbn [sval]. destruct sy; cbn [negb cond_Zopp]; lia.
  - split; [ reflexivity | ]. change (sval (S754_zero sy)) with 0. rewrite Z.sub_0_r.
    symmetry. apply sval_finite; [ exact Hx | reflexivity ].
  - destruct (valid_finite _ _ _ Hx) as [Hcx _]. destruct (valid_finite _ _ _ Hy) as [Hcy _].
    assert (Ha : 0 <= Z.min ex ey + scale) by (unfold scale; lia).
    pose proof (binary_normalize_value
                  (cond_Zopp sx (Z.pos (fst (shl_align mx ex (Z.min ex ey))))
                   - cond_Zopp sy (Z.pos (fst (shl_align my ey (Z.min ex ey)))))
                  (Z.min ex ey) false Ha) as [Hnan Hval].
    split; [ destruct (binary_normalize _ _ _ _ _); try reflexivity; contradiction | ].
    rewrite Hval. f_equal. cbn [sval].
    rewrite Z.mul_sub_distr_r, !cond_Zopp_mul, !shl_align_value by lia. reflexivity.
Qed.

Lemma SFmul_value (x y : spec_float) :
  valid_binary x = true -> valid_binary y = true ->
  is_finite_SF x = true -> is_finite_SF y = true ->
  is_nan_SF (SFmul prec emax x y) = false /\
  sval (SFmul prec emax x y) = signed_round (sval x * sval y / 2 ^ scale).
Proof.
  intros Hx Hy Hfx Hfy.
  destruct x as [sx | sx | | sx mx ex]; try discriminate;
    destruct y as [sy | sy | | sy my ey]; try discriminate; cbn [SFmul].
  - split; reflexivity.
  - split; reflexivity.
  - split; [ reflexivity | ]. cbn [sval]. rewrite Z.mul_0_r. reflexivity.
  - destruct (valid_finite _ _ _ Hx) as [Hcx _]. destruct (valid_finite _ _ _ Hy) as [Hcy _].
    pose proof (digits2_pos_bounds mx) as Hdx. pose proof (digits2_pos_bounds my) as Hdy.
    assert (Ha : 0 <= ex + ey + scale) by (unfold scale; lia).
    assert (Hdig : Z.pos (digits2_pos mx) + Z.pos (digits2_pos my) - 1
                   <= Z.pos (digits2_pos (mx * my))).
    { rewrite !digits2_pos_log2, Pos2Z.inj_mul.
      pose proof (Z.log2_mul_below (Z.pos mx) (Z.pos my) ltac:(lia) ltac:(lia)). lia. }
    assert (Hn : 0 <= fexp prec emax (Z.pos (digits2_pos (mx * my)) + (ex + ey)) - (ex + ey)).
    { rewrite fexp_eq. lia. }
    pose proof (binary_round_aux_value (xorb sx sy) (mx * my) (ex + ey) Ha Hn) as [Hnan Hval].
    split; [ destruct (binary_round_aux _ _ _ _ _ _); try reflexivity; contradiction | ].
    rewrite Hval, round_scaled_eq by assumption. cbn [sval].
    assert (Hprod : cond_Zopp sx (Z.pos mx * 2 ^ (ex + scale))
                    * cond_Zopp sy (Z.pos my * 2 ^ (ey + scale))
                    = cond_Zopp (xorb sx sy) (Z.pos (mx * my) * 2 ^ (ex + ey + scale))
                      * 2 ^ scale).
    { rewrite (cond_Zopp_mul (xorb sx sy)).
      replace (Z.pos (mx * my) * 2 ^ (ex + ey + scale) * 2 ^ scale)
        with ((Z.pos mx * 2 ^ (ex + scale)) * (Z.pos my * 2 ^ (ey + scale))).
      - destruct sx, sy; cbn [cond_Zopp xorb]; ring.
      - assert (Hp : 2 ^ (ex + scale) * 2 ^ (ey + scale) = 2 ^ (ex + ey + scale) * 2 ^ scale).
        { rewrite <- !pow2_add by (unfold scale; lia). f_equal. lia. }
        rewrite Pos2Z.inj_mul.
        transitivity (Z.pos mx * Z.pos my * (2 ^ (ex + scale) * 2 ^ (ey + scale)));
          [ ring | rewrite Hp; ring ]. }
    rewrite Hprod, Z.div_mul by (apply Z.pow_nonzero; unfold scale; lia).
    rewrite signed_round_cond; [ reflexivity | ].
    pose proof (pow2_pos (ex + ey + scale) Ha). lia.
Qed.

End Rounding.

Section FloatOrder.
Local Open Scope Z_scope.

Lemma finite_not_nan (x : float) : float_finite x = true -> float_is_nan x = false.
Proof. unfold float_finite, float_is_nan. destruct (Prim2SF x); cbn; congruence. Qed.

Lemma leb_fval (x y : float) :
  float_is_nan x = false -> float_is_nan y = false ->
  PrimFloat.leb x y = (fval x <=? fval y).
Proof.
  intros Hx Hy. rewrite leb_spec. unfold SFleb.
  rewrite (SFcompare_sval _ _ (Prim2SF_valid x) (Prim2SF_valid y) Hx Hy).
  unfold fval, Z.leb. destruct (sval (Prim2SF x) ?= sval (Prim2SF y)); reflexivity.
Qed.

Lemma ltb_fval (x y : float) :
  float_is_nan x = false -> float_is_nan y = false ->
  PrimFloat.ltb x y = (fval x <? fval y).
Proof.
  intros Hx Hy. rewrite ltb_spec. unfold SFltb.
  rewrite (SFcompare_sval _ _ (Prim2SF_valid x) (Prim2SF_valid y) Hx Hy).
  unfold fval, Z.ltb. destruct (sval (Prim2SF x) ?= sval (Prim2SF y)); reflexivity.
Qed.

Lemma leb_not_nan (x y : float) :
  PrimFloat.leb x y = true -> float_is_nan x = false /\ float_is_nan y = false.
Proof.
  rewrite leb_spec. unfold float_is_nan, SFleb.
  destruct (Prim2SF x), (Prim2SF y); cbn; intros H; try discriminate H; split; reflexivity.
Qed.

Lemma ltb_not_nan (x y : float) :
  PrimFloat.ltb x y = true -> float_is_nan x = false /\ float_is_nan y = false.
Proof.
  rewrite ltb_spec. unfold float_is_nan, SFltb.
  destruct (Prim2SF x), (Prim2SF y); cbn; intros H; try discriminate H; split; reflexivity.
Qed.

Lemma leb_le (x y : float) : PrimFloat.leb x y = true -> fval x <= fval y.
Proof.
  intros H. destruct (leb_not_nan x y H) as [Hx Hy].
  rewrite (leb_fval x y Hx Hy) in H. apply Z.leb_le. exact H.
Qed.

Lemma ltb_lt (x y : float) : PrimFloat.ltb x y = true -> fval x < fval y.
Proof.
  intros H. destruct (ltb_not_nan x y H) as [Hx Hy].
  rewrite (ltb_fval x y Hx Hy) in H. apply Z.ltb_lt. exact H.
Qed.

Lemma finite_iff (x : float) :
  float_finite x = true <-> float_is_nan x = false /\ - top < fval x < top.
Proof.
  unfold float_finite, float_is_nan, fval. pose proof top_pos.
  split.
  - intros Hf. split; [ destruct (Prim2SF x); cbn in *; congruence | ].
    apply sval_finite; [ apply Prim2SF_valid | exact Hf ].
  - intros [Hn Hb]. destruct (Prim2SF x) as [s | s | | s m e]; try reflexivity.
    + destruct s; cbn [sval cond_Zopp] in Hb; lia.
    + discriminate Hn.
Qed.

Lemma finite_between (a b x : float) :
  float_finite a = true -> float_finite b = true ->
  PrimFloat.leb a x = true -> PrimFloat.leb x b = true ->
  float_finite x = true.
Proof.
  intros Ha Hb Hax Hxb.
  apply finite_iff in Ha as [_ Ha]. apply finite_iff in Hb as [_ Hb].
  apply finite_iff. split; [ apply (leb_not_nan x b Hxb) | ].
  apply leb_le in Hax, Hxb. lia.
Qed.

Lemma le_lt_trans (x y z : float) :
  PrimFloat.leb x y = true -> PrimFloat.ltb y z = true -> PrimFloat.ltb x z = true.
Proof.
  intros Hxy Hyz.
  rewrite ltb_fval by (apply (leb_not_nan _ _ Hxy) || apply (ltb_not_nan _ _ Hyz)).
  apply leb_le in Hxy. apply ltb_lt in Hyz. apply Z.ltb_lt. lia.
Qed.

Lemma add_mono (x y c : float) :
  float_finite x = true -> float_finite y = true -> float_finite c = true ->
  PrimFloat.leb x y = true -> PrimFloat.leb (x + c) (y + c) = true.
Proof.
  intros Hx Hy Hc Hxy. apply leb_le in Hxy.
  destruct (SFadd_value _ _ (Prim2SF_valid x) (Prim2SF_valid c) Hx Hc) as [Hn1 Hv1].
  destruct (SFadd_value _ _ (Prim2SF_valid y) (Prim2SF_valid c) Hy Hc) as [Hn2 Hv2].
  rewrite leb_fval by (unfold float_is_nan; rewrite add_spec; assumption).
  unfold fval. rewrite !add_spec. unfold SF64add. rewrite Hv1, Hv2.
  apply Z.leb_le, signed_round_mono. unfold fval in Hxy. lia.
Qed.

Lemma sub_mono (x y c : float) :
  float_finite x = true -> float_finite y = true -> float_finite c = true ->
  PrimFloat.leb x y = true -> PrimFloat.leb (x - c) (y - c) = true.
Proof.
  intros Hx Hy Hc Hxy. apply leb_le in Hxy.
  destruct (SFsub_value _ _ (Prim2SF_valid x) (Prim2SF_valid c) Hx Hc) as [Hn1 Hv1].
  destruct (SFsub_value _ _ (Prim2SF_valid y) (Prim2SF_valid c) Hy Hc) as [Hn2 Hv2].
  rewrite leb_fval by (unfold float_is_nan; rewrite sub_spec; assumption).
  unfold fval. rewrite !sub_spec. unfold SF64sub. rewrite Hv1, Hv2.
  apply Z.leb_le, signed_round_mono. unfold fval in Hxy. lia.
Qed.

Lemma mul_mono (x y c : float) :
  float_finite x = true -> float_finite y = true -> float_finite c = true ->
  0 <= fval c ->
  PrimFloat.leb x y = true -> PrimFloat.leb (x * c) (y * c) = true.
Proof.
  intros Hx Hy Hc Hpos Hxy. apply leb_le in Hxy.
  destruct (SFmul_value _ _ (Prim2SF_valid x) (Prim2SF_valid c) Hx Hc) as [Hn1 Hv1].
  destruct (SFmul_value _ _ (Prim2SF_valid y) (Prim2SF_valid c) Hy Hc) as [Hn2 Hv2].
  rewrite leb_fval by (unfold float_is_nan; rewrite mul_spec; assumption).
  unfold fval. rewrite !mul_spec. unfold SF64mul. rewrite Hv1, Hv2.
  apply Z.leb_le, signed_round_mono.
  apply Z.div_le_mono; [ apply pow2_pos; unfold scale; lia | ].
  unfold fval in *. nia.
Qed.

End FloatOrder.

Section Ranges.

Lemma fval_0 : fval 0 = 0%Z.
Proof. reflexivity. Qed.

Lemma leb_0_fval (c : float) : PrimFloat.leb 0 c = true -> (0 <= fval c)%Z.
Proof. intros H. apply leb_le in H. rewrite fval_0 in H. exact H. Qed.

(** Below 1 there is no float above [next_down 1]. *)
Lemma below_one (u : float) :
  PrimFloat.ltb u 1 = true -> PrimFloat.leb u (next_down 1) = true.
Proof.
  intros H. pose proof (ltb_not_nan u 1 H) as [Hu _]. apply ltb_lt in H.
  rewrite leb_fval by (exact Hu || reflexivity). apply Z.leb_le.
  unfold fval, float_is_nan in *.
  change (Prim2SF 1) with (S754_finite false 4503599627370496 (-52)) in H.
  change (Prim2SF (next_down 1)) with (S754_finite false 9007199254740991 (-53)).
  pose proof (Prim2SF_valid u) as Hv. pose proof top_pos as Ht.
  cbn [sval cond_Zopp] in H |- *.
  assert (Hs1 : (2 ^ (-52 + scale) = 2 * 2 ^ (-53 + scale))%Z).
  { change 2%Z with (2 ^ 1)%Z at 2. rewrite <- pow2_add by (unfold scale; lia).
    f_equal. }
  pose proof (pow2_pos (-53 + scale) ltac:(unfold scale; lia)) as Hq.
  destruct (Prim2SF u) as [s | s | | s m e]; cbn [sval cond_Zopp] in H |- *.
  - lia.
  - destruct s; cbn [cond_Zopp] in H |- *; [ lia | ].
    exfalso. rewrite top_split in H.
    pose proof (pow2_le (-52 + scale) (971 + scale) ltac:(unfold scale; lia)).
    pose proof (pow2_pos (-52 + scale) ltac:(unfold scale; lia)).
    change (2 ^ 53)%Z with 9007199254740992%Z in H. nia.
  - discriminate Hu.
  - destruct (valid_finite s m e Hv) as [Hc _].
    pose proof (digits2_pos_bounds m) as Hd.
    pose proof (pow2_pos (e + scale) ltac:(unfold scale; lia)) as Hp.
    destruct s; cbn [cond_Zopp] in H |- *; [ lia | ].
    pose proof (pow2_le (Z.pos (digits2_pos m)) 53 ltac:(lia)) as Hm.
    change (2 ^ 53)%Z with 9007199254740992%Z in Hm.
    destruct (Z_lt_le_dec e (-53)) as [Hsmall | Hbig].
    + pose proof (pow2_le (e + scale) (-54 + scale) ltac:(unfold scale; lia)) as Hle.
      assert (Hs2 : (2 ^ (-53 + scale) = 2 * 2 ^ (-54 + scale))%Z).
      { change 2%Z with (2 ^ 1)%Z at 2. rewrite <- pow2_add by (unfold scale; lia).
        f_equal. }
      pose proof (pow2_pos (-54 + scale) ltac:(unfold scale; lia)). nia.
    + assert (Hs3 : (2 ^ (e + scale) = 2 ^ (e + 53) * 2 ^ (-53 + scale))%Z).
      { rewrite <- pow2_add by (unfold scale; lia). f_equal. lia. }
      rewrite Hs3, Hs1 in *.
      pose proof (pow2_pos (e + 53) ltac:(lia)).
      assert (Z.pos m * 2 ^ (e + 53) < 9007199254740992)%Z by nia.
      nia.
Qed.

(** The remaps of [_train_dummy_model] on a draw of [0, 1). *)
Lemma remap_ranges (u : float) :
  PrimFloat.leb 0 u = true -> PrimFloat.ltb u 1 = true ->
  (PrimFloat.leb (-10) (u * 40 - 10) = true /\ PrimFloat.ltb (u * 40 - 10) 30 = true) /\
  (PrimFloat.leb 0 (u * 100) = true /\ PrimFloat.ltb (u * 100) 100 = true) /\
  (PrimFloat.leb 950 (u * 100 + 950) = true /\ PrimFloat.leb (u * 100 + 950) 1050 = true) /\
  (PrimFloat.leb 0 (u * 20) = true /\ PrimFloat.ltb (u * 20) 20 = true) /\
  (PrimFloat.leb 0 (u * 24) = true /\ PrimFloat.ltb (u * 24) 24 = true).
Proof.
  intros Hlo Hlt. pose proof (below_one u Hlt) as Hhi.
  assert (Hfin : float_finite u = true).
  { apply (finite_between 0 (next_down 1)); [ reflexivity | reflexivity | exact Hlo | exact Hhi ]. }
  assert (Hmul : forall c : float,
             float_finite c = true -> PrimFloat.leb 0 c = true ->
             PrimFloat.leb (0 * c) (u * c) = true /\
             PrimFloat.leb (u * c) (next_down 1 * c) = true).
  { intros c Hc Hpos. split; apply mul_mono; try assumption; try reflexivity;
      apply leb_0_fval; exact Hpos. }
  split; [ | split; [ | split; [ | split ] ] ].
  - destruct (Hmul 40%float eq_refl eq_refl) as [H1 H2].
    assert (Hf : float_finite (u * 40) = true).
    { exact (finite_between (0 * 40) (next_down 1 * 40) _ eq_refl eq_refl H1 H2). }
    split.
    + exact (sub_mono (0 * 40) (u * 40) 10 eq_refl Hf eq_refl H1).
    + apply (le_lt_trans _ _ _ (sub_mono (u * 40) (next_down 1 * 40) 10 Hf eq_refl eq_refl H2)).
      reflexivity.
  - destruct (Hmul 100%float eq_refl eq_refl) as [H1 H2].
    split; [ exact H1 | apply (le_lt_trans _ _ _ H2); reflexivity ].
  - destruct (Hmul 100%float eq_refl eq_refl) as [H1 H2].
    assert (Hf : float_finite (u * 100) = true).
    { exact (finite_between (0 * 100) (next_down 1 * 100) _ eq_refl eq_refl H1 H2). }
    split.
    + exact (add_mono (0 * 100) (u * 100) 950 eq_refl Hf eq_refl H1).
    + exact (add_mono (u * 100) (next_down 1 * 100) 950 Hf eq_refl eq_refl H2).
  - destruct (Hmul 20%float eq_refl eq_refl) as [H1 H2].
    split; [ exact H1 | apply (le_lt_trans _ _ _ H2); reflexivity ].
  - destruct (Hmul 24%float eq_refl eq_refl) as [H1 H2].
    split; [ exact H1 | apply (le_lt_trans _ _ _ H2); reflexivity ].
Qed.


(** ** Rounding a confidence to three decimals *)

Lemma thousandths_in_range :
  forallb (fun k => in_range (thousandth (600 + Z.of_nat k))) (seq 0 351) = true.
Proof. vm_compute. reflexivity. Qed.

Lemma thousandth_in_range (z : Z) :
  (600 <= z <= 950)%Z -> in_range (thousandth z) = true.
Proof.
  intros Hz.
  pose proof thousandths_in_range as Hall.
  rewrite forallb_forall in Hall.
  replace z with (600 + Z.of_nat (Z.to_nat (z - 600)))%Z by lia.
  apply Hall. apply in_seq. lia.
Qed.

Lemma compare_cont_le (a b : positive) :
  match Pos.compare_cont Eq a b with Gt => false | _ => true end = true ->
  (Z.pos a <= Z.pos b)%Z.
Proof.
  change (Pos.compare_cont Eq a b) with (Pos.compare a b).
  destruct (Pos.compare_spec a b) as [Heq | Hlt | Hgt]; intros H.
  - subst. lia.
  - lia.
  - discriminate H.
Qed.

(** A float between two positive floats of one exponent has that exponent,
    and its mantissa lies between theirs. *)
Lemma between_same_exponent (x : float) (lo hi : positive) (e : Z) :
  SFleb (S754_finite false lo e) (Prim2SF x) = true ->
  SFleb (Prim2SF x) (S754_finite false hi e) = true ->
  exists m : positive,
    Prim2SF x = S754_finite false m e /\ (Z.pos lo <= Z.pos m <= Z.pos hi)%Z.
Proof.
  intros Hlo Hhi.
  destruct (Prim2SF x) as [s | s | | s m e'].
  - cbn in Hlo. discriminate.
  - destruct s; cbn in Hlo, Hhi; discriminate.
  - cbn in Hlo. discriminate.
  - unfold SFleb, SFcompare in Hlo, Hhi.
    destruct s; [ discriminate | ].
    destruct (Z.compare_spec e e') as [He | He | He]; try discriminate.
    + subst e'. rewrite Z.compare_refl in Hhi.
      exists m. split; [ reflexivity | ].
      split; [ exact (compare_cont_le _ _ Hlo) | exact (compare_cont_le _ _ Hhi) ].
    + destruct (Z.compare_spec e' e) as [He' | He' | He']; try discriminate; lia.
Qed.

(** NumPy's rounding of a [float64] keeps [0.6, 0.95]: the product by
    1000 lies between 600 and 950, so does the integer [rint] makes of it,
    and each of those integers, divided by 1000, is a float of the
    interval. *)
Lemma np_round_keeps_range (x : float) :
  PrimFloat.leb 0.6 x = true -> PrimFloat.leb x 0.95 = true ->
  PrimFloat.leb 0.6 (np_round x 3) = true /\
  PrimFloat.leb (np_round x 3) 0.95 = true.
Proof.
  intros Hlo Hhi.
  assert (Hfin : float_finite x = true).
  { exact (finite_between 0.6 0.95 x eq_refl eq_refl Hlo Hhi). }
  pose proof (mul_mono 0.6 x 1000 eq_refl Hfin eq_refl (leb_0_fval 1000 eq_refl) Hlo) as H1.
  pose proof (mul_mono x 0.95 1000 Hfin eq_refl eq_refl (leb_0_fval 1000 eq_refl) Hhi) as H2.
  unfold np_round. change (power_of_ten (Pos.to_nat 3)) with 1000%float.
  change (0.6 * 1000)%float with 600%float in H1.
  change (0.95 * 1000)%float with 950%float in H2.
  rewrite leb_spec in H1, H2.
  change (Prim2SF 600) with (S754_finite false 5277655813324800 (-43)) in H1.
  change (Prim2SF 950) with (S754_finite false 8356288371097600 (-43)) in H2.
  destruct (between_same_exponent (x * 1000) _ _ _ H1 H2) as (m & Hy & Hm).
  unfold rint. rewrite Hy.
  change (0 <=? -43)%Z with false. cbv iota.
  change (- -43)%Z with 43%Z. cbn [cond_Zopp].
  assert (Hk : (600 <= div_half_even (Z.pos m) (2 ^ 43) <= 950)%Z).
  { pose proof (div_half_even_mono (600 * 2 ^ 43) (Z.pos m) (2 ^ 43)
                  ltac:(lia) ltac:(lia)) as H3.
    pose proof (div_half_even_mono (Z.pos m) (950 * 2 ^ 43) (2 ^ 43)
                  ltac:(lia) ltac:(lia)) as H4.
    rewrite div_half_even_exact in H3, H4 by lia. lia. }
  pose proof (thousandth_in_range _ Hk) as Hin.
  unfold in_range, thousandth in Hin. apply andb_true_iff in Hin.
  exact Hin.
Qed.

(** The builtin rounding of a [float] keeps [0.6, 0.95] as well. *)
Lemma float_round_keeps_range (x : float) :
  PrimFloat.leb 0.6 x = true -> PrimFloat.leb x 0.95 = true ->
  PrimFloat.leb 0.6 (float_round x 3) = true /\
  PrimFloat.leb (float_round x 3) 0.95 = true.
Proof.
  intros Hlo Hhi. rewrite leb_spec in Hlo, Hhi.
  change (Prim2SF 0.6) with (S754_finite false 5404319552844595 (-53)) in Hlo.
  change (Prim2SF 0.95) with (S754_finite false 8556839292003942 (-53)) in Hhi.
  destruct (between_same_exponent x _ _ _ Hlo Hhi) as (m & Hx & Hm).
  unfold float_round. rewrite Hx.
  change (0 <=? -53)%Z with false. cbv iota.
  change (- -53)%Z with 53%Z. change (10 ^ 3)%Z with 1000%Z.
  assert (Hk : (600 <= div_half_even (Z.pos m * 1000) (2 ^ 53) <= 950)%Z).
  { pose proof (div_half_even_mono (600 * 2 ^ 53 - 2 ^ 52 + 1) (Z.pos m * 1000) (2 ^ 53)
                  ltac:(lia) ltac:(lia)) as H1.
    pose proof (div_half_even_mono (Z.pos m * 1000) (950 * 2 ^ 53 + 2 ^ 52 - 1) (2 ^ 53)
                  ltac:(lia) ltac:(lia)) as H2.
    change (div_half_even (600 * 2 ^ 53 - 2 ^ 52 + 1) (2 ^ 53)) with 600%Z in H1.
    change (div_half_even (950 * 2 ^ 53 + 2 ^ 52 - 1) (2 ^ 53)) with 950%Z in H2.
    lia. }
  pose proof (thousandth_in_range _ Hk) as Hin.
  unfold in_range, thousandth in Hin. apply andb_true_iff in Hin.
  exact Hin.
Qed.

(** On the two bounds of the clamp, which it may hand to [round] as
    [float]s rather than [float64]s, the builtin and NumPy agree. *)
Lemma round_at_the_bounds :
  float_round 0.6 3 = 0.6%float /\ np_round 0.6 3 = 0.6%float /\
  float_round 0.95 3 = 0.95%float /\ np_round 0.95 3 = 0.95%float.
Proof. vm_compute. repeat split. Qed.

End Ranges.

(** ** The confidence heuristic stays between its floor and its cap *)

Lemma float_ltb_leb (a b : float) :
  PrimFloat.ltb a b = true -> PrimFloat.leb a b = true.
Proof.
  rewrite ltb_spec, leb_spec. unfold SFltb, SFleb.
  destruct (SFcompare (Prim2SF a) (Prim2SF b)) as [[ | | ] | ]; congruence.
Qed.

(** Whatever float is clamped (NaN and the infinities included), the result
    of [min(0.95, max(0.6, x))] compares within [0.6, 0.95]. *)
Lemma clamp_in_range (x : float) :
  PrimFloat.leb 0.6 (py_min 0.95 (py_max 0.6 x)) = true /\
  PrimFloat.leb (py_min 0.95 (py_max 0.6 x)) 0.95 = true.
Proof.
  unfold py_min, py_max.
  destruct (PrimFloat.ltb 0.6 x) eqn:Hfloor.
  - destruct (PrimFloat.ltb x 0.95) eqn:Hcap.
    + split; apply float_ltb_leb; assumption.
    + split; reflexivity.
  - split; reflexivity.
Qed.

Section PredictProperties.
Context {L : Library}.

(** The array [predict_weather] builds from an observation and the hour. *)
Local Abbreviation features_of i h :=
  [[ PyFloat (WeatherInput.current_temp i);
     PyInt (WeatherInput.humidity i);
     PyFloat (WeatherInput.pressure i);
     PyFloat (WeatherInput.wind_speed i);
     PyInt h ]].

(** The regressor's answer for an array: scale it, predict, take entry 0. *)
Local Abbreviation regress self x :=
  (result_bind (call_transform (scaler self) x)
     (fun xs => result_bind (call_predict (model self) xs) index0)).

Local Abbreviation observed w :=
  (with_prediction_time_count (S (prediction_time_count w)) w).

(** [predict_weather] on an untrained predictor. *)
Lemma predict_weather_untrained_eq (self : AIWeatherPredictor) (w : World)
    (weather_input : WeatherInput.t) :
  is_trained self = false ->
  predict_weather weather_input (self, w) =
    (Raise (HTTPException 503 "Model not trained"), (self, observed w)).
Proof.
  intros Hflag.
  unfold predict_weather, with_PREDICTION_TIME, bind, get_is_trained, raise.
  cbn. rewrite Hflag. reflexivity.
Qed.

(** [predict_weather] on a trained predictor, as one equation: the clock is
    read once for the hour and once more for the timestamp of a success; a
    failure of the scaler, of the regressor or of the indexing is logged and
    replaced by the fixed HTTP 500 error. *)
Lemma predict_weather_trained_eq (self : AIWeatherPredictor) (w : World)
    (weather_input : WeatherInput.t) :
  is_trained self = true ->
  predict_weather weather_input (self, w) =
    match regress self (features_of weather_input (hour (clock w (ticks w)))) with
    | Ok predicted_temp =>
        (Ok (WeatherPrediction.mk
               (WeatherInput.location weather_input)
               (py_round predicted_temp 2)
               (py_round
                  (py_min 0.95 (py_max 0.6
                     (1.0 - PrimFloat.abs (predicted_temp - WeatherInput.current_temp weather_input) / 10)%float))
                  3)
               1
               (clock w (S (ticks w)))
               (model_version self)),
         (self, observed (with_ticks (S (S (ticks w))) w)))
    | Raise e =>
        (Raise (HTTPException 500 "Prediction failed"),
         (self, observed (with_log (log w ++ [("ERROR", "Prediction error: " +:+ exn_str e)])
                            (with_ticks (S (ticks w)) w))))
    end.
Proof.
  intros Hflag.
  unfold predict_weather, with_PREDICTION_TIME, bind, try_except, get_is_trained,
    datetime_now, get_scaler, get_model, get_model_version, lift, ret, raise,
    logger_error, np_array, result_bind.
  cbn. rewrite Hflag. cbn.
  destruct (call_transform (scaler self) _) as [xs | e]; cbn; [ | reflexivity ].
  destruct (call_predict (model self) xs) as [ps | e]; cbn; [ | reflexivity ].
  destruct (index0 ps) as [p | e]; cbn; reflexivity.
Qed.

(** C2: whatever the observation, an untrained predictor answers with the
    "model unavailable" failure (HTTP 503, "Model not trained") and returns
    no prediction; the predictor itself is left as it was. *)
Theorem predict_weather_model_unavailable (self : AIWeatherPredictor) (w : World)
    (weather_input : WeatherInput.t) :
  is_trained self = false ->
  fst (predict_weather weather_input (self, w)) =
    Raise (HTTPException 503 "Model not trained") /\
  (forall r, fst (predict_weather weather_input (self, w)) <> Ok r) /\
  fst (snd (predict_weather weather_input (self, w))) = self.
Proof.
  intros Hflag. rewrite (predict_weather_untrained_eq _ _ _ Hflag). cbn.
  repeat split. intros r Hr. discriminate Hr.
Qed.

(** C1: a successful prediction carries the confidence
    [min(0.95, max(0.6, 1.0 - |predicted_temp - current_temp| / 10))] computed
    from the regressor's output and rounded by [round(., 3)]; the value
    before rounding and the value returned both compare within [0.6, 0.95],
    for every pair of floats, finite or not. *)
Theorem predict_weather_confidence (self : AIWeatherPredictor) (w : World)
    (weather_input : WeatherInput.t) (r : WeatherPrediction.t) (st' : State) :
  predict_weather weather_input (self, w) = (Ok r, st') ->
  exists predicted_temp : float,
    regress self (features_of weather_input (hour (clock w (ticks w)))) = Ok predicted_temp /\
    exists confidence : float,
      confidence =
        py_min 0.95 (py_max 0.6
          (1.0 - PrimFloat.abs (predicted_temp - WeatherInput.current_temp weather_input) / 10)%float) /\
      WeatherPrediction.confidence r = py_round confidence 3 /\
      PrimFloat.leb 0.6 confidence = true /\
      PrimFloat.leb confidence 0.95 = true /\
      PrimFloat.leb 0.6 (WeatherPrediction.confidence r) = true /\
      PrimFloat.leb (WeatherPrediction.confidence r) 0.95 = true.
Proof.
  intros Hrun.
  destruct (is_trained self) eqn:Hflag.
  - rewrite (predict_weather_trained_eq _ _ _ Hflag) in Hrun.
    destruct (regress self _) as [p | e]; [ | discriminate Hrun ].
    injection Hrun as Hr _. subst r.
    exists p. split; [ reflexivity | ].
    eexists. split; [ reflexivity | ]. cbn [WeatherPrediction.confidence].
    split; [ reflexivity | ].
    destruct (clamp_in_range
                (1.0 - PrimFloat.abs (p - WeatherInput.current_temp weather_input) / 10)%float)
      as [Hlo Hhi].
    split; [ exact Hlo | ]. split; [ exact Hhi | ].
    unfold py_round. apply np_round_keeps_range; assumption.
  - rewrite (predict_weather_untrained_eq _ _ _ Hflag) in Hrun. discriminate Hrun.
Qed.

(** X5: the confidence a successful prediction returns is within
    [0.6, 0.95] as soon as [round(., 3)] does not take a value of that
    interval out of it. *)
Theorem returned_confidence_in_range (self : AIWeatherPredictor) (w : World)
    (weather_input : WeatherInput.t) (r : WeatherPrediction.t) (st' : State) :
  (forall x, PrimFloat.leb 0.6 x = true -> PrimFloat.leb x 0.95 = true ->
             PrimFloat.leb 0.6 (py_round x 3) = true /\
             PrimFloat.leb (py_round x 3) 0.95 = true) ->
  predict_weather weather_input (self, w) = (Ok r, st') ->
  PrimFloat.leb 0.6 (WeatherPrediction.confidence r) = true /\
  PrimFloat.leb (WeatherPrediction.confidence r) 0.95 = true.
Proof.
  intros Hround Hrun.
  destruct (is_trained self) eqn:Hflag.
  - rewrite (predict_weather_trained_eq _ _ _ Hflag) in Hrun.
    destruct (regress self _) as [p | e]; [ | discriminate Hrun ].
    injection Hrun as Hr _. subst r. cbn.
    apply Hround; apply clamp_in_range.
  - rewrite (predict_weather_untrained_eq _ _ _ Hflag) in Hrun. discriminate Hrun.
Qed.

(** C6: on a trained predictor the scaler is applied to exactly the array
    [[current_temp, humidity, pressure, wind_speed, hour]], in this order,
    with the hour field of the clock reading as it is, and the regressor to
    the scaler's answer for it: the outcome is given by the equation below,
    and it is the same for any other scaler that agrees on this one array and
    any other regressor that agrees on the scaled one. *)
Theorem predict_weather_feature_vector (self : AIWeatherPredictor) (w : World)
    (weather_input : WeatherInput.t) :
  is_trained self = true ->
  let features :=
    [[ PyFloat (WeatherInput.current_temp weather_input);
       PyInt (WeatherInput.humidity weather_input);
       PyFloat (WeatherInput.pressure weather_input);
       PyFloat (WeatherInput.wind_speed weather_input);
       PyInt (hour (clock w (ticks w))) ]] in
  fst (predict_weather weather_input (self, w)) =
    match result_bind (call_transform (scaler self) features)
            (fun xs => result_bind (call_predict (model self) xs) index0) with
    | Ok predicted_temp =>
        Ok (WeatherPrediction.mk
              (WeatherInput.location weather_input)
              (py_round predicted_temp 2)
              (py_round
                 (py_min 0.95 (py_max 0.6
                    (1.0 - PrimFloat.abs (predicted_temp - WeatherInput.current_temp weather_input) / 10)%float))
                 3)
              1
              (clock w (S (ticks w)))
              (model_version self))
    | Raise _ => Raise (HTTPException 500 "Prediction failed")
    end /\
  (forall other_scaler : pyobj,
      call_transform other_scaler features = call_transform (scaler self) features ->
      fst (predict_weather weather_input
             (mk_AIWeatherPredictor (model self) other_scaler (model_version self) true, w)) =
      fst (predict_weather weather_input (self, w))) /\
  (forall (other_model : pyobj) (xs : matrix),
      call_transform (scaler self) features = Ok xs ->
      call_predict other_model xs = call_predict (model self) xs ->
      fst (predict_weather weather_input
             (mk_AIWeatherPredictor other_model (scaler self) (model_version self) true, w)) =
      fst (predict_weather weather_input (self, w))).
Proof.
  intros Hflag features.
  rewrite (predict_weather_trained_eq self w weather_input Hflag).
  fold features. split; [ | split ].
  - destruct (regress self features); reflexivity.
  - intros other_scaler Hsame.
    rewrite predict_weather_trained_eq by reflexivity. cbn [model scaler model_version].
    fold features. rewrite Hsame.
    destruct (regress self features); reflexivity.
  - intros other_model xs Hxs Hsame.
    rewrite predict_weather_trained_eq by reflexivity. cbn [model scaler model_version].
    fold features. unfold result_bind. rewrite Hxs, Hsame.
    destruct (call_predict (model self) xs) as [ps | e]; [ | reflexivity ].
    destruct (index0 ps); reflexivity.
Qed.

(** C8: [predict_weather] fails in two ways only, "Model not trained"
    (HTTP 503) on an untrained predictor and "Prediction failed" (HTTP 500) on
    a trained one; whatever exception the scaler, the regressor or the
    indexing of its answer raises is logged and replaced by that fixed 500,
    the same for every cause. *)
Theorem predict_weather_failures (self : AIWeatherPredictor) (w : World)
    (weather_input : WeatherInput.t) :
  (forall e, fst (predict_weather weather_input (self, w)) = Raise e ->
     (is_trained self = false /\ e = HTTPException 503 "Model not trained") \/
     (is_trained self = true /\ e = HTTPException 500 "Prediction failed")) /\
  (is_trained self = true ->
   forall cause : exn,
     (call_transform (scaler self)
        (features_of weather_input (hour (clock w (ticks w)))) = Raise cause \/
      exists xs,
        call_transform (scaler self)
          (features_of weather_input (hour (clock w (ticks w)))) = Ok xs /\
        (call_predict (model self) xs = Raise cause \/
         exists ps, call_predict (model self) xs = Ok ps /\ index0 ps = Raise cause)) ->
     predict_weather weather_input (self, w) =
       (Raise (HTTPException 500 "Prediction failed"),
        (self, observed (with_log (log w ++ [("ERROR", "Prediction error: " +:+ exn_str cause)])
                           (with_ticks (S (ticks w)) w))))).
Proof.
  split.
  - intros e He. destruct (is_trained self) eqn:Hflag.
    + right. split; [ reflexivity | ].
      rewrite (predict_weather_trained_eq _ _ _ Hflag) in He.
      destruct (regress self _); cbn in He; [ discriminate He | ].
      injection He as He. symmetry. exact He.
    + left. split; [ reflexivity | ].
      rewrite (predict_weather_untrained_eq _ _ _ Hflag) in He. cbn in He.
      injection He as He. symmetry. exact He.
  - intros Hflag cause Hcause.
    rewrite (predict_weather_trained_eq _ _ _ Hflag). unfold result_bind.
    destruct Hcause as [Ht | [xs [Ht [Hp | [ps [Hp Hi]]]]]].
    + rewrite Ht. reflexivity.
    + rewrite Ht, Hp. reflexivity.
    + rewrite Ht, Hp, Hi. reflexivity.
Qed.

(** C9: with the model state fixed, two calls on the same observation whose
    clock readings show the same hour agree on everything but the timestamp
    (or fail alike), whatever else differs in the environment; and a call
    leaves the predictor's attributes as they were. *)
Theorem predict_weather_deterministic (self : AIWeatherPredictor) (w1 w2 : World)
    (weather_input : WeatherInput.t) :
  hour (clock w1 (ticks w1)) = hour (clock w2 (ticks w2)) ->
  match fst (predict_weather weather_input (self, w1)),
        fst (predict_weather weather_input (self, w2)) with
  | Ok r1, Ok r2 =>
      WeatherPrediction.location r1 = WeatherPrediction.location r2 /\
      WeatherPrediction.predicted_temp r1 = WeatherPrediction.predicted_temp r2 /\
      WeatherPrediction.confidence r1 = WeatherPrediction.confidence r2 /\
      WeatherPrediction.forecast_hours r1 = WeatherPrediction.forecast_hours r2 /\
      WeatherPrediction.model_version r1 = WeatherPrediction.model_version r2
  | Raise e1, Raise e2 => e1 = e2
  | _, _ => False
  end /\
  fst (snd (predict_weather weather_input (self, w1))) = self /\
  fst (snd (predict_weather weather_input (self, w2))) = self.
Proof.
  intros Hhour.
  destruct (is_trained self) eqn:Hflag.
  - rewrite !(predict_weather_trained_eq _ _ _ Hflag), Hhour.
    destruct (regress self _); cbn; repeat split.
  - rewrite !(predict_weather_untrained_eq _ _ _ Hflag). cbn. repeat split.
Qed.

(** C10: two observations that agree on location, current_temp, humidity,
    pressure and wind_speed get the same outcome, final state included,
    whatever their [historical_data]. *)
Theorem historical_data_noninterference (st : State) (i1 i2 : WeatherInput.t) :
  WeatherInput.location i1 = WeatherInput.location i2 ->
  WeatherInput.current_temp i1 = WeatherInput.current_temp i2 ->
  WeatherInput.humidity i1 = WeatherInput.humidity i2 ->
  WeatherInput.pressure i1 = WeatherInput.pressure i2 ->
  WeatherInput.wind_speed i1 = WeatherInput.wind_speed i2 ->
  predict_weather i1 st = predict_weather i2 st.
Proof.
  destruct i1 as [l1 c1 h1 p1 s1 d1], i2 as [l2 c2 h2 p2 s2 d2]. cbn.
  intros -> -> -> -> ->. reflexivity.
Qed.

End PredictProperties.

(** ** The bootstrap training set: shapes *)

Section TrainingSet.
Context {L : Library}.

Lemma draw_row_length (m : nat) (g : rng_state) :
  length (fst (draw_row m g)) = m.
Proof.
  revert g. induction m as [ | m IH]; intros g; cbn; [ reflexivity | ].
  destruct (random_sample g) as [x g1].
  specialize (IH g1). destruct (draw_row m g1) as [xs g2]. cbn in *.
  rewrite IH. reflexivity.
Qed.

Lemma draw_rows_length (n m : nat) (g : rng_state) :
  length (fst (draw_rows n m g)) = n.
Proof.
  revert g. induction n as [ | n IH]; intros g; cbn; [ reflexivity | ].
  destruct (draw_row m g) as [r g1].
  specialize (IH g1). destruct (draw_rows n m g1) as [rs g2]. cbn in *.
  rewrite IH. reflexivity.
Qed.

Lemma draw_rows_width (n m : nat) (g : rng_state) :
  width m (fst (draw_rows n m g)).
Proof.
  revert g. induction n as [ | n IH]; intros g; cbn; [ constructor | ].
  pose proof (draw_row_length m g) as Hrow.
  destruct (draw_row m g) as [r g1].
  specialize (IH g1). destruct (draw_rows n m g1) as [rs g2]. cbn in *.
  constructor; assumption.
Qed.

Lemma draw_normal_length (loc scale : float) (n : nat) (g : rng_state) :
  length (fst (draw_normal loc scale n g)) = n.
Proof.
  revert g. induction n as [ | n IH]; intros g; cbn; [ reflexivity | ].
  destruct (normal_sample loc scale g) as [x g1].
  specialize (IH g1). destruct (draw_normal loc scale n g1) as [xs g2]. cbn in *.
  rewrite IH. reflexivity.
Qed.

Lemma width_alter (m j : nat) (f : float -> float) (X : matrix) :
  width m X -> width m (map (alter f j) X).
Proof.
  unfold width. intros HX. apply Forall_map.
  eapply Forall_impl; [ exact HX | ].
  intros row Hrow. cbn. rewrite length_alter. exact Hrow.
Qed.

Lemma columns_in_range (m j : nat) (X : matrix) :
  width m X -> j < m -> forallb (fun row => Nat.ltb j (length row)) X = true.
Proof.
  intros HX Hj. apply forallb_forall. intros row Hin.
  unfold width in HX. rewrite List.Forall_forall in HX.
  rewrite (HX row Hin). apply Nat.ltb_lt. exact Hj.
Qed.

Lemma update_col_ok (m j : nat) (f : float -> float) (X : matrix) :
  width m X -> j < m -> update_col j f X = Ok (map (alter f j) X).
Proof.
  intros HX Hj. unfold update_col. rewrite (columns_in_range m j X HX Hj). reflexivity.
Qed.

Lemma get_col_ok (m j : nat) (X : matrix) :
  width m X -> j < m -> get_col j X = Ok (map (fun row => nth j row 0%float) X).
Proof.
  intros HX Hj. unfold get_col. rewrite (columns_in_range m j X HX Hj). reflexivity.
Qed.

Lemma vec_op_ok (op : float -> float -> float) (a b : list float) :
  length a = length b -> vec_op op a b = Ok (zip_with op a b).
Proof.
  intros Hlen. unfold vec_op. rewrite Hlen, Nat.eqb_refl. reflexivity.
Qed.

Lemma bootstrap_uniforms_width : width 5 bootstrap_uniforms.
Proof. apply draw_rows_width. Qed.

Lemma bootstrap_features_width : width 5 bootstrap_features.
Proof. repeat apply width_alter. apply bootstrap_uniforms_width. Qed.

Lemma bootstrap_features_length : length bootstrap_features = 1000.
Proof.
  unfold bootstrap_features. rewrite !length_map. apply draw_rows_length.
Qed.

Lemma bootstrap_noise_length : length bootstrap_noise = 1000.
Proof. apply draw_normal_length. Qed.

Lemma bootstrap_labels_length : length bootstrap_labels = 1000.
Proof.
  unfold bootstrap_labels.
  rewrite !length_zip_with, !length_map, bootstrap_features_length, bootstrap_noise_length.
  reflexivity.
Qed.

End TrainingSet.

(** ** Running a method step by step *)

Section Running.
Context {L : Library}.

Lemma run_bind {A B : Type} (c : M A) (k : A -> M B) (st st' : State) (a : A) :
  c st = (Ok a, st') -> bind c k st = k a st'.
Proof. intros Hc. unfold bind. rewrite Hc. reflexivity. Qed.

Lemma run_bind_raise {A B : Type} (c : M A) (k : A -> M B) (st st' : State) (e : exn) :
  c st = (Raise e, st') -> bind c k st = (Raise e, st').
Proof. intros Hc. unfold bind. rewrite Hc. reflexivity. Qed.

Lemma run_lift {A : Type} (r : result A) (a : A) (st : State) :
  r = Ok a -> lift r st = (Ok a, st).
Proof. intros ->. reflexivity. Qed.

End Running.

(** One step of a method: run its first call, continue with the rest. *)
Ltac step tac :=
  eapply eq_trans; [ eapply run_bind; tac | cbv beta iota ].

(** The same when the first call raises. *)
Ltac step_raise tac :=
  eapply eq_trans; [ eapply run_bind_raise; tac | cbv beta iota ].

(** ** Running [_train_dummy_model] *)

Section Training.
Context {L : Library}.
Local Open Scope py_scope.

Lemma np_random_rand_run (n m : nat) (self : AIWeatherPredictor) (w : World) :
  np_random_rand n m (self, w) =
    (Ok (fst (draw_rows n m (rng w))), (self, with_rng (snd (draw_rows n m (rng w))) w)).
Proof.
  unfold np_random_rand. cbn [fst snd].
  destruct (draw_rows n m (rng w)); reflexivity.
Qed.

Lemma np_random_normal_run (loc scale : float) (n : nat) (self : AIWeatherPredictor) (w : World) :
  np_random_normal loc scale n (self, w) =
    (Ok (fst (draw_normal loc scale n (rng w))),
     (self, with_rng (snd (draw_normal loc scale n (rng w))) w)).
Proof.
  unfold np_random_normal. cbn [fst snd].
  destruct (draw_normal loc scale n (rng w)); reflexivity.
Qed.

Lemma scaler_fit_transform_run (X Xs : matrix) (p : scaler_params)
    (self : AIWeatherPredictor) (w : World) (s0 : StandardScaler) :
  scaler self = PyStandardScaler s0 ->
  scaler_fit X = Ok p ->
  scaler_transform p (map (map PyFloat) X) = Ok Xs ->
  scaler_fit_transform X (self, w) =
    (Ok Xs,
     (mk_AIWeatherPredictor (model self) (PyStandardScaler (mk_StandardScaler (Some p)))
        (model_version self) (is_trained self), w)).
Proof.
  intros Hsc Hfit Htr.
  unfold scaler_fit_transform, bind, get_scaler, set_scaler, lift. cbn.
  rewrite Hsc, Hfit, Htr. reflexivity.
Qed.

Lemma model_fit_run (X : matrix) (y : list float) (f : forest)
    (self : AIWeatherPredictor) (w : World) (r : RandomForestRegressor) :
  model self = PyRandomForestRegressor r ->
  forest_fit (n_estimators r) (max_depth r) (random_state r) X y = Ok f ->
  model_fit X y (self, w) =
    (Ok tt,
     (mk_AIWeatherPredictor
        (PyRandomForestRegressor
           (mk_RandomForestRegressor (n_estimators r) (random_state r) (max_depth r) (Some f)))
        (scaler self) (model_version self) (is_trained self), w)).
Proof.
  intros Hm Hfit.
  unfold model_fit, bind, get_model, set_model, lift. cbn.
  rewrite Hm, Hfit. reflexivity.
Qed.

(** Drawing the training set cannot fail: [_train_dummy_model] always
    reaches the fit of the scaler, with the arrays described by
    [bootstrap_features] and [bootstrap_labels] and the global generator
    advanced past the draws, whatever it was before. *)
Lemma _train_dummy_model_draws (self : AIWeatherPredictor) (w : World) :
  _train_dummy_model (self, w) = fit_and_persist (self, with_rng bootstrap_rng w).
Proof.
  pose proof bootstrap_uniforms_width as W0.
  unfold _train_dummy_model. cbv zeta.
  step ltac:(reflexivity).
  step ltac:(apply np_random_rand_run).
  cbn [rng with_rng]. fold bootstrap_uniforms.
  step ltac:(apply run_lift, (update_col_ok 5); [ exact W0 | lia ]).
  apply (width_alter 5 0 (fun x => x * 40 - 10)%float) in W0.
  step ltac:(apply run_lift, (update_col_ok 5); [ exact W0 | lia ]).
  apply (width_alter 5 1 (fun x => x * 100)%float) in W0.
  step ltac:(apply run_lift, (update_col_ok 5); [ exact W0 | lia ]).
  apply (width_alter 5 2 (fun x => x * 100 + 950)%float) in W0.
  step ltac:(apply run_lift, (update_col_ok 5); [ exact W0 | lia ]).
  apply (width_alter 5 3 (fun x => x * 20)%float) in W0.
  step ltac:(apply run_lift, (update_col_ok 5); [ exact W0 | lia ]).
  fold bootstrap_features. clear W0.
  pose proof bootstrap_features_width as W.
  pose proof bootstrap_features_length as Hlen.
  pose proof bootstrap_noise_length as Hnoise.
  step ltac:(apply run_lift, (get_col_ok 5); [ exact W | lia ]).
  step ltac:(apply run_lift, (get_col_ok 5); [ exact W | lia ]).
  step ltac:(apply run_lift, vec_op_ok; rewrite !length_map; reflexivity).
  step ltac:(apply run_lift, (get_col_ok 5); [ exact W | lia ]).
  step ltac:(apply run_lift, vec_op_ok;
             rewrite length_zip_with, !length_map, Hlen; reflexivity).
  step ltac:(apply np_random_normal_run).
  cbn [rng with_rng]. fold bootstrap_noise. fold bootstrap_rng.
  step ltac:(apply run_lift, vec_op_ok;
             rewrite !length_zip_with, !length_map, Hlen, Hnoise; reflexivity).
  fold bootstrap_labels.
  reflexivity.
Qed.

(** When the scaler and the regressor accept the training set, training
    reaches its persistence step with both objects fitted on it and the
    flag set. *)
Lemma _train_dummy_model_fits (self : AIWeatherPredictor) (w : World)
    (r : RandomForestRegressor) (s0 : StandardScaler)
    (p : scaler_params) (Xs : matrix) (f : forest) :
  model self = PyRandomForestRegressor r ->
  scaler self = PyStandardScaler s0 ->
  scaler_fit bootstrap_features = Ok p ->
  scaler_transform p (map (map PyFloat) bootstrap_features) = Ok Xs ->
  forest_fit (n_estimators r) (max_depth r) (random_state r) Xs bootstrap_labels = Ok f ->
  _train_dummy_model (self, w) =
    persist (fitted_predictor r p f (model_version self), with_rng bootstrap_rng w).
Proof.
  intros Hm Hsc Hfit Htr Hforest.
  rewrite _train_dummy_model_draws. unfold fit_and_persist.
  step ltac:(eapply scaler_fit_transform_run; [ exact Hsc | exact Hfit | exact Htr ]).
  step ltac:(eapply model_fit_run; [ exact Hm | exact Hforest ]).
  step ltac:(reflexivity).
  reflexivity.
Qed.

End Training.

(** ** Start-up: [__init__] and [_initialize_model] *)

Section Initialization.
Context {L : Library}.
Local Open Scope py_scope.

Lemma new_AIWeatherPredictor_eq (w : World) :
  new_AIWeatherPredictor w = snd (_initialize_model (blank_predictor, w)).
Proof. reflexivity. Qed.

Lemma persist_ok (self : AIWeatherPredictor) (w : World) :
  writable w "model.joblib" = true ->
  writable w "scaler.joblib" = true ->
  persist (self, w) =
    (Ok tt,
     (self,
      with_log (log w ++ [("INFO", "Model trained with synthetic data")])
        (with_files
           (<["scaler.joblib" := Pickle (scaler self)]>
              (<["model.joblib" := Pickle (model self)]> (files w)))
           w))).
Proof.
  intros Hm Hs.
  unfold persist, bind, get_model, get_scaler, joblib_dump, logger_info. cbn.
  rewrite Hm. cbn. rewrite Hs. reflexivity.
Qed.

Lemma persist_refused (self : AIWeatherPredictor) (w : World) :
  writable w "model.joblib" = false ->
  persist (self, w) =
    (Raise (Exception "PermissionError" "Permission denied: model.joblib"), (self, w)).
Proof.
  intros Hm.
  unfold persist, bind, get_model, joblib_dump. cbn.
  rewrite Hm. reflexivity.
Qed.

(** Both artifacts are there and unpickle: the predictor is restored. *)
Lemma initialize_restores (w : World) (m s : pyobj) :
  files w !! "model.joblib" = Some (Pickle m) ->
  files w !! "scaler.joblib" = Some (Pickle s) ->
  new_AIWeatherPredictor w =
    (mk_AIWeatherPredictor m s "1.0.0" true,
     with_log (log w ++ [("INFO", "Loaded pre-trained model")]) w).
Proof.
  intros Hm Hs. rewrite new_AIWeatherPredictor_eq.
  unfold _initialize_model, try_except, bind, os_path_exists, joblib_load,
    set_model, set_scaler, set_is_trained, logger_info.
  cbn. rewrite Hm. cbn. rewrite Hm. cbn. rewrite Hs. reflexivity.
Qed.

(** The regressor artifact is there, and it or the scaler artifact does not
    load: the handler installs the untrained 50-tree regressor; nothing is
    trained and nothing is written. *)
Lemma initialize_degrades (w : World) (b : blob) :
  files w !! "model.joblib" = Some b ->
  b = Corrupt \/ files w !! "scaler.joblib" = None \/ files w !! "scaler.joblib" = Some Corrupt ->
  fst (new_AIWeatherPredictor w) =
    mk_AIWeatherPredictor (PyRandomForestRegressor fallback_regressor)
      (PyStandardScaler (mk_StandardScaler None)) "1.0.0" false /\
  files (snd (new_AIWeatherPredictor w)) = files w /\
  rng (snd (new_AIWeatherPredictor w)) = rng w.
Proof.
  intros Hm Hbad. rewrite new_AIWeatherPredictor_eq.
  unfold _initialize_model, try_except, bind, os_path_exists, joblib_load,
    set_model, set_scaler, set_is_trained, logger_info, logger_error.
  cbn. rewrite Hm. cbn. rewrite Hm.
  destruct b as [m | ]; cbn.
  - destruct Hbad as [Hb | [Hs | Hs]]; [ discriminate Hb | | ];
      rewrite Hs; cbn; repeat split.
  - repeat split.
Qed.

(** No regressor artifact, the libraries accept the training set, and both
    files can be written: the predictor is trained and persisted. *)
Lemma initialize_bootstraps (w : World) (p : scaler_params) (Xs : matrix) (f : forest) :
  files w !! "model.joblib" = None ->
  scaler_fit bootstrap_features = Ok p ->
  scaler_transform p (map (map PyFloat) bootstrap_features) = Ok Xs ->
  forest_fit 100 (Some 10%Z) 42 Xs bootstrap_labels = Ok f ->
  writable w "model.joblib" = true ->
  writable w "scaler.joblib" = true ->
  new_AIWeatherPredictor w =
    (fitted_predictor new_regressor p f "1.0.0",
     with_log (log w ++ [("INFO", "Model trained with synthetic data");
                         ("INFO", "Created new model with dummy data")])
       (with_files
          (<["scaler.joblib" := Pickle (scaler (fitted_predictor new_regressor p f "1.0.0"))]>
             (<["model.joblib" := Pickle (model (fitted_predictor new_regressor p f "1.0.0"))]>
                (files w)))
          (with_rng bootstrap_rng w))).
Proof.
  intros Hnone Hfit Htr Hforest Hwm Hws. rewrite new_AIWeatherPredictor_eq.
  unfold _initialize_model, try_except.
  match goal with
  | |- snd (let (_, _) := ?body ?st in _) = (?self', ?w') =>
      assert (Hrun : body st = (Ok tt, (self', w')))
  end.
  { step ltac:(unfold os_path_exists; cbn [snd]; rewrite Hnone; reflexivity).
    step ltac:(reflexivity).
    step ltac:(
      erewrite (_train_dummy_model_fits _ _ new_regressor (mk_StandardScaler None) p Xs f);
      [ apply persist_ok; [ exact Hwm | exact Hws ]
      | reflexivity | reflexivity | exact Hfit | exact Htr | exact Hforest ]).
    unfold logger_info. cbn. rewrite <- app_assoc. reflexivity. }
  rewrite Hrun. reflexivity.
Qed.

(** No regressor artifact, training succeeds, and the regressor file cannot
    be written: the flag is already set when [joblib.dump] raises, and the
    handler replaces the fitted regressor by the untrained 50-tree one. *)
Lemma initialize_write_refused (w : World) (p : scaler_params) (Xs : matrix) (f : forest) :
  files w !! "model.joblib" = None ->
  scaler_fit bootstrap_features = Ok p ->
  scaler_transform p (map (map PyFloat) bootstrap_features) = Ok Xs ->
  forest_fit 100 (Some 10%Z) 42 Xs bootstrap_labels = Ok f ->
  writable w "model.joblib" = false ->
  new_AIWeatherPredictor w =
    (mk_AIWeatherPredictor (PyRandomForestRegressor fallback_regressor)
       (PyStandardScaler (mk_StandardScaler (Some p))) "1.0.0" true,
     with_log (log w ++ [("ERROR", "Error initializing model: Permission denied: model.joblib")])
       (with_rng bootstrap_rng w)).
Proof.
  intros Hnone Hfit Htr Hforest Hwm. rewrite new_AIWeatherPredictor_eq.
  unfold _initialize_model, try_except.
  match goal with
  | |- snd (let (_, _) := ?body ?st in _) = _ =>
      assert (Hrun : body st =
                (Raise (Exception "PermissionError" "Permission denied: model.joblib"),
                 (fitted_predictor new_regressor p f "1.0.0", with_rng bootstrap_rng w)))
  end.
  { step ltac:(unfold os_path_exists; cbn [snd]; rewrite Hnone; reflexivity).
    step ltac:(reflexivity).
    step_raise ltac:(
      erewrite (_train_dummy_model_fits _ _ new_regressor (mk_StandardScaler None) p Xs f);
      [ apply persist_refused; exact Hwm
      | reflexivity | reflexivity | exact Hfit | exact Htr | exact Hforest ]).
    reflexivity. }
  rewrite Hrun. reflexivity.
Qed.

End Initialization.

(** ** The version string is assigned once *)

Section Version.
Context {L : Library}.
Local Open Scope py_scope.

Lemma keeps_version_bind {A B : Type} (c : M A) (k : A -> M B) :
  keeps_version c -> (forall a, keeps_version (k a)) -> keeps_version (bind c k).
Proof.
  intros Hc Hk st. unfold bind. specialize (Hc st).
  destruct (c st) as [[a | e] st1]; cbn in *.
  - rewrite (Hk a st1). exact Hc.
  - exact Hc.
Qed.

Lemma keeps_version_try_except {A : Type} (body : M A) (handler : exn -> M A) :
  keeps_version body -> (forall e, keeps_version (handler e)) ->
  keeps_version (try_except body handler).
Proof.
  intros Hb Hh st. unfold try_except. specialize (Hb st).
  destruct (body st) as [[a | e] st1]; cbn in *.
  - exact Hb.
  - rewrite (Hh e st1). exact Hb.
Qed.

Lemma keeps_version_lift {A : Type} (r : result A) : keeps_version (lift r).
Proof. intros st. reflexivity. Qed.

Lemma keeps_version_get_model : keeps_version get_model.
Proof. intros st. reflexivity. Qed.

Lemma keeps_version_get_scaler : keeps_version get_scaler.
Proof. intros st. reflexivity. Qed.

Lemma keeps_version_set_model (o : pyobj) : keeps_version (set_model o).
Proof. intros st. reflexivity. Qed.

Lemma keeps_version_set_scaler (o : pyobj) : keeps_version (set_scaler o).
Proof. intros st. reflexivity. Qed.

Lemma keeps_version_set_is_trained (b : bool) : keeps_version (set_is_trained b).
Proof. intros st. reflexivity. Qed.

Lemma keeps_version_logger_info (msg : string) : keeps_version (logger_info msg).
Proof. intros st. reflexivity. Qed.

Lemma keeps_version_logger_error (msg : string) : keeps_version (logger_error msg).
Proof. intros st. reflexivity. Qed.

Lemma keeps_version_os_path_exists (path : string) : keeps_version (os_path_exists path).
Proof. intros st. reflexivity. Qed.

Lemma keeps_version_joblib_load (path : string) : keeps_version (joblib_load path).
Proof.
  intros st. unfold joblib_load.
  destruct (files (snd st) !! path) as [[o | ] | ]; reflexivity.
Qed.

Lemma keeps_version_joblib_dump (o : pyobj) (path : string) :
  keeps_version (joblib_dump o path).
Proof.
  intros st. unfold joblib_dump. cbn.
  destruct (writable (snd st) path); reflexivity.
Qed.

Lemma keeps_version_np_random_seed_global (n : Z) : keeps_version (np_random_seed_global n).
Proof. intros st. reflexivity. Qed.

Lemma keeps_version_np_random_rand (n m : nat) : keeps_version (np_random_rand n m).
Proof. intros [self w]. rewrite np_random_rand_run. reflexivity. Qed.

Lemma keeps_version_np_random_normal (loc scale : float) (n : nat) :
  keeps_version (np_random_normal loc scale n).
Proof. intros [self w]. rewrite np_random_normal_run. reflexivity. Qed.

Create HintDb keeps_version discriminated.
#[local] Hint Resolve keeps_version_bind keeps_version_try_except keeps_version_lift
  keeps_version_get_model keeps_version_get_scaler keeps_version_set_model
  keeps_version_set_scaler keeps_version_set_is_trained keeps_version_logger_info
  keeps_version_logger_error keeps_version_os_path_exists keeps_version_joblib_load
  keeps_version_joblib_dump keeps_version_np_random_seed_global
  keeps_version_np_random_rand keeps_version_np_random_normal : keeps_version.

Lemma keeps_version_scaler_fit_transform (X : matrix) :
  keeps_version (scaler_fit_transform X).
Proof.
  unfold scaler_fit_transform. apply keeps_version_bind; [ auto with keeps_version | ].
  intros [ | s | m | o]; auto 8 with keeps_version.
Qed.

Lemma keeps_version_model_fit (X : matrix) (y : list float) :
  keeps_version (model_fit X y).
Proof.
  unfold model_fit. apply keeps_version_bind; [ auto with keeps_version | ].
  intros [ | s | m | o]; auto 8 with keeps_version.
Qed.

#[local] Hint Resolve keeps_version_scaler_fit_transform keeps_version_model_fit
  : keeps_version.

Lemma keeps_version_train : keeps_version _train_dummy_model.
Proof.
  unfold _train_dummy_model. cbv zeta. auto 60 with keeps_version.
Qed.

Lemma keeps_version_initialize : keeps_version _initialize_model.
Proof.
  unfold _initialize_model.
  apply keeps_version_try_except; [ | auto 6 with keeps_version ].
  apply keeps_version_bind; [ auto with keeps_version | ].
  pose proof keeps_version_train.
  intros [ | ]; auto 20 with keeps_version.
Qed.

(** Every predictor [AIWeatherPredictor()] constructs has version "1.0.0",
    whatever the environment it starts in. *)
Lemma new_AIWeatherPredictor_version (w : World) :
  model_version (fst (new_AIWeatherPredictor w)) = "1.0.0".
Proof.
  rewrite new_AIWeatherPredictor_eq.
  rewrite (keeps_version_initialize (blank_predictor, w)). reflexivity.
Qed.

End Version.

(** ** What start-up leaves behind *)

Section StartUp.
Context {L : Library}.

(** C3, as the code has it: start-up looks at the regressor artifact only.
    If it exists and both artifacts unpickle, the predictor is restored from
    them and marked trained; if it exists and it or the scaler artifact does
    not load, the predictor keeps its unfit scaler, gets the untrained
    50-tree regressor, stays untrained, and nothing is written; if it does
    not exist (whatever the scaler artifact), a 100-tree regressor of depth
    10 and seed 42 is built and trained on the bootstrap set and, when the
    libraries accept that set and both files can be written, the predictor
    is marked trained and both objects are persisted. *)
Theorem initialize_outcome (w : World) :
  match files w !! "model.joblib" with
  | Some (Pickle m) =>
      match files w !! "scaler.joblib" with
      | Some (Pickle s) =>
          fst (new_AIWeatherPredictor w) = mk_AIWeatherPredictor m s "1.0.0" true /\
          files (snd (new_AIWeatherPredictor w)) = files w
      | _ =>
          fst (new_AIWeatherPredictor w) =
            mk_AIWeatherPredictor
              (PyRandomForestRegressor (mk_RandomForestRegressor 50 42 None None))
              (PyStandardScaler (mk_StandardScaler None)) "1.0.0" false /\
          files (snd (new_AIWeatherPredictor w)) = files w
      end
  | Some Corrupt =>
      fst (new_AIWeatherPredictor w) =
        mk_AIWeatherPredictor
          (PyRandomForestRegressor (mk_RandomForestRegressor 50 42 None None))
          (PyStandardScaler (mk_StandardScaler None)) "1.0.0" false /\
      files (snd (new_AIWeatherPredictor w)) = files w
  | None =>
      forall (p : scaler_params) (Xs : matrix) (f : forest),
        scaler_fit bootstrap_features = Ok p ->
        scaler_transform p (map (map PyFloat) bootstrap_features) = Ok Xs ->
        forest_fit 100 (Some 10%Z) 42 Xs bootstrap_labels = Ok f ->
        writable w "model.joblib" = true ->
        writable w "scaler.joblib" = true ->
        fst (new_AIWeatherPredictor w) =
          mk_AIWeatherPredictor
            (PyRandomForestRegressor (mk_RandomForestRegressor 100 42 (Some 10%Z) (Some f)))
            (PyStandardScaler (mk_StandardScaler (Some p))) "1.0.0" true /\
        files (snd (new_AIWeatherPredictor w)) =
          <["scaler.joblib" := Pickle (PyStandardScaler (mk_StandardScaler (Some p)))]>
            (<["model.joblib" :=
                 Pickle (PyRandomForestRegressor
                           (mk_RandomForestRegressor 100 42 (Some 10%Z) (Some f)))]>
               (files w))
  end.
Proof.
  destruct (files w !! "model.joblib") as [[m | ] | ] eqn:Hm.
  - destruct (files w !! "scaler.joblib") as [[s | ] | ] eqn:Hs.
    + rewrite (initialize_restores w m s Hm Hs). split; reflexivity.
    + destruct (initialize_degrades w _ Hm) as (Hself & Hfiles & _); [ auto | ].
      split; assumption.
    + destruct (initialize_degrades w _ Hm) as (Hself & Hfiles & _); [ auto | ].
      split; assumption.
  - destruct (initialize_degrades w _ Hm) as (Hself & Hfiles & _); [ auto | ].
    split; assumption.
  - intros p Xs f Hfit Htr Hforest Hwm Hws.
    rewrite (initialize_bootstraps w p Xs f Hm Hfit Htr Hforest Hwm Hws).
    split; reflexivity.
Qed.

Local Abbreviation features_of i h :=
  [[ PyFloat (WeatherInput.current_temp i);
     PyInt (WeatherInput.humidity i);
     PyFloat (WeatherInput.pressure i);
     PyFloat (WeatherInput.wind_speed i);
     PyInt h ]].

(** C4, where the code departs from it: when training succeeds and the
    regressor file cannot be written, [joblib.dump] raises after
    [is_trained] was set; the handler installs the untrained 50-tree
    regressor and leaves the flag set, so the predictor reports itself
    trained and every prediction fails with "Prediction failed" (HTTP 500)
    instead of "Model not trained" (HTTP 503). *)
Theorem refused_write_leaves_flag_set (w : World)
    (p : scaler_params) (Xs : matrix) (f : forest) :
  files w !! "model.joblib" = None ->
  scaler_fit bootstrap_features = Ok p ->
  scaler_transform p (map (map PyFloat) bootstrap_features) = Ok Xs ->
  forest_fit 100 (Some 10%Z) 42 Xs bootstrap_labels = Ok f ->
  writable w "model.joblib" = false ->
  is_trained (fst (new_AIWeatherPredictor w)) = true /\
  model (fst (new_AIWeatherPredictor w)) =
    PyRandomForestRegressor (mk_RandomForestRegressor 50 42 None None) /\
  forall (weather_input : WeatherInput.t) (w' : World),
    fst (predict_weather weather_input (fst (new_AIWeatherPredictor w), w')) =
      Raise (HTTPException 500 "Prediction failed").
Proof.
  intros Hnone Hfit Htr Hforest Hwm.
  rewrite (initialize_write_refused w p Xs f Hnone Hfit Htr Hforest Hwm).
  cbn [fst]. repeat split.
  intros weather_input w'.
  rewrite predict_weather_trained_eq by reflexivity.
  cbn [scaler model call_transform call_predict fitted estimators_ fallback_regressor].
  unfold result_bind.
  match goal with
  | |- context [scaler_transform p ?x] => destruct (scaler_transform p x) as [xs | e]
  end; reflexivity.
Qed.


End StartUp.

(** ** Bootstrap: the training set, reproducibility, reloading *)

Section Bootstrap.
Context {L : Library}.
Local Open Scope py_scope.

(** A start without a regressor artifact, in full: the predictor it ends
    with is a function of what the libraries answer on the training set and
    of the right to write the two files, and of nothing else. *)
Lemma initialize_fresh_outcome (w : World) :
  files w !! "model.joblib" = None ->
  fst (new_AIWeatherPredictor w) =
    bootstrap_outcome (writable w "model.joblib") (writable w "scaler.joblib").
Proof.
  intros Hnone. rewrite new_AIWeatherPredictor_eq.
  unfold _initialize_model, try_except.
  match goal with
  | |- fst (snd (let (_, _) := ?body ?st in _)) = _ =>
      assert (Hrun : body st =
                bind fit_and_persist
                  (fun _ => logger_info "Created new model with dummy data")
                  (mk_AIWeatherPredictor (PyRandomForestRegressor new_regressor)
                     (PyStandardScaler (mk_StandardScaler None)) "1.0.0" false,
                   with_rng bootstrap_rng w))
  end.
  { step ltac:(unfold os_path_exists; cbn [snd]; rewrite Hnone; reflexivity).
    step ltac:(reflexivity).
    unfold bind at 1. rewrite _train_dummy_model_draws. reflexivity. }
  rewrite Hrun. clear Hrun.
  unfold bootstrap_outcome, fit_and_persist, persist, scaler_fit_transform, model_fit,
    bind, lift, get_scaler, get_model, set_scaler, set_model, set_is_trained,
    joblib_dump, logger_info, logger_error, fitted_predictor, result_bind.
  generalize bootstrap_features, bootstrap_labels, bootstrap_rng. intros X y g.
  cbn.
  destruct (scaler_fit X) as [p | e]; cbn; [ | reflexivity ].
  destruct (scaler_transform p (map (map PyFloat) X)) as [Xs | e]; cbn; [ | reflexivity ].
  destruct (forest_fit 100 (Some 10%Z) 42 Xs y) as [f | e]; cbn; [ | reflexivity ].
  destruct (writable w "model.joblib"); cbn; [ | reflexivity ].
  destruct (writable w "scaler.joblib"); cbn; reflexivity.
Qed.

Lemma lookup_map {A B : Type} (f : A -> B) (l : list A) (i : nat) :
  map f l !! i = f <$> (l !! i).
Proof. apply list_lookup_fmap. Qed.

Lemma lookup_remapped (i : nat) (u0 u1 u2 u3 u4 : float) :
  bootstrap_uniforms !! i = Some [u0; u1; u2; u3; u4] ->
  bootstrap_features !! i =
    Some [ (u0 * 40 - 10)%float; (u1 * 100)%float; (u2 * 100 + 950)%float;
           (u3 * 20)%float; (u4 * 24)%float ].
Proof.
  intros Hrow. unfold bootstrap_features. unfold matrix in *.
  rewrite !lookup_map, Hrow. reflexivity.
Qed.

Lemma lookup_label (i : nat) (x0 x1 x2 x3 x4 e : float) :
  bootstrap_features !! i = Some [x0; x1; x2; x3; x4] ->
  bootstrap_noise !! i = Some e ->
  bootstrap_labels !! i = Some (x0 + 0.1 * x1 - 0.05 * x2 + e)%float.
Proof.
  intros Hrow Hnoise. unfold bootstrap_labels. unfold matrix in *.
  rewrite !lookup_zip_with, !lookup_map, Hrow, Hnoise. reflexivity.
Qed.

(** X1: the bootstrap training set.  Whatever the predictor and the
    environment, [_train_dummy_model] reseeds the global generator with 42
    and hands the scaler the 1000-by-5 matrix [bootstrap_features], then the
    regressor the scaled matrix with the 1000 labels [bootstrap_labels]; row
    i of the matrix is the i-th row of uniform draws remapped to
    [u0*40-10, u1*100, u2*100+950, u3*20, u4*24], and label i is
    temperature + 0.1 * humidity - 0.05 * pressure of row i plus the i-th
    draw of normal(0, 2). *)
Theorem bootstrap_training_set :
  (forall (self : AIWeatherPredictor) (w : World),
      _train_dummy_model (self, w) =
        (X_scaled <- scaler_fit_transform bootstrap_features ;;
         model_fit X_scaled bootstrap_labels ;;
         set_is_trained true ;;
         persist) (self, with_rng bootstrap_rng w)) /\
  length bootstrap_features = 1000 /\
  width 5 bootstrap_features /\
  length bootstrap_labels = 1000 /\
  (forall (i : nat) (u0 u1 u2 u3 u4 : float),
      bootstrap_uniforms !! i = Some [u0; u1; u2; u3; u4] ->
      bootstrap_features !! i =
        Some [ (u0 * 40 - 10)%float; (u1 * 100)%float; (u2 * 100 + 950)%float;
               (u3 * 20)%float; (u4 * 24)%float ]) /\
  (forall (i : nat) (x0 x1 x2 x3 x4 e : float),
      bootstrap_features !! i = Some [x0; x1; x2; x3; x4] ->
      bootstrap_noise !! i = Some e ->
      bootstrap_labels !! i = Some (x0 + 0.1 * x1 - 0.05 * x2 + e)%float).
Proof.
  split; [ exact _train_dummy_model_draws | ].
  split; [ exact bootstrap_features_length | ].
  split; [ exact bootstrap_features_width | ].
  split; [ exact bootstrap_labels_length | ].
  split; [ exact lookup_remapped | exact lookup_label ].
Qed.

(** X2: bootstrap training is reproducible.  Two starts without a regressor
    artifact, in environments that grant the same right to write the two
    artifacts, end with the same predictor, whatever the state of the global
    generator, the clock, the log or the other files were; hence with the
    same outcome for any observation in any one environment. *)
Theorem bootstrap_reproducible (w1 w2 : World) :
  files w1 !! "model.joblib" = None ->
  files w2 !! "model.joblib" = None ->
  writable w1 "model.joblib" = writable w2 "model.joblib" ->
  writable w1 "scaler.joblib" = writable w2 "scaler.joblib" ->
  fst (new_AIWeatherPredictor w1) = fst (new_AIWeatherPredictor w2) /\
  forall (weather_input : WeatherInput.t) (w : World),
    predict_weather weather_input (fst (new_AIWeatherPredictor w1), w) =
    predict_weather weather_input (fst (new_AIWeatherPredictor w2), w).
Proof.
  intros H1 H2 Hm Hs.
  assert (Hsame : fst (new_AIWeatherPredictor w1) = fst (new_AIWeatherPredictor w2)).
  { rewrite (initialize_fresh_outcome w1 H1), (initialize_fresh_outcome w2 H2), Hm, Hs.
    reflexivity. }
  split; [ exact Hsame | ].
  intros weather_input w. rewrite Hsame. reflexivity.
Qed.

(** X3: persisting then reloading.  After a start that trained and persisted
    the predictor, a start in any environment that holds the files it left
    restores the same predictor, hence gives the same outcome for any
    observation in any one environment. *)
Theorem persist_reload_round_trip (w w2 : World)
    (p : scaler_params) (Xs : matrix) (f : forest) :
  files w !! "model.joblib" = None ->
  scaler_fit bootstrap_features = Ok p ->
  scaler_transform p (map (map PyFloat) bootstrap_features) = Ok Xs ->
  forest_fit 100 (Some 10%Z) 42 Xs bootstrap_labels = Ok f ->
  writable w "model.joblib" = true ->
  writable w "scaler.joblib" = true ->
  files w2 = files (snd (new_AIWeatherPredictor w)) ->
  fst (new_AIWeatherPredictor w2) = fst (new_AIWeatherPredictor w) /\
  forall (weather_input : WeatherInput.t) (w' : World),
    predict_weather weather_input (fst (new_AIWeatherPredictor w2), w') =
    predict_weather weather_input (fst (new_AIWeatherPredictor w), w').
Proof.
  intros Hnone Hfit Htr Hforest Hwm Hws Hfiles.
  assert (Hsame : fst (new_AIWeatherPredictor w2) = fst (new_AIWeatherPredictor w)).
  { rewrite (initialize_bootstraps w p Xs f Hnone Hfit Htr Hforest Hwm Hws) in Hfiles |- *.
    cbn [fst snd files with_log with_files] in Hfiles |- *.
    rewrite (initialize_restores w2
               (model (fitted_predictor new_regressor p f "1.0.0"))
               (scaler (fitted_predictor new_regressor p f "1.0.0"))).
    - reflexivity.
    - rewrite Hfiles. rewrite lookup_insert_ne by discriminate.
      apply lookup_insert_eq.
    - rewrite Hfiles. apply lookup_insert_eq. }
  split; [ exact Hsame | ].
  intros weather_input w'. rewrite Hsame. reflexivity.
Qed.

(** Each row of features is the remap of a row of five draws. *)
Lemma features_row (i : nat) (row : list float) :
  bootstrap_features !! i = Some row ->
  exists u0 u1 u2 u3 u4 : float,
    bootstrap_uniforms !! i = Some [u0; u1; u2; u3; u4] /\
    row = [ (u0 * 40 - 10)%float; (u1 * 100)%float; (u2 * 100 + 950)%float;
            (u3 * 20)%float; (u4 * 24)%float ].
Proof.
  intros Hrow.
  destruct (bootstrap_uniforms !! i) as [urow | ] eqn:Hu.
  - pose proof bootstrap_uniforms_width as W. unfold width in W.
    rewrite Forall_lookup in W. specialize (W i urow Hu).
    destruct urow as [ | u0 [ | u1 [ | u2 [ | u3 [ | u4 [ | u5 rest]]]]]]; try discriminate W.
    exists u0, u1, u2, u3, u4. split; [ reflexivity | ].
    rewrite (lookup_remapped i u0 u1 u2 u3 u4 Hu) in Hrow.
    injection Hrow as <-. reflexivity.
  - exfalso. unfold bootstrap_features in Hrow. unfold matrix in *.
    rewrite !lookup_map, Hu in Hrow. discriminate Hrow.
Qed.

(** With draws in [0, 1), every row of features is within the ranges. *)
Lemma features_in_range :
  bootstrap_draws_in_unit_interval -> Forall row_in_range bootstrap_features.
Proof.
  intros Hdraws. apply Forall_lookup. intros i row Hrow.
  destruct (features_row i row Hrow) as (u0 & u1 & u2 & u3 & u4 & Hu & ->).
  unfold bootstrap_draws_in_unit_interval in Hdraws.
  rewrite forallb_forall in Hdraws.
  assert (Hin : forallb in_unit_interval [u0; u1; u2; u3; u4] = true).
  { apply Hdraws. apply list_elem_of_In. eapply list_elem_of_lookup_2. exact Hu. }
  cbn [forallb] in Hin. unfold in_unit_interval in Hin.
  repeat (apply andb_true_iff in Hin; destruct Hin as [? Hin]).
  repeat match goal with
         | H : _ && _ = true |- _ => apply andb_true_iff in H; destruct H
         end.
  unfold row_in_range.
  split; [ apply (remap_ranges u0); assumption | ].
  split; [ apply (remap_ranges u1); assumption | ].
  split; [ apply (remap_ranges u2); assumption | ].
  split; [ apply (remap_ranges u3); assumption | ].
  apply (remap_ranges u4); assumption.
Qed.


End Bootstrap.

(** ** What start-up and requests leave untouched *)

Section FrameProperties.
Context {L : Library}.
Local Open Scope py_scope.

Lemma start_up_frame_refl (w : World) : start_up_frame w w.
Proof.
  unfold start_up_frame. repeat split; try reflexivity.
  - intros path Hsome. exact Hsome.
  - exists []. rewrite app_nil_r. reflexivity.
Qed.

Lemma start_up_frame_trans (w1 w2 w3 : World) :
  start_up_frame w1 w2 -> start_up_frame w2 w3 -> start_up_frame w1 w3.
Proof.
  intros (Hw & Hc & Ht & Hp & Hother & Hkept & (a1 & Hlog))
         (Hw' & Hc' & Ht' & Hp' & Hother' & Hkept' & (a2 & Hlog')).
  unfold start_up_frame.
  split; [ congruence | ]. split; [ congruence | ]. split; [ congruence | ].
  split; [ congruence | ]. split; [ | split ].
  - intros path Hm Hs. rewrite (Hother' path Hm Hs). apply Hother; assumption.
  - intros path Hsome. apply Hkept', Hkept, Hsome.
  - exists (a1 ++ a2)%list. rewrite Hlog', Hlog, app_assoc. reflexivity.
Qed.

Lemma within_frame_bind {A B : Type} (c : M A) (k : A -> M B) :
  within_frame c -> (forall a, within_frame (k a)) -> within_frame (bind c k).
Proof.
  intros Hc Hk st. unfold bind. specialize (Hc st).
  destruct (c st) as [[a | e] st1]; cbn in *.
  - eapply start_up_frame_trans; [ exact Hc | apply Hk ].
  - exact Hc.
Qed.

Lemma within_frame_try_except {A : Type} (body : M A) (handler : exn -> M A) :
  within_frame body -> (forall e, within_frame (handler e)) ->
  within_frame (try_except body handler).
Proof.
  intros Hb Hh st. unfold try_except. specialize (Hb st).
  destruct (body st) as [[a | e] st1]; cbn in *.
  - exact Hb.
  - eapply start_up_frame_trans; [ exact Hb | apply Hh ].
Qed.

Lemma within_frame_lift {A : Type} (r : result A) : within_frame (lift r).
Proof. intros st. apply start_up_frame_refl. Qed.

Lemma within_frame_get_model : within_frame get_model.
Proof. intros st. apply start_up_frame_refl. Qed.

Lemma within_frame_get_scaler : within_frame get_scaler.
Proof. intros st. apply start_up_frame_refl. Qed.

Lemma within_frame_set_model (o : pyobj) : within_frame (set_model o).
Proof. intros st. apply start_up_frame_refl. Qed.

Lemma within_frame_set_scaler (o : pyobj) : within_frame (set_scaler o).
Proof. intros st. apply start_up_frame_refl. Qed.

Lemma within_frame_set_model_version (v : string) : within_frame (set_model_version v).
Proof. intros st. apply start_up_frame_refl. Qed.

Lemma within_frame_set_is_trained (b : bool) : within_frame (set_is_trained b).
Proof. intros st. apply start_up_frame_refl. Qed.

Lemma within_frame_os_path_exists (path : string) : within_frame (os_path_exists path).
Proof. intros st. apply start_up_frame_refl. Qed.

Lemma within_frame_joblib_load (path : string) : within_frame (joblib_load path).
Proof.
  intros st. unfold joblib_load.
  destruct (files (snd st) !! path) as [[o | ] | ]; apply start_up_frame_refl.
Qed.

Lemma within_frame_logger_info (msg : string) : within_frame (logger_info msg).
Proof.
  intros st. unfold logger_info, start_up_frame. cbn.
  repeat split; try reflexivity; [ intros path Hsome; exact Hsome | eexists; reflexivity ].
Qed.

Lemma within_frame_logger_error (msg : string) : within_frame (logger_error msg).
Proof.
  intros st. unfold logger_error, start_up_frame. cbn.
  repeat split; try reflexivity; [ intros path Hsome; exact Hsome | eexists; reflexivity ].
Qed.

Lemma with_rng_frame (g : rng_state) (w : World) : start_up_frame w (with_rng g w).
Proof.
  unfold start_up_frame. cbn.
  repeat split; try reflexivity; [ intros path Hsome; exact Hsome | ].
  exists []. rewrite app_nil_r. reflexivity.
Qed.

Lemma within_frame_np_random_seed_global (n : Z) : within_frame (np_random_seed_global n).
Proof. intros st. apply with_rng_frame. Qed.

Lemma within_frame_np_random_rand (n m : nat) : within_frame (np_random_rand n m).
Proof. intros [self w]. rewrite np_random_rand_run. apply with_rng_frame. Qed.

Lemma within_frame_np_random_normal (loc scale : float) (n : nat) :
  within_frame (np_random_normal loc scale n).
Proof. intros [self w]. rewrite np_random_normal_run. apply with_rng_frame. Qed.

(** Writing one of the two artifacts stays within the frame. *)
Lemma joblib_dump_frame (o : pyobj) (path : string) :
  path = "model.joblib" \/ path = "scaler.joblib" ->
  within_frame (joblib_dump o path).
Proof.
  intros Hpath st. unfold joblib_dump. cbn.
  destruct (writable (snd st) path); [ | apply start_up_frame_refl ].
  unfold start_up_frame. cbn.
  split; [ reflexivity | ]. split; [ reflexivity | ]. split; [ reflexivity | ].
  split; [ reflexivity | ]. split; [ | split ].
  - intros other Hm Hs. apply lookup_insert_ne.
    destruct Hpath as [-> | ->]; congruence.
  - intros other Hsome.
    destruct (decide (path = other)) as [<- | Hne].
    + rewrite lookup_insert_eq. eexists. reflexivity.
    + rewrite lookup_insert_ne by exact Hne. exact Hsome.
  - exists []. rewrite app_nil_r. reflexivity.
Qed.

Lemma within_frame_dump_model (o : pyobj) : within_frame (joblib_dump o "model.joblib").
Proof. apply joblib_dump_frame. left. reflexivity. Qed.

Lemma within_frame_dump_scaler (o : pyobj) : within_frame (joblib_dump o "scaler.joblib").
Proof. apply joblib_dump_frame. right. reflexivity. Qed.

Create HintDb within_frame discriminated.
#[local] Hint Resolve within_frame_bind within_frame_try_except within_frame_lift
  within_frame_get_model within_frame_get_scaler within_frame_set_model
  within_frame_set_scaler within_frame_set_model_version within_frame_set_is_trained
  within_frame_os_path_exists within_frame_joblib_load within_frame_logger_info
  within_frame_logger_error within_frame_np_random_seed_global
  within_frame_np_random_rand within_frame_np_random_normal
  within_frame_dump_model within_frame_dump_scaler : within_frame.

Lemma within_frame_scaler_fit_transform (X : matrix) :
  within_frame (scaler_fit_transform X).
Proof.
  unfold scaler_fit_transform. apply within_frame_bind; [ auto with within_frame | ].
  intros [ | s | m | o]; auto 8 with within_frame.
Qed.

Lemma within_frame_model_fit (X : matrix) (y : list float) :
  within_frame (model_fit X y).
Proof.
  unfold model_fit. apply within_frame_bind; [ auto with within_frame | ].
  intros [ | s | m | o]; auto 8 with within_frame.
Qed.

#[local] Hint Resolve within_frame_scaler_fit_transform within_frame_model_fit
  : within_frame.

Lemma within_frame_train : within_frame _train_dummy_model.
Proof.
  unfold _train_dummy_model. cbv zeta. auto 60 with within_frame.
Qed.

Lemma within_frame_initialize : within_frame _initialize_model.
Proof.
  unfold _initialize_model.
  apply within_frame_try_except; [ | auto 6 with within_frame ].
  apply within_frame_bind; [ auto with within_frame | ].
  pose proof within_frame_train.
  intros [ | ]; auto 20 with within_frame.
Qed.

(** X6: whatever the environment and whatever the libraries answer,
    constructing the predictor leaves every file other than model.joblib and
    scaler.joblib as it was, removes no file, keeps the rights to write, the
    clock and the latency histogram untouched, and only appends to the log. *)
Theorem start_up_touches_only_its_artifacts (w : World) :
  (forall path : string,
      path <> "model.joblib" -> path <> "scaler.joblib" ->
      files (snd (new_AIWeatherPredictor w)) !! path = files w !! path) /\
  (forall path : string,
      is_Some (files w !! path) -> is_Some (files (snd (new_AIWeatherPredictor w)) !! path)) /\
  writable (snd (new_AIWeatherPredictor w)) = writable w /\
  clock (snd (new_AIWeatherPredictor w)) = clock w /\
  ticks (snd (new_AIWeatherPredictor w)) = ticks w /\
  prediction_time_count (snd (new_AIWeatherPredictor w)) = prediction_time_count w /\
  exists added : list (string * string),
    log (snd (new_AIWeatherPredictor w)) = (log w ++ added)%list.
Proof.
  rewrite new_AIWeatherPredictor_eq.
  destruct (within_frame_initialize (blank_predictor, w))
    as (Hw & Hc & Ht & Hp & Hother & Hkept & Hlog).
  cbn [snd] in *.
  split; [ exact Hother | ]. split; [ exact Hkept | ]. split; [ exact Hw | ].
  split; [ exact Hc | ]. split; [ exact Ht | ]. split; [ exact Hp | exact Hlog ].
Qed.

(** X7: constructing the predictor never raises, does not depend on what the
    object held before, and ends in one of four states: restored from the
    two artifacts; bootstrapped (fitted 100-tree regressor and fitted scaler,
    trained); degraded and untrained (unfitted 50-tree regressor); or
    degraded with the trained flag set (unfitted 50-tree regressor beside a
    fitted scaler), which happens only without a regressor artifact. *)
Theorem start_up_outcomes (self0 : AIWeatherPredictor) (w : World) :
  fst (__init__ (self0, w)) = Ok tt /\
  snd (__init__ (self0, w)) = new_AIWeatherPredictor w /\
  ((exists m s : pyobj,
       files w !! "model.joblib" = Some (Pickle m) /\
       files w !! "scaler.joblib" = Some (Pickle s) /\
       fst (new_AIWeatherPredictor w) = mk_AIWeatherPredictor m s "1.0.0" true) \/
   (exists (p : scaler_params) (f : forest),
       files w !! "model.joblib" = None /\
       fst (new_AIWeatherPredictor w) =
         mk_AIWeatherPredictor
           (PyRandomForestRegressor (mk_RandomForestRegressor 100 42 (Some 10%Z) (Some f)))
           (PyStandardScaler (mk_StandardScaler (Some p))) "1.0.0" true) \/
   (exists fitted_or_not : option scaler_params,
       fst (new_AIWeatherPredictor w) =
         mk_AIWeatherPredictor
           (PyRandomForestRegressor (mk_RandomForestRegressor 50 42 None None))
           (PyStandardScaler (mk_StandardScaler fitted_or_not)) "1.0.0" false) \/
   (exists p : scaler_params,
       files w !! "model.joblib" = None /\
       fst (new_AIWeatherPredictor w) =
         mk_AIWeatherPredictor
           (PyRandomForestRegressor (mk_RandomForestRegressor 50 42 None None))
           (PyStandardScaler (mk_StandardScaler (Some p))) "1.0.0" true)).
Proof.
  split; [ | split ].
  - unfold __init__, bind, set_model, set_scaler, set_model_version, set_is_trained.
    cbn. unfold _initialize_model, try_except.
    match goal with
    | |- fst (let (_, _) := ?body ?st in _) = _ => destruct (body st) as [[[] | e] st1]
    end; reflexivity.
  - reflexivity.
  - destruct (files w !! "model.joblib") as [[m | ] | ] eqn:Hm.
    + destruct (files w !! "scaler.joblib") as [[s | ] | ] eqn:Hs.
      * left. exists m, s. rewrite (initialize_restores w m s Hm Hs). auto.
      * right. right. left. exists None.
        destruct (initialize_degrades w _ Hm) as (Hself & _); [ auto | exact Hself ].
      * right. right. left. exists None.
        destruct (initialize_degrades w _ Hm) as (Hself & _); [ auto | exact Hself ].
    + right. right. left. exists None.
      destruct (initialize_degrades w _ Hm) as (Hself & _); [ auto | exact Hself ].
    + rewrite (initialize_fresh_outcome w Hm). unfold bootstrap_outcome, fitted_predictor.
      destruct (scaler_fit bootstrap_features) as [p | e].
      * destruct (result_bind _ _) as [f | e].
        -- destruct (writable w "model.joblib" && writable w "scaler.joblib").
           ++ right. left. exists p, f. auto.
           ++ right. right. right. exists p. auto.
        -- right. right. left. exists (Some p). reflexivity.
      * right. right. left. exists None. reflexivity.
Qed.

End FrameProperties.

(** ** Artifacts that load are not checked, and half-written ones stay *)

Section Artifacts.
Context {L : Library}.
Local Open Scope py_scope.

Lemma persist_scaler_refused (self : AIWeatherPredictor) (w : World) :
  writable w "model.joblib" = true ->
  writable w "scaler.joblib" = false ->
  persist (self, w) =
    (Raise (Exception "PermissionError" "Permission denied: scaler.joblib"),
     (self, with_files (<["model.joblib" := Pickle (model self)]> (files w)) w)).
Proof.
  intros Hm Hs.
  unfold persist, bind, get_model, get_scaler, joblib_dump. cbn.
  rewrite Hm. cbn. rewrite Hs. reflexivity.
Qed.

(** No regressor artifact, training succeeds, the regressor file is written
    and the scaler file is refused. *)
Lemma initialize_scaler_write_refused (w : World) (p : scaler_params) (Xs : matrix)
    (f : forest) :
  files w !! "model.joblib" = None ->
  scaler_fit bootstrap_features = Ok p ->
  scaler_transform p (map (map PyFloat) bootstrap_features) = Ok Xs ->
  forest_fit 100 (Some 10%Z) 42 Xs bootstrap_labels = Ok f ->
  writable w "model.joblib" = true ->
  writable w "scaler.joblib" = false ->
  new_AIWeatherPredictor w =
    (mk_AIWeatherPredictor (PyRandomForestRegressor fallback_regressor)
       (PyStandardScaler (mk_StandardScaler (Some p))) "1.0.0" true,
     with_log (log w ++ [("ERROR", "Error initializing model: Permission denied: scaler.joblib")])
       (with_files
          (<["model.joblib" := Pickle (model (fitted_predictor new_regressor p f "1.0.0"))]>
             (files w))
          (with_rng bootstrap_rng w))).
Proof.
  intros Hnone Hfit Htr Hforest Hwm Hws. rewrite new_AIWeatherPredictor_eq.
  unfold _initialize_model, try_except.
  match goal with
  | |- snd (let (_, _) := ?body ?st in _) = _ =>
      assert (Hrun : body st =
                (Raise (Exception "PermissionError" "Permission denied: scaler.joblib"),
                 (fitted_predictor new_regressor p f "1.0.0",
                  with_files
                    (<["model.joblib" := Pickle (model (fitted_predictor new_regressor p f "1.0.0"))]>
                       (files w))
                    (with_rng bootstrap_rng w))))
  end.
  { step ltac:(unfold os_path_exists; cbn [snd]; rewrite Hnone; reflexivity).
    step ltac:(reflexivity).
    step_raise ltac:(
      erewrite (_train_dummy_model_fits _ _ new_regressor (mk_StandardScaler None) p Xs f);
      [ apply persist_scaler_refused; [ exact Hwm | exact Hws ]
      | reflexivity | reflexivity | exact Hfit | exact Htr | exact Hforest ]).
    reflexivity. }
  rewrite Hrun. reflexivity.
Qed.

(** X8: a start without a regressor artifact whose training succeeds, where
    model.joblib can be written and scaler.joblib cannot, leaves the new
    regressor file behind alone and a predictor flagged trained around the
    unfitted 50-tree regressor.  Any later start on the files it left never
    retrains and writes nothing: it pairs the new regressor with the scaler
    file that was there before, if one unpickles, and otherwise stays
    untrained. *)
Theorem scaler_write_refused_then_restart (w w2 : World) (p : scaler_params)
    (Xs : matrix) (f : forest) :
  files w !! "model.joblib" = None ->
  scaler_fit bootstrap_features = Ok p ->
  scaler_transform p (map (map PyFloat) bootstrap_features) = Ok Xs ->
  forest_fit 100 (Some 10%Z) 42 Xs bootstrap_labels = Ok f ->
  writable w "model.joblib" = true ->
  writable w "scaler.joblib" = false ->
  files w2 = files (snd (new_AIWeatherPredictor w)) ->
  files (snd (new_AIWeatherPredictor w)) =
    <["model.joblib" :=
        Pickle (PyRandomForestRegressor
                  (mk_RandomForestRegressor 100 42 (Some 10%Z) (Some f)))]> (files w) /\
  fst (new_AIWeatherPredictor w) =
    mk_AIWeatherPredictor (PyRandomForestRegressor (mk_RandomForestRegressor 50 42 None None))
      (PyStandardScaler (mk_StandardScaler (Some p))) "1.0.0" true /\
  fst (new_AIWeatherPredictor w2) =
    match files w !! "scaler.joblib" with
    | Some (Pickle s) =>
        mk_AIWeatherPredictor
          (PyRandomForestRegressor (mk_RandomForestRegressor 100 42 (Some 10%Z) (Some f)))
          s "1.0.0" true
    | _ =>
        mk_AIWeatherPredictor
          (PyRandomForestRegressor (mk_RandomForestRegressor 50 42 None None))
          (PyStandardScaler (mk_StandardScaler None)) "1.0.0" false
    end /\
  files (snd (new_AIWeatherPredictor w2)) = files w2.
Proof.
  intros Hnone Hfit Htr Hforest Hwm Hws Hleft.
  rewrite (initialize_scaler_write_refused w p Xs f Hnone Hfit Htr Hforest Hwm Hws) in Hleft |- *.
  cbn in Hleft |- *.
  split; [ reflexivity | ]. split; [ reflexivity | ].
  assert (Hm2 : files w2 !! "model.joblib" =
                Some (Pickle (PyRandomForestRegressor
                                (mk_RandomForestRegressor 100 42 (Some 10%Z) (Some f))))).
  { rewrite Hleft. apply lookup_insert_eq. }
  assert (Hs2 : files w2 !! "scaler.joblib" = files w !! "scaler.joblib").
  { rewrite Hleft. apply lookup_insert_ne. discriminate. }
  destruct (files w !! "scaler.joblib") as [[s | ] | ] eqn:Hs.
  - rewrite (initialize_restores w2 _ s Hm2 Hs2). split; reflexivity.
  - destruct (initialize_degrades w2 _ Hm2) as (Hself & Hfiles & _); [ auto | ].
    split; [ exact Hself | exact Hfiles ].
  - destruct (initialize_degrades w2 _ Hm2) as (Hself & Hfiles & _); [ auto | ].
    split; [ exact Hself | exact Hfiles ].
Qed.


End Artifacts.

(** ** What a prediction changes *)

Section Effects.
Context {L : Library}.

(** The environment after [predict_weather], by the outcome. *)
Lemma predict_weather_world (self : AIWeatherPredictor) (w : World)
    (weather_input : WeatherInput.t) :
  fst (snd (predict_weather weather_input (self, w))) = self /\
  files (snd (snd (predict_weather weather_input (self, w)))) = files w /\
  writable (snd (snd (predict_weather weather_input (self, w)))) = writable w /\
  rng (snd (snd (predict_weather weather_input (self, w)))) = rng w /\
  clock (snd (snd (predict_weather weather_input (self, w)))) = clock w /\
  prediction_time_count (snd (snd (predict_weather weather_input (self, w)))) =
    S (prediction_time_count w).
Proof.
  destruct (is_trained self) eqn:Hflag.
  - rewrite (predict_weather_trained_eq _ _ _ Hflag).
    destruct (result_bind (call_transform _ _) _); cbn; auto 10.
  - rewrite (predict_weather_untrained_eq _ _ _ Hflag). cbn. auto 10.
Qed.

(** X10: a prediction request changes neither the predictor nor the files,
    the rights, the generator or the clock; it adds one observation to the
    latency histogram whether it succeeds or fails.  A success reads the
    clock twice, logs nothing and is stamped with the second reading; the
    503 of an untrained predictor reads no clock and logs nothing; a 500
    reads the clock once and logs exactly one ERROR line. *)
Theorem predict_weather_effects (self : AIWeatherPredictor) (w : World)
    (weather_input : WeatherInput.t) :
  fst (snd (predict_weather weather_input (self, w))) = self /\
  files (snd (snd (predict_weather weather_input (self, w)))) = files w /\
  writable (snd (snd (predict_weather weather_input (self, w)))) = writable w /\
  rng (snd (snd (predict_weather weather_input (self, w)))) = rng w /\
  clock (snd (snd (predict_weather weather_input (self, w)))) = clock w /\
  prediction_time_count (snd (snd (predict_weather weather_input (self, w)))) =
    S (prediction_time_count w) /\
  match fst (predict_weather weather_input (self, w)) with
  | Ok r =>
      ticks (snd (snd (predict_weather weather_input (self, w)))) = S (S (ticks w)) /\
      log (snd (snd (predict_weather weather_input (self, w)))) = log w /\
      WeatherPrediction.timestamp r = clock w (S (ticks w))
  | Raise e =>
      if is_trained self
      then
        e = HTTPException 500 "Prediction failed" /\
        ticks (snd (snd (predict_weather weather_input (self, w)))) = S (ticks w) /\
        exists cause : exn,
          log (snd (snd (predict_weather weather_input (self, w)))) =
            (log w ++ [("ERROR", "Prediction error: " +:+ exn_str cause)])%list
      else
        e = HTTPException 503 "Model not trained" /\
        ticks (snd (snd (predict_weather weather_input (self, w)))) = ticks w /\
        log (snd (snd (predict_weather weather_input (self, w)))) = log w
  end.
Proof.
  destruct (predict_weather_world self w weather_input) as (H1 & H2 & H3 & H4 & H5 & H6).
  split; [ exact H1 | ]. split; [ exact H2 | ]. split; [ exact H3 | ].
  split; [ exact H4 | ]. split; [ exact H5 | ]. split; [ exact H6 | ].
  clear. destruct (is_trained self) eqn:Hflag.
  - rewrite (predict_weather_trained_eq _ _ _ Hflag).
    destruct (result_bind (call_transform _ _) _) as [t | cause]; cbn.
    + auto.
    + split; [ reflexivity | ]. split; [ reflexivity | ]. exists cause. reflexivity.
  - rewrite (predict_weather_untrained_eq _ _ _ Hflag). cbn. auto.
Qed.

End Effects.

(** ** The routes over a run of requests *)

Section Serving.
Context {L : Library}.
Variable isoformat : datetime -> string.

(** One request: what the process keeps, and what the counters gain. *)
Lemma handle_keeps (req : app.Request) (p : app.Process) :
  app.predictor (snd (app.handle isoformat req p)) = app.predictor p /\
  files (app.world (snd (app.handle isoformat req p))) = files (app.world p) /\
  writable (app.world (snd (app.handle isoformat req p))) = writable (app.world p) /\
  rng (app.world (snd (app.handle isoformat req p))) = rng (app.world p) /\
  clock (app.world (snd (app.handle isoformat req p))) = clock (app.world p) /\
  app.REQUEST_COUNT (snd (app.handle isoformat req p)) =
    app.REQUEST_COUNT p + app.predictions_asked [req] /\
  prediction_time_count (app.world (snd (app.handle isoformat req p))) =
    prediction_time_count (app.world p) + app.predictions_asked [req].
Proof.
  destruct req as [weather_input | | ].
  - pose proof (predict_weather_world (app.predictor p) (app.world p) weather_input)
      as (H1 & H2 & H3 & H4 & H5 & H6).
    unfold app.handle, app.predict_weather.
    destruct (predict_weather weather_input (app.predictor p, app.world p))
      as [[r | e] [self w']]; cbn in *;
      rewrite H6; repeat split; try assumption; lia.
  - cbn. repeat split; lia.
  - cbn. repeat split; lia.
Qed.

(** One request: the answer, by the predictor the process holds. *)
Lemma handle_answers (req : app.Request) (p : app.Process) :
  app.answered_by (app.predictor p) req (fst (app.handle isoformat req p)).
Proof.
  destruct req as [weather_input | | ].
  - unfold app.handle, app.predict_weather.
    destruct (is_trained (app.predictor p)) eqn:Hflag.
    + rewrite (predict_weather_trained_eq _ _ _ Hflag).
      destruct (result_bind (call_transform _ _) _); cbn; auto.
    + rewrite (predict_weather_untrained_eq _ _ _ Hflag). cbn. auto.
  - cbn. auto.
  - cbn. auto.
Qed.

Lemma serve_cons (req : app.Request) (rest : list app.Request) (p : app.Process) :
  app.serve isoformat (req :: rest) p =
    (fst (app.handle isoformat req p)
       :: fst (app.serve isoformat rest (snd (app.handle isoformat req p))),
     snd (app.serve isoformat rest (snd (app.handle isoformat req p)))).
Proof.
  cbn. destruct (app.handle isoformat req p) as [resp p1].
  cbn. destruct (app.serve isoformat rest p1) as [resps p2]. reflexivity.
Qed.

Lemma predictions_asked_cons (req : app.Request) (rest : list app.Request) :
  app.predictions_asked (req :: rest) =
    app.predictions_asked [req] + app.predictions_asked rest.
Proof. unfold app.predictions_asked. cbn. destruct req; reflexivity. Qed.

Lemma serve_keeps_predictor (reqs : list app.Request) (p : app.Process) :
  app.predictor (snd (app.serve isoformat reqs p)) = app.predictor p.
Proof.
  revert p. induction reqs as [ | req rest IH]; intros p; [ reflexivity | ].
  rewrite serve_cons. cbn [snd]. rewrite IH. apply handle_keeps.
Qed.

Lemma serve_answers (reqs : list app.Request) (p : app.Process) :
  Forall2 (app.answered_by (app.predictor p)) reqs (fst (app.serve isoformat reqs p)).
Proof.
  revert p. induction reqs as [ | req rest IH]; intros p; [ constructor | ].
  rewrite serve_cons. cbn [fst]. constructor.
  - apply handle_answers.
  - specialize (IH (snd (app.handle isoformat req p))).
    destruct (handle_keeps req p) as (Hkeep & _). rewrite Hkeep in IH. exact IH.
Qed.

(** X11: however many requests are served and whatever they are, the
    predictor, the files, the rights to write, the generator and the clock
    function are as they were at start-up: no route trains, reloads or
    persists anything.  REQUEST_COUNT and the latency histogram both grow by
    the number of POST /predict requests, failed ones included; the other
    routes are not counted.  Every request gets one response. *)
Theorem serve_keeps_predictor_and_files (reqs : list app.Request) (p : app.Process) :
  length (fst (app.serve isoformat reqs p)) = length reqs /\
  app.predictor (snd (app.serve isoformat reqs p)) = app.predictor p /\
  files (app.world (snd (app.serve isoformat reqs p))) = files (app.world p) /\
  writable (app.world (snd (app.serve isoformat reqs p))) = writable (app.world p) /\
  rng (app.world (snd (app.serve isoformat reqs p))) = rng (app.world p) /\
  clock (app.world (snd (app.serve isoformat reqs p))) = clock (app.world p) /\
  app.REQUEST_COUNT (snd (app.serve isoformat reqs p)) =
    app.REQUEST_COUNT p + app.predictions_asked reqs /\
  prediction_time_count (app.world (snd (app.serve isoformat reqs p))) =
    prediction_time_count (app.world p) + app.predictions_asked reqs.
Proof.
  revert p. induction reqs as [ | req rest IH]; intros p.
  - cbn. repeat split; lia.
  - rewrite serve_cons, predictions_asked_cons. cbn [fst snd length].
    destruct (IH (snd (app.handle isoformat req p)))
      as (I0 & I1 & I2 & I3 & I4 & I5 & I6 & I7).
    destruct (handle_keeps req p) as (H1 & H2 & H3 & H4 & H5 & H6 & H7).
    split; [ congruence | ]. split; [ congruence | ]. split; [ congruence | ].
    split; [ congruence | ]. split; [ congruence | ]. split; [ congruence | ].
    split; lia.
Qed.

(** X12: an untrained service stays untrained.  Whatever requests follow,
    every POST /predict is answered 503 "Model not trained", every
    GET /health reports model_trained = false and every GET /model/info
    reports trained = false: nothing but a restart trains the model. *)
Theorem untrained_service_stays_untrained (reqs : list app.Request) (p : app.Process) :
  is_trained (app.predictor p) = false ->
  Forall2 app.answered_untrained reqs (fst (app.serve isoformat reqs p)).
Proof.
  intros Hflag.
  eapply Forall2_impl; [ apply serve_answers | ].
  intros req resp. unfold app.answered_by, app.answered_untrained.
  destruct req, resp; try tauto.
  - intros (Ht & _). congruence.
  - intros [[_ He] | [Ht _]]; [ exact He | congruence ].
  - intros (_ & _ & Hh & _). congruence.
  - intros (_ & Hi & _). congruence.
Qed.

(** X13: a service started in any environment answers every request of any
    run in the shape its route fixes, with the version "1.0.0" and the
    trained flag its start-up ended with: a prediction is returned only by a
    trained predictor, for the observation's location and one hour ahead; a
    failed prediction is the 503 of an untrained predictor or the 500 of a
    trained one, nothing else; health and model info repeat flag and
    version. *)
Theorem started_service_answers (w : World) (reqs : list app.Request) :
  model_version (app.predictor (app.start w)) = "1.0.0" /\
  Forall2 (app.answered_by (fst (new_AIWeatherPredictor w))) reqs
    (fst (app.serve isoformat reqs (app.start w))).
Proof.
  split.
  - apply new_AIWeatherPredictor_version.
  - apply (serve_answers reqs (app.start w)).
Qed.

(** One request: clock readings and log lines, by the response. *)
Lemma handle_accounts (req : app.Request) (p : app.Process) :
  ticks (app.world (snd (app.handle isoformat req p))) =
    ticks (app.world p) + app.clock_reads (fst (app.handle isoformat req p)) /\
  exists added : list (string * string),
    log (app.world (snd (app.handle isoformat req p))) = (log (app.world p) ++ added)%list /\
    length added = app.lines_logged (fst (app.handle isoformat req p)) /\
    Forall (fun line => fst line = "ERROR") added.
Proof.
  destruct req as [weather_input | | ].
  - unfold app.handle, app.predict_weather.
    destruct (is_trained (app.predictor p)) eqn:Hflag.
    + rewrite (predict_weather_trained_eq _ _ _ Hflag).
      destruct (result_bind (call_transform _ _) _) as [t | cause]; cbn.
      * split; [ lia | ]. exists []. rewrite app_nil_r. auto.
      * split; [ lia | ]. eexists. split; [ reflexivity | ]. split; [ reflexivity | ].
        constructor; [ reflexivity | constructor ].
    + rewrite (predict_weather_untrained_eq _ _ _ Hflag). cbn.
      split; [ lia | ]. exists []. rewrite app_nil_r. auto.
  - cbn. split; [ lia | ]. exists []. rewrite app_nil_r. auto.
  - cbn. split; [ lia | ]. exists []. rewrite app_nil_r. auto.
Qed.

(** X15: over any run of requests the log only grows, and only by ERROR
    lines, one for each response 500; successful predictions, 503 answers,
    health and model-info requests log nothing.  The clock is read twice for
    each prediction returned, once for each response 500 and each health
    answer, and never otherwise. *)
Theorem serve_accounts (reqs : list app.Request) (p : app.Process) :
  ticks (app.world (snd (app.serve isoformat reqs p))) =
    ticks (app.world p) + sum_list_with app.clock_reads (fst (app.serve isoformat reqs p)) /\
  exists added : list (string * string),
    log (app.world (snd (app.serve isoformat reqs p))) = (log (app.world p) ++ added)%list /\
    length added = sum_list_with app.lines_logged (fst (app.serve isoformat reqs p)) /\
    Forall (fun line => fst line = "ERROR") added.
Proof.
  revert p. induction reqs as [ | req rest IH]; intros p.
  - cbn. split; [ lia | ]. exists []. rewrite app_nil_r. auto.
  - rewrite serve_cons. cbn [fst snd sum_list_with].
    destruct (IH (snd (app.handle isoformat req p)))
      as (It & rest_added & Ilog & Ilen & Ierr).
    destruct (handle_accounts req p) as (Ht & added & Hlog & Hlen & Herr).
    split; [ lia | ].
    exists (added ++ rest_added)%list.
    split; [ rewrite Ilog, Hlog, app_assoc; reflexivity | ].
    split; [ rewrite length_app; lia | ].
    apply Forall_app. split; assumption.
Qed.

(** X4: readiness.  [GET /health] always answers, with status "healthy"
    and service "ai-predictor" whatever the state of the predictor, and with
    the clock reading as timestamp; its [model_trained] field is false
    exactly when [POST /predict] answers 503 "Model not trained" to every
    observation.  The request changes neither the predictor nor
    REQUEST_COUNT. *)
Theorem health_check_readiness (p : app.Process) :
  app.status (fst (app.health_check isoformat p)) = "healthy" /\
  app.service (fst (app.health_check isoformat p)) = "ai-predictor" /\
  app.timestamp (fst (app.health_check isoformat p)) =
    isoformat (clock (app.world p) (ticks (app.world p))) /\
  (app.model_trained (fst (app.health_check isoformat p)) = false <->
   forall weather_input : WeatherInput.t,
     fst (app.predict_weather weather_input (snd (app.health_check isoformat p))) =
       Raise (HTTPException 503 "Model not trained")) /\
  app.predictor (snd (app.health_check isoformat p)) = app.predictor p /\
  app.REQUEST_COUNT (snd (app.health_check isoformat p)) = app.REQUEST_COUNT p.
Proof.
  unfold app.health_check. cbn [fst snd app.status app.service app.timestamp
    app.model_trained app.predictor app.REQUEST_COUNT].
  split; [ reflexivity | ]. split; [ reflexivity | ]. split; [ reflexivity | ].
  split; [ | split; reflexivity ].
  unfold app.predict_weather. cbn [app.predictor app.world app.REQUEST_COUNT].
  split.
  - intros Hflag weather_input.
    rewrite (predict_weather_untrained_eq _ _ _ Hflag). reflexivity.
  - intros Hrefused.
    specialize (Hrefused (WeatherInput.mk "" 0 0 0 0 None)).
    destruct (is_trained (app.predictor p)) eqn:Hflag; [ | reflexivity ].
    rewrite (predict_weather_trained_eq _ _ _ Hflag) in Hrefused.
    destruct (result_bind (call_transform _ _) _); cbn in Hrefused; discriminate Hrefused.
Qed.

End Serving.

(** ** What the log says about start-up *)

Section StartUpLog.
Context {L : Library}.
Local Open Scope py_scope.

(** X14: start-up adds to the log either one ERROR line, or the INFO line
    of a restore, or the two INFO lines of a bootstrap, and nothing else.
    The ERROR line names the exception and goes with the unfitted 50-tree
    regressor; "Loaded pre-trained model" goes with a predictor marked
    trained and untouched files; "Model trained with synthetic data" is
    logged only once both artifacts are written, and then the two files hold
    the predictor's regressor and scaler. *)
Theorem start_up_log (w : World) :
  (exists e : exn,
      log (snd (new_AIWeatherPredictor w)) =
        (log w ++ [("ERROR", "Error initializing model: " +:+ exn_str e)])%list /\
      model (fst (new_AIWeatherPredictor w)) =
        PyRandomForestRegressor (mk_RandomForestRegressor 50 42 None None)) \/
  (log (snd (new_AIWeatherPredictor w)) =
     (log w ++ [("INFO", "Loaded pre-trained model")])%list /\
   is_trained (fst (new_AIWeatherPredictor w)) = true /\
   files (snd (new_AIWeatherPredictor w)) = files w) \/
  (log (snd (new_AIWeatherPredictor w)) =
     (log w ++ [("INFO", "Model trained with synthetic data");
                ("INFO", "Created new model with dummy data")])%list /\
   is_trained (fst (new_AIWeatherPredictor w)) = true /\
   files (snd (new_AIWeatherPredictor w)) !! "model.joblib" =
     Some (Pickle (model (fst (new_AIWeatherPredictor w)))) /\
   files (snd (new_AIWeatherPredictor w)) !! "scaler.joblib" =
     Some (Pickle (scaler (fst (new_AIWeatherPredictor w))))).
Proof.
  destruct (files w !! "model.joblib") as [b | ] eqn:Hm.
  - rewrite new_AIWeatherPredictor_eq.
    unfold _initialize_model, try_except, bind, os_path_exists, joblib_load,
      set_model, set_scaler, set_is_trained, logger_info, logger_error.
    cbn. rewrite Hm. cbn. rewrite Hm.
    destruct b as [m | ]; cbn.
    + destruct (files w !! "scaler.joblib") as [[s | ] | ]; cbn.
      * right. left. auto.
      * left. exists (Exception "UnpicklingError" "invalid load key").
        split; reflexivity.
      * left.
        exists (Exception "FileNotFoundError" "No such file or directory: scaler.joblib").
        split; reflexivity.
    + left. exists (Exception "UnpicklingError" "invalid load key").
      split; reflexivity.
  - rewrite new_AIWeatherPredictor_eq.
    unfold _initialize_model, try_except.
    match goal with
    | |- context [snd (let (_, _) := ?body ?st in _)] =>
        assert (Hrun : body st =
                  bind fit_and_persist
                    (fun _ => logger_info "Created new model with dummy data")
                    (mk_AIWeatherPredictor (PyRandomForestRegressor new_regressor)
                       (PyStandardScaler (mk_StandardScaler None)) "1.0.0" false,
                     with_rng bootstrap_rng w))
    end.
    { step ltac:(unfold os_path_exists; cbn [snd]; rewrite Hm; reflexivity).
      step ltac:(reflexivity).
      unfold bind at 1. rewrite _train_dummy_model_draws. reflexivity. }
    rewrite Hrun. clear Hrun.
    unfold fit_and_persist, persist, scaler_fit_transform, model_fit,
      bind, lift, get_scaler, get_model, set_scaler, set_model, set_is_trained,
      joblib_dump, logger_info, logger_error, result_bind.
    generalize bootstrap_features, bootstrap_labels, bootstrap_rng. intros X y g.
    cbn.
    destruct (scaler_fit X) as [p | e]; cbn;
      [ | left; eexists; split; reflexivity ].
    destruct (scaler_transform p (map (map PyFloat) X)) as [Xs | e]; cbn;
      [ | left; eexists; split; reflexivity ].
    destruct (forest_fit 100 (Some 10%Z) 42 Xs y) as [f | e]; cbn;
      [ | left; eexists; split; reflexivity ].
    destruct (writable w "model.joblib"); cbn;
      [ | left; exists (Exception "PermissionError" "Permission denied: model.joblib");
          split; reflexivity ].
    destruct (writable w "scaler.joblib"); cbn;
      [ | left; exists (Exception "PermissionError" "Permission denied: scaler.joblib");
          split; reflexivity ].
    right. right.
    split; [ rewrite <- app_assoc; reflexivity | ].
    split; [ reflexivity | ].
    split.
    + rewrite lookup_insert_ne by discriminate. apply lookup_insert_eq.
    + apply lookup_insert_eq.
Qed.

End StartUpLog.

(** * The service on concrete inputs *)

Module Runs.
Import Demo.

Lemma demo_scaler_fit : scaler_fit bootstrap_features = Ok demo_params.
Proof. vm_compute. reflexivity. Qed.

Lemma demo_scaler_transform :
  scaler_transform demo_params (map (map PyFloat) bootstrap_features) = Ok demo_scaled.
Proof. vm_compute. reflexivity. Qed.

Lemma demo_forest_fit :
  forest_fit 100 (Some 10%Z) 42 demo_scaled bootstrap_labels = Ok demo_forest.
Proof. vm_compute. reflexivity. Qed.

Lemma noon_run :
  fst (predict_weather observation (trained_predictor, fresh_world true)) = Ok noon_prediction.
Proof. reflexivity. Qed.

Lemma later_run :
  fst (predict_weather observation (trained_predictor, later_world)) = Ok later_prediction.
Proof. reflexivity. Qed.

(** A first start in an empty writable directory trains and persists. *)
Lemma fresh_start :
  fst (new_AIWeatherPredictor (fresh_world true)) = trained_predictor.
Proof.
  rewrite (initialize_bootstraps (fresh_world true) demo_params demo_scaled demo_forest).
  - reflexivity.
  - reflexivity.
  - apply demo_scaler_fit.
  - apply demo_scaler_transform.
  - apply demo_forest_fit.
  - reflexivity.
  - reflexivity.
Qed.

(** A start with a regressor artifact and no scaler artifact degrades. *)
Lemma stale_start :
  fst (new_AIWeatherPredictor stale_world) =
    mk_AIWeatherPredictor (PyRandomForestRegressor fallback_regressor)
      (PyStandardScaler (mk_StandardScaler None)) "1.0.0" false.
Proof.
  destruct (initialize_degrades stale_world _ eq_refl) as (Hself & _).
  - right. left. reflexivity.
  - exact Hself.
Qed.

(** C1 at the scenario's observation. *)
Lemma predict_weather_confidence_witness :
  PrimFloat.leb 0.6 (WeatherPrediction.confidence noon_prediction) = true /\
  PrimFloat.leb (WeatherPrediction.confidence noon_prediction) 0.95 = true /\
  exists confidence : float,
    WeatherPrediction.confidence noon_prediction = py_round confidence 3 /\
    PrimFloat.leb 0.6 confidence = true /\
    PrimFloat.leb confidence 0.95 = true.
Proof.
  destruct (predict_weather_confidence trained_predictor (fresh_world true) observation
              noon_prediction
              (snd (predict_weather observation (trained_predictor, fresh_world true))))
    as (p & _ & c & _ & Hc & Hlo & Hhi & Hlo' & Hhi').
  - reflexivity.
  - split; [ exact Hlo' | ]. split; [ exact Hhi' | ].
    exists c. split; [ exact Hc | split; [ exact Hlo | exact Hhi ] ].
Defined.

(** C2 on the predictor that a start with a missing scaler artifact leaves. *)
Lemma predict_weather_model_unavailable_witness :
  fst (predict_weather observation (fst (new_AIWeatherPredictor stale_world), stale_world)) =
    Raise (HTTPException 503 "Model not trained").
Proof.
  refine (proj1 (predict_weather_model_unavailable _ stale_world observation _)).
  rewrite stale_start. reflexivity.
Defined.

(** C3 as stated fails: with a regressor artifact and no scaler artifact,
    start-up neither restores nor bootstraps; it leaves an untrained
    predictor. *)
Lemma initialize_as_stated_fails : ~ initialize_as_stated stale_world.
Proof.
  intros [_ Hother].
  destruct Hother as ((f & Hmodel) & _ & Hscaler).
  - intros (m & s & _ & Hs). discriminate Hs.
  - rewrite stale_start in Hmodel. discriminate Hmodel.
Qed.

(** C3, the bootstrap case, in an empty writable directory. *)
Lemma initialize_outcome_witness :
  fst (new_AIWeatherPredictor (fresh_world true)) = trained_predictor /\
  files (snd (new_AIWeatherPredictor (fresh_world true))) =
    <["scaler.joblib" := Pickle (scaler trained_predictor)]>
      (<["model.joblib" := Pickle (model trained_predictor)]> ∅).
Proof.
  apply (initialize_outcome (fresh_world true) demo_params demo_scaled demo_forest).
  - apply demo_scaler_fit.
  - apply demo_scaler_transform.
  - apply demo_forest_fit.
  - reflexivity.
  - reflexivity.
Defined.

(** C4 at its failing input: an empty directory that cannot be written. *)
Lemma refused_write_leaves_flag_set_witness :
  is_trained (fst (new_AIWeatherPredictor (fresh_world false))) = true /\
  model (fst (new_AIWeatherPredictor (fresh_world false))) =
    PyRandomForestRegressor (mk_RandomForestRegressor 50 42 None None) /\
  fst (predict_weather observation
         (fst (new_AIWeatherPredictor (fresh_world false)), later_world)) =
    Raise (HTTPException 500 "Prediction failed").
Proof.
  destruct (refused_write_leaves_flag_set (fresh_world false)
              demo_params demo_scaled demo_forest) as (Hflag & Hmodel & Hpredict).
  - reflexivity.
  - apply demo_scaler_fit.
  - apply demo_scaler_transform.
  - apply demo_forest_fit.
  - reflexivity.
  - split; [ exact Hflag | split; [ exact Hmodel | apply Hpredict ] ].
Defined.

(** C6 at the scenario's observation. *)
Lemma predict_weather_feature_vector_witness :
  fst (predict_weather observation (trained_predictor, fresh_world true)) =
    match result_bind
            (call_transform (scaler trained_predictor)
               [[ PyFloat 20.0; PyInt 50; PyFloat 1013; PyFloat 5.0; PyInt 12 ]])
            (fun xs => result_bind (call_predict (model trained_predictor) xs) index0) with
    | Ok _ => Ok noon_prediction
    | Raise _ => Raise (HTTPException 500 "Prediction failed")
    end.
Proof.
  destruct (predict_weather_feature_vector trained_predictor (fresh_world true) observation
              eq_refl) as (Heq & _ & _).
  rewrite Heq. reflexivity.
Defined.


(** C8 on a predictor whose regressor is not fitted: the cause is logged,
    the caller sees the fixed failure. *)
Lemma predict_weather_failures_witness :
  predict_weather observation (flagged_predictor, fresh_world true) =
    (Raise (HTTPException 500 "Prediction failed"),
     (flagged_predictor,
      mk_World ∅ (fun _ => true) 7%Z at_noon 1
        [("ERROR", "Prediction error: This instance is not fitted yet.")] 1)).
Proof.
  refine (proj2 (predict_weather_failures flagged_predictor (fresh_world true) observation)
            eq_refl (Exception "NotFittedError" "This instance is not fitted yet.") _).
  right. eexists. split; [ reflexivity | left; reflexivity ].
Defined.

(** C9 in two environments that share the hour and nothing else. *)
Lemma predict_weather_deterministic_witness :
  WeatherPrediction.predicted_temp noon_prediction =
    WeatherPrediction.predicted_temp later_prediction /\
  WeatherPrediction.confidence noon_prediction =
    WeatherPrediction.confidence later_prediction /\
  fst (snd (predict_weather observation (trained_predictor, later_world))) =
    trained_predictor.
Proof.
  pose proof (predict_weather_deterministic trained_predictor (fresh_world true) later_world
                observation eq_refl) as H.
  rewrite noon_run, later_run in H.
  destruct H as ((_ & Htemp & Hconf & _ & _) & _ & Hself).
  split; [ exact Htemp | split; [ exact Hconf | exact Hself ] ].
Defined.

(** C10: the scenario's observation with and without a history. *)
Lemma historical_data_noninterference_witness :
  predict_weather observation (trained_predictor, fresh_world true) =
  predict_weather observation_with_history (trained_predictor, fresh_world true).
Proof.
  apply (historical_data_noninterference (trained_predictor, fresh_world true)
           observation observation_with_history); reflexivity.
Defined.

(** X2 in two empty writable directories that differ in everything else. *)
Lemma bootstrap_reproducible_witness :
  fst (new_AIWeatherPredictor (fresh_world true)) = fst (new_AIWeatherPredictor other_world) /\
  forall (weather_input : WeatherInput.t) (w : World),
    predict_weather weather_input (fst (new_AIWeatherPredictor (fresh_world true)), w) =
    predict_weather weather_input (fst (new_AIWeatherPredictor other_world), w).
Proof.
  apply (bootstrap_reproducible (fresh_world true) other_world); reflexivity.
Defined.

(** X3: a restart in the directory a first start left. *)
Lemma persist_reload_round_trip_witness :
  fst (new_AIWeatherPredictor restart_world) =
    fst (new_AIWeatherPredictor (fresh_world true)) /\
  forall (weather_input : WeatherInput.t) (w' : World),
    predict_weather weather_input (fst (new_AIWeatherPredictor restart_world), w') =
    predict_weather weather_input (fst (new_AIWeatherPredictor (fresh_world true)), w').
Proof.
  apply (persist_reload_round_trip (fresh_world true) restart_world
           demo_params demo_scaled demo_forest).
  - reflexivity.
  - apply demo_scaler_fit.
  - apply demo_scaler_transform.
  - apply demo_forest_fit.
  - reflexivity.
  - reflexivity.
  - rewrite (initialize_bootstraps (fresh_world true) demo_params demo_scaled demo_forest).
    + reflexivity.
    + reflexivity.
    + apply demo_scaler_fit.
    + apply demo_scaler_transform.
    + apply demo_forest_fit.
    + reflexivity.
    + reflexivity.
Defined.

(** X5 at an observation whose confidence is rounded from 0.8287 to
    0.829. *)
Lemma returned_confidence_in_range_witness :
  WeatherPrediction.confidence cold_prediction = 0.829%float /\
  PrimFloat.leb 0.6 (WeatherPrediction.confidence cold_prediction) = true /\
  PrimFloat.leb (WeatherPrediction.confidence cold_prediction) 0.95 = true.
Proof.
  split; [ reflexivity | ].
  apply (returned_confidence_in_range trained_predictor (fresh_world true) cold_observation
           cold_prediction
           (snd (predict_weather cold_observation (trained_predictor, fresh_world true)))).
  - exact np_round_keeps_range.
  - reflexivity.
Defined.

(** The remaps of [_train_dummy_model] are computed in binary64: for the
    largest float below 1 the pressure column rounds to 1050 exactly, while
    the temperature and humidity columns stay below 30 and 100. *)
Lemma remap_of_largest_draw :
  update_col 2 (fun x => x * 100 + 950)%float [[ 0; 0; next_down 1; 0; 0 ]]%float =
    Ok [[ 0; 0; 1050; 0; 0 ]]%float /\
  update_col 0 (fun x => x * 40 - 10)%float [[ next_down 1; 0; 0; 0; 0 ]]%float =
    Ok [[ 29.999999999999993; 0; 0; 0; 0 ]]%float /\
  update_col 1 (fun x => x * 100)%float [[ 0; next_down 1; 0; 0; 0 ]]%float =
    Ok [[ 0; 99.999999999999986; 0; 0; 0 ]]%float.
Proof. repeat split. Qed.


Lemma demo_draws_in_unit_interval : bootstrap_draws_in_unit_interval.
Proof. vm_compute. reflexivity. Qed.


End Runs.

(** * The routes and the artifacts on concrete inputs *)

Module ServiceRuns.
Import Demo.

(** A start that can write the regressor file only leaves it alone. *)
Lemma half_written_start :
  new_AIWeatherPredictor half_writable_world =
    (flagged_predictor,
     with_log [("ERROR", "Error initializing model: Permission denied: scaler.joblib")]
       (with_files {[ "model.joblib" := Pickle (model trained_predictor) ]}
          (with_rng bootstrap_rng half_writable_world))).
Proof.
  rewrite (initialize_scaler_write_refused half_writable_world
             demo_params demo_scaled demo_forest).
  - reflexivity.
  - reflexivity.
  - apply Runs.demo_scaler_fit.
  - apply Runs.demo_scaler_transform.
  - apply Runs.demo_forest_fit.
  - reflexivity.
  - reflexivity.
Qed.

Lemma half_written_files :
  files half_persisted_world = files (snd (new_AIWeatherPredictor half_writable_world)).
Proof. rewrite half_written_start. reflexivity. Qed.

(** X8 in a directory where only model.joblib can be written, and a later
    start on the file it left. *)
Lemma scaler_write_refused_then_restart_witness :
  files (snd (new_AIWeatherPredictor half_writable_world)) =
    <["model.joblib" :=
        Pickle (PyRandomForestRegressor
                  (mk_RandomForestRegressor 100 42 (Some 10%Z) (Some demo_forest)))]>
      (files half_writable_world) /\
  fst (new_AIWeatherPredictor half_writable_world) = flagged_predictor /\
  fst (new_AIWeatherPredictor half_persisted_world) =
    mk_AIWeatherPredictor (PyRandomForestRegressor (mk_RandomForestRegressor 50 42 None None))
      (PyStandardScaler (mk_StandardScaler None)) "1.0.0" false /\
  files (snd (new_AIWeatherPredictor half_persisted_world)) = files half_persisted_world.
Proof.
  destruct (scaler_write_refused_then_restart half_writable_world half_persisted_world
              demo_params demo_scaled demo_forest) as (Hleft & Hflagged & Hlater & Hsame).
  - reflexivity.
  - apply Runs.demo_scaler_fit.
  - apply Runs.demo_scaler_transform.
  - apply Runs.demo_forest_fit.
  - reflexivity.
  - reflexivity.
  - apply half_written_files.
  - split; [ exact Hleft | split; [ exact Hflagged | split; [ exact Hlater | exact Hsame ] ] ].
Defined.


Lemma stale_service_untrained :
  is_trained (app.predictor (app.start stale_world)) = false.
Proof.
  unfold app.start. cbn [app.predictor]. rewrite Runs.stale_start. reflexivity.
Qed.

(** X12 for a service started beside a regressor artifact without its
    scaler, over a morning of requests. *)
Lemma untrained_service_stays_untrained_witness :
  Forall2 app.answered_untrained morning
    (fst (app.serve isoformat morning (app.start stale_world))).
Proof.
  apply (untrained_service_stays_untrained isoformat morning (app.start stale_world)).
  apply stale_service_untrained.
Defined.

End ServiceRuns.
